(** * ComfyUI-Midjourney: the job client and the path extractor of module/node.py

    A shallow embedding of [_poll_job_result], [MidjourneyAPI.run],
    [MidjourneyAPISubmit.submit], [MidjourneyAPIPoll.poll] and
    [MidjourneyJSONExtractor.extract], over a model of the Python values they
    handle, of the [json] module they call and of the effects they perform
    (HTTP requests, the wall clock, sleeping, logging). *)

From Stdlib Require Import ZArith String Ascii List Bool Lia DecimalString.
From Stdlib Require Import PrimFloat FloatOps SpecFloat.
From Stdlib Require Import DecimalPos.
Import ListNotations.

Set Warnings "-register-all".

Open Scope list_scope.
Open Scope string_scope.
Open Scope Z_scope.

(** ** Python strings

    A [str] is modelled by its UTF-8 encoding, one [ascii] per byte.  The
    Chinese text of the messages is kept as it is in the source. *)

Definition ord (c : ascii) : Z := Z.of_N (N_of_ascii c).
Definition chr (z : Z) : ascii := ascii_of_N (Z.to_N z).

Definition bytes (l : list Z) : string := string_of_list_ascii (map chr l).

(** The double quote character, and a string made of it. *)
Definition dquote : ascii := chr 34.
Definition dq : string := String dquote EmptyString.

Fixpoint str_reverse (s : string) : string :=
  match s with
  | EmptyString => EmptyString
  | String c r => str_reverse r ++ String c EmptyString
  end.

Fixpoint join (sep : string) (l : list string) : string :=
  match l with
  | [] => ""
  | [x] => x
  | x :: r => x ++ sep ++ join sep r
  end.

Fixpoint drop_prefix (p s : string) : option string :=
  match p, s with
  | EmptyString, _ => Some s
  | String a p', String b s' => if Ascii.eqb a b then drop_prefix p' s' else None
  | String _ _, EmptyString => None
  end.

(** The characters for which [str.isspace] holds, in UTF-8: U+0009..U+000D,
    U+001C..U+0020, U+0085, U+00A0, U+1680, U+2000..U+200A, U+2028, U+2029,
    U+202F, U+205F, U+3000. *)
Definition whitespace : list string :=
  map bytes
    ([[9]; [10]; [11]; [12]; [13]; [28]; [29]; [30]; [31]; [32];
      [194; 133]; [194; 160]; [225; 154; 128]]
     ++ map (fun b => [226; 128; b])
          [128; 129; 130; 131; 132; 133; 134; 135; 136; 137; 138]
     ++ [[226; 128; 168]; [226; 128; 169]; [226; 128; 175]; [226; 129; 159];
         [227; 128; 128]])%list.

Fixpoint skip_one (ws : list string) (s : string) : option string :=
  match ws with
  | [] => None
  | p :: ws' =>
      match drop_prefix p s with
      | Some r => Some r
      | None => skip_one ws' s
      end
  end.

Fixpoint lstrip_with (ws : list string) (n : nat) (s : string) : string :=
  match n with
  | O => s
  | S n' =>
      match skip_one ws s with
      | Some r => lstrip_with ws n' r
      | None => s
      end
  end.

Definition lstrip (s : string) : string :=
  lstrip_with whitespace (String.length s) s.

Definition rstrip (s : string) : string :=
  str_reverse
    (lstrip_with (map str_reverse whitespace) (String.length s) (str_reverse s)).

(** [s.strip()] *)
Definition strip (s : string) : string := rstrip (lstrip s).

(** [not s or s.strip() == ""], the test that guards every required input. *)
Definition blank (s : string) : bool := (s =? "")%string || (strip s =? "")%string.

(** [s.split('.')] *)
Fixpoint split_dot (s : string) : list string :=
  match s with
  | EmptyString => [""]
  | String c r =>
      if Ascii.eqb c "."%char then "" :: split_dot r
      else
        match split_dot r with
        | h :: t => String c h :: t
        | [] => [String c ""]
        end
  end.

(** A digit of ASCII. *)
Definition is_digit (c : ascii) : bool := (48 <=? ord c) && (ord c <=? 57).


(** The number that a string of ASCII digits writes, after [acc]. *)
Fixpoint int_digits (acc : Z) (s : string) : Z :=
  match s with
  | EmptyString => acc
  | String c r => int_digits (10 * acc + (ord c - 48)) r
  end.

(** The longest prefix of ASCII digits. *)
Fixpoint span_digits (s : string) : string * string :=
  match s with
  | String c r =>
      if is_digit c then let '(d, rest) := span_digits r in (String c d, rest)
      else ("", s)
  | EmptyString => ("", s)
  end.

(** [str(n)] for an [int]. *)
Definition str_of_Z (n : Z) : string := NilZero.string_of_int (Z.to_int n).

(** A byte that continues a character begun before it. *)
Definition is_continuation (c : ascii) : bool := (128 <=? ord c) && (ord c <? 192).

(** [s[:n]]: the first [n] characters. *)
Fixpoint take (n : nat) (s : string) : string :=
  match s with
  | EmptyString => ""
  | String c r =>
      if is_continuation c then String c (take n r)
      else
        match n with
        | O => ""
        | S n' => String c (take n' r)
        end
  end.

(** [len(s)]: the number of characters. *)
Fixpoint len (s : string) : Z :=
  match s with
  | EmptyString => 0
  | String c r => if is_continuation c then len r else 1 + len r
  end.

(** *** The digits of every script

    [str.isdigit()] and [int()] go by the Unicode character database, here that
    of Unicode 14.0, which CPython 3.11 carries. *)

(** What the first byte of a character gives of its code point, and how many
    continuation bytes it announces; a continuation byte out of place is no
    character, and counts as the code point -1. *)
Definition lead_bits (n : Z) : Z :=
  if n <? 128 then n
  else if n <? 192 then -1
  else if n <? 224 then n - 192
  else if n <? 240 then n - 224
  else n - 240.

Definition lead_more (n : Z) : nat :=
  if n <? 192 then 0 else if n <? 224 then 1 else if n <? 240 then 2 else 3.

(** The code points of a string, read off its UTF-8 bytes: [cp] is the
    character begun, which each of the [more] continuation bytes it still
    waits for extends by six bits. *)
Fixpoint code_points_from (more : nat) (cp : Z) (s : string) : list Z :=
  match s with
  | EmptyString => [cp]
  | String c r =>
      match more with
      | S more' =>
          if is_continuation c
          then code_points_from more' (cp * 64 + (ord c - 128)) r
          else cp :: code_points_from (lead_more (ord c)) (lead_bits (ord c)) r
      | O => cp :: code_points_from (lead_more (ord c)) (lead_bits (ord c)) r
      end
  end.

Definition code_points (s : string) : list Z :=
  match s with
  | EmptyString => []
  | String c r => code_points_from (lead_more (ord c)) (lead_bits (ord c)) r
  end.

(** The decimal digits (category Nd) come in runs of ten, zero to nine; these
    are the zeros, from that of ASCII to that of the segmented digits. *)
Definition decimal_zeros : list Z :=
  [48; 1632; 1776; 1984; 2406; 2534; 2662; 2790; 2918; 3046; 3174; 3302; 3430;
   3558; 3664; 3792; 3872; 4160; 4240; 6112; 6160; 6470; 6608; 6784; 6800; 6992;
   7088; 7232; 7248; 42528; 43216; 43264; 43472; 43504; 43600; 44016; 65296;
   66720; 68912; 69734; 69872; 69942; 70096; 70384; 70736; 70864; 71248; 71360;
   71472; 71904; 72016; 72784; 73040; 73120; 92768; 92864; 93008; 120782;
   120792; 120802; 120812; 120822; 123200; 123632; 125264; 130032].

(** The digits that are not decimal ([Numeric_Type=Digit]): superscripts,
    subscripts, circled digits and the like, by first and last code point. *)
Definition other_digits : list (Z * Z) :=
  [(178, 179); (185, 185); (4969, 4977); (6618, 6618); (8304, 8304);
   (8308, 8313); (8320, 8329); (9312, 9320); (9332, 9340); (9352, 9360);
   (9450, 9450); (9461, 9469); (9471, 9471); (10102, 10110); (10112, 10120);
   (10122, 10130); (68160, 68163); (69216, 69224); (69714, 69722);
   (127232, 127242)].

Fixpoint decimal_from (zeros : list Z) (cp : Z) : option Z :=
  match zeros with
  | [] => None
  | z :: r =>
      if (z <=? cp) && (cp <=? z + 9) then Some (cp - z) else decimal_from r cp
  end.

(** [unicodedata.decimal(chr(cp))], where the character has one. *)
Definition decimal (cp : Z) : option Z := decimal_from decimal_zeros cp.

Definition in_range (cp : Z) (r : Z * Z) : bool :=
  (fst r <=? cp) && (cp <=? snd r).

(** [chr(cp).isdigit()] *)
Definition is_digit_char (cp : Z) : bool :=
  match decimal cp with
  | Some _ => true
  | None => existsb (in_range cp) other_digits
  end.

(** [s.isdigit()]: there is a character, and every character is a digit. *)
Definition isdigit (s : string) : bool :=
  match code_points s with
  | [] => false
  | l => forallb is_digit_char l
  end.

(** What [int()] makes of a character before it reads: a character of ASCII
    stays, a decimal digit of another script becomes the ASCII digit of its
    value, and any other character a question mark.  (A space of another
    script becomes a blank; it is no digit either.) *)
Definition ascii_digit (cp : Z) : ascii :=
  if cp <? 128 then chr cp
  else
    match decimal cp with
    | Some d => chr (48 + d)
    | None => "?"%char
    end.

Definition ascii_digits (s : string) : string :=
  string_of_list_ascii (map ascii_digit (code_points s)).

(** The value of [int(s)] for a string of decimal digits. *)
Definition int_of_str (s : string) : Z := int_digits 0 (ascii_digits s).

(** ** Python values

    The values the nodes receive and return are those of decoded JSON:
    [None], [bool], [int], [float], [str], [list] and [dict] with string keys.
    A [dict] keeps its insertion order, so it is an association list. *)

Inductive value : Type :=
| VNone
| VBool (b : bool)
| VInt (n : Z)
| VFloat (f : float)
| VStr (s : string)
| VList (l : list value)
| VDict (d : list (string * value)).

Fixpoint dict_get (d : list (string * value)) (k : string) : option value :=
  match d with
  | [] => None
  | (k', v) :: r => if (k' =? k)%string then Some v else dict_get r k
  end.

(** [d[k] = v]: an existing key keeps its place. *)
Fixpoint dict_set (d : list (string * value)) (k : string) (v : value)
  : list (string * value) :=
  match d with
  | [] => [(k, v)]
  | (k', v') :: r =>
      if (k' =? k)%string then (k', v) :: r else (k', v') :: dict_set r k v
  end.

(** Comparison of a [float] with an [int], exact as in Python: [None] for a
    NaN, which compares unequal and unordered to everything. *)
Definition float_cmp_Z (f : float) (n : Z) : option comparison :=
  match Prim2SF f with
  | S754_nan => None
  | S754_infinity s => Some (if s then Lt else Gt)
  | S754_zero _ => Some (0 ?= n)
  | S754_finite s m e =>
      let mz := if s then Z.neg m else Z.pos m in
      if 0 <=? e then Some (mz * 2 ^ e ?= n) else Some (mz ?= n * 2 ^ (- e))
  end.

(** [f > n] *)
Definition float_gt_Z (f : float) (n : Z) : bool :=
  match float_cmp_Z f n with
  | Some Gt => true
  | _ => false
  end.

(** [f == n] *)
Definition float_eq_Z (f : float) (n : Z) : bool :=
  match float_cmp_Z f n with
  | Some Eq => true
  | _ => false
  end.

(** [v == n] for an [int] literal [n]: [True == 1] and [2.0 == 2] hold. *)
Definition py_eq_int (v : value) (n : Z) : bool :=
  match v with
  | VBool b => (if b then 1 else 0) =? n
  | VInt z => z =? n
  | VFloat f => float_eq_Z f n
  | _ => false
  end.

(** The truth value of [v], as [if v] and [and] take it. *)
Definition truthy (v : value) : bool :=
  match v with
  | VNone => false
  | VBool b => b
  | VInt z => negb (z =? 0)
  | VFloat f => negb (float_eq_Z f 0)
  | VStr s => negb (s =? "")%string
  | VList l => match l with [] => false | _ => true end
  | VDict d => match d with [] => false | _ => true end
  end.

(** [type(v).__name__] *)
Definition type_name (v : value) : string :=
  match v with
  | VNone => "NoneType"
  | VBool _ => "bool"
  | VInt _ => "int"
  | VFloat _ => "float"
  | VStr _ => "str"
  | VList _ => "list"
  | VDict _ => "dict"
  end.

(** ** Exceptions

    The classes the handlers of node.py tell apart.
    [requests.exceptions.JSONDecodeError], which [Response.json] raises, derives
    from both [RequestException] and [json.JSONDecodeError]. *)

Inductive exn_class : Type :=
| RequestException
| RequestsJSONDecodeError
| JSONDecodeError
| KeyError
| ValueError
| AttributeError
| RecursionError
| OtherException.

Record exn : Type := mkExn { exn_cls : exn_class; exn_arg : string }.

(** [isinstance(e, c)], for the classes named in an [except] clause. *)
Definition isinstance (e : exn) (c : exn_class) : bool :=
  match c, exn_cls e with
  | RequestException, (RequestException | RequestsJSONDecodeError) => true
  | JSONDecodeError, (JSONDecodeError | RequestsJSONDecodeError) => true
  | RequestsJSONDecodeError, RequestsJSONDecodeError => true
  | KeyError, KeyError => true
  | ValueError, (ValueError | JSONDecodeError | RequestsJSONDecodeError) => true
  | AttributeError, AttributeError => true
  | RecursionError, RecursionError => true
  | _, _ => false
  end.

(** ** The world and its effects

    The remote service and the clock are oracles: [net w n] is the outcome of the
    [n]-th HTTP request and [clock w n] the [n]-th reading of [time.time()].  The
    world counts the requests and readings made so far and records the requests,
    sleeps and log lines in order. *)

Record Response : Type := mkResponse {
  resp_error : option exn;   (* what [raise_for_status()] raises, if anything *)
  resp_json : exn + value    (* what [json()] raises or returns *)
}.

Inductive http_result : Type :=
| HttpRaises (e : exn)
| HttpReturns (r : Response).

Inductive event : Type :=
| EvPost (url : string) (headers : list (string * string)) (body : value) (timeout : Z)
| EvGet (url : string) (headers : list (string * string)) (timeout : Z)
| EvSleep (secs : Z)
| EvLog (msg : string).

Record World : Type := mkWorld {
  net : nat -> http_result;
  clock : nat -> float;
  n_net : nat;
  n_clock : nat;
  trace : list event
}.

(** A computation returns, raises, or is cut by the bound put on its loop. *)
Inductive outcome (A : Type) : Type :=
| Return (a : A)
| Raise (e : exn)
| OutOfFuel.

Arguments Return {A} a.
Arguments Raise {A} e.
Arguments OutOfFuel {A}.

Definition M (A : Type) : Type := World -> outcome A * World.

Definition ret {A : Type} (a : A) : M A := fun w => (Return a, w).

Definition raise {A : Type} (e : exn) : M A := fun w => (Raise e, w).

Definition bind {A B : Type} (m : M A) (k : A -> M B) : M B :=
  fun w =>
    match m w with
    | (Return a, w') => k a w'
    | (Raise e, w') => (Raise e, w')
    | (OutOfFuel, w') => (OutOfFuel, w')
    end.

(** [try: m  except Exception as e: h e]; the handler tells the classes apart. *)
Definition try_except {A : Type} (m : M A) (h : exn -> M A) : M A :=
  fun w =>
    match m w with
    | (Raise e, w') => h e w'
    | r => r
    end.

Notation "x <- m ;; k" := (bind m (fun x => k))
  (at level 61, m at next level, right associativity).
Notation "m ;; k" := (bind m (fun _ => k))
  (at level 61, right associativity).

Definition lift {A : Type} (r : exn + A) : M A :=
  match r with
  | inl e => raise e
  | inr a => ret a
  end.

Definition emit (ev : event) (w : World) : World :=
  mkWorld (net w) (clock w) (n_net w) (n_clock w) (trace w ++ [ev])%list.

(** [logger.info(msg)] *)
Definition logger_info (msg : string) : M unit :=
  fun w => (Return tt, emit (EvLog msg) w).

(** [time.time()] *)
Definition time_time : M float :=
  fun w => (Return (clock w (n_clock w)),
            mkWorld (net w) (clock w) (n_net w) (S (n_clock w)) (trace w)).

(** [time.sleep(secs)], which refuses a negative length. *)
Definition time_sleep (secs : Z) : M unit :=
  fun w =>
    if secs <? 0 then (Raise (mkExn ValueError "sleep length must be non-negative"), w)
    else (Return tt, emit (EvSleep secs) w).

Definition http_request (ev : event) : M Response :=
  fun w =>
    let w' :=
      mkWorld (net w) (clock w) (S (n_net w)) (n_clock w) (trace w ++ [ev])%list in
    match net w (n_net w) with
    | HttpRaises e => (Raise e, w')
    | HttpReturns r => (Return r, w')
    end.

(** [requests.post(url, headers=headers, json=body, timeout=timeout)] *)
Definition requests_post (url : string) (headers : list (string * string))
  (body : value) (timeout : Z) : M Response :=
  http_request (EvPost url headers body timeout).

(** [requests.get(url, headers=headers, timeout=timeout)] *)
Definition requests_get (url : string) (headers : list (string * string))
  (timeout : Z) : M Response :=
  http_request (EvGet url headers timeout).

(** [response.raise_for_status()] *)
Definition raise_for_status (r : Response) : M unit :=
  match resp_error r with
  | Some e => raise e
  | None => ret tt
  end.

(** [response.json()] *)
Definition response_json (r : Response) : M value := lift (resp_json r).

(** [v.get(k, default)]: only a [dict] has the method. *)
Definition py_get (v : value) (k : string) (default : value) : M value :=
  match v with
  | VDict d =>
      ret (match dict_get d k with
           | Some x => x
           | None => default
           end)
  | _ => raise (mkExn AttributeError
                  ("'" ++ type_name v ++ "' object has no attribute 'get'"))
  end.

(** [while True: body], cut after [fuel] iterations; the body says whether the
    loop goes on ([continue]) or the function returns. *)
Inductive loop_ctl (A : Type) : Type :=
| Continue
| Done (a : A).

Arguments Continue {A}.
Arguments Done {A} a.

Fixpoint while_true {A : Type} (fuel : nat) (body : M (loop_ctl A)) : M A :=
  match fuel with
  | O => fun w => (OutOfFuel, w)
  | S fuel' =>
      c <- body ;;
      match c with
      | Continue => while_true fuel' body
      | Done a => ret a
      end
  end.

(** [if not s or s.strip() == "": raise ValueError(msg)] *)
Definition require_nonblank (s msg : string) : M unit :=
  if blank s then raise (mkExn ValueError msg) else ret tt.

(** ** module/logging.py

    The body of the module configures the logger that
    [logging.getLogger("ComfyUI-Midjourney")] returns.  The registry of
    [logging] hands the same logger to every import, so the body is a change of
    the state of that logger: its handlers and its level. *)

Record Handler : Type := mkHandler { formatter : option string }.

Record Logger : Type := mkLogger { handlers : list Handler; level : Z }.

(** [logging.INFO] *)
Definition INFO : Z := 20.

(** [logging.StreamHandler()] *)
Definition StreamHandler : Handler := mkHandler None.

(** [handler.setFormatter(logging.Formatter(fmt))] *)
Definition setFormatter (handler : Handler) (fmt : string) : Handler :=
  mkHandler (Some fmt).

(** [logger.addHandler(handler)], for a handler made anew. *)
Definition addHandler (logger : Logger) (handler : Handler) : Logger :=
  mkLogger (handlers logger ++ [handler])%list (level logger).

(** [logger.setLevel(l)] *)
Definition setLevel (logger : Logger) (l : Z) : Logger :=
  mkLogger (handlers logger) l.

(** The module body, from [if not logger.handlers:] on. *)
Definition configure_logger (logger : Logger) : Logger :=
  match handlers logger with
  | [] =>
      let handler := StreamHandler in
      let handler := setFormatter handler "[MidjourneyAPI] %(message)s" in
      let logger := addHandler logger handler in
      setLevel logger INFO
  | _ :: _ => logger
  end.

(** ** A runtime and sample worlds for the closed instances

    Witnesses and counterexamples are closed terms, so they fix the three
    functions of the runtime that the model leaves open.  [read_float] reads a
    JSON number literal, correctly rounded; [show_float] prints a float by its
    exact decimal expansion, which is its [repr] when that expansion is the
    shortest one (1.5, 0.25, 2.0); [show_str] puts single quotes around a
    string, which is its [repr] when the string has no quote, backslash or
    unprintable character.  They fix its two bounds as well: the limit of
    [int()] is the one CPython starts with, and the decoder has room for 992
    containers, which is what an interpreter with the recursion limit of 1000
    leaves it a few calls down. *)

(** [sys.int_info.default_max_str_digits] *)
Definition default_max_str_digits : Z := 4300.

Definition sample_spare : nat := 990.

(** The digit 1, [n] times, and as many opening brackets. *)
Fixpoint ones (n : nat) : string :=
  match n with
  | O => ""
  | S n' => String "1" (ones n')
  end.

Fixpoint opens (n : nat) : string :=
  match n with
  | O => ""
  | S n' => String "[" (opens n')
  end.

Definition decimal_float (neg : bool) (m e : Z) : float :=
  SF2Prim
    match m with
    | Z.pos p =>
        if 0 <=? e
        then binary_normalize prec emax
               ((if neg then Z.neg p else Z.pos p) * 10 ^ e) 0 neg
        else SFdiv prec emax (S754_finite neg p 0)
               (S754_finite false (Z.to_pos (10 ^ (- e))) 0)
    | _ => S754_zero neg
    end.

Definition read_float (s : string) : float :=
  let '(neg, s1) :=
    match s with
    | String c r => if ord c =? 45 then (true, r) else (false, s)
    | EmptyString => (false, s)
    end in
  let '(ip, r1) := span_digits s1 in
  let '(fp, r2) :=
    match r1 with
    | String c r => if ord c =? 46 then span_digits r else ("", r1)
    | EmptyString => ("", r1)
    end in
  let ex :=
    match r2 with
    | String _ (String g r) =>
        if ord g =? 45 then - int_of_str r
        else if ord g =? 43 then int_of_str r
        else int_of_str (String g r)
    | _ => 0
    end in
  decimal_float neg (int_of_str (ip ++ fp)) (ex - Z.of_nat (String.length fp)).

Fixpoint zeros (n : nat) : string :=
  match n with
  | O => ""
  | S n' => String "0" (zeros n')
  end.

(** Drops leading zeros, keeping one character at least. *)
Fixpoint strip_zeros (fuel : nat) (s : string) : string :=
  match fuel with
  | O => s
  | S fuel' =>
      match s with
      | String c (String d r) =>
          if ord c =? 48 then strip_zeros fuel' (String d r) else s
      | _ => s
      end
  end.

Definition show_float (f : float) : string :=
  match Prim2SF f with
  | S754_nan => "nan"
  | S754_infinity s => if s then "-inf" else "inf"
  | S754_zero s => if s then "-0.0" else "0.0"
  | S754_finite s m e =>
      let sign := if s then "-" else "" in
      if 0 <=? e then sign ++ str_of_Z (Z.pos m * 2 ^ e) ++ ".0"
      else
        let k := Z.to_nat (- e) in
        let digits := str_of_Z (Z.pos m * 5 ^ (- e)) in
        let padded := zeros (S k - String.length digits) ++ digits in
        let n := String.length padded in
        sign ++ String.substring 0 (n - k) padded ++ "."
        ++ str_reverse (strip_zeros k (str_reverse (String.substring (n - k) k padded)))
  end.

Definition show_str (s : string) : string := "'" ++ s ++ "'".

(** A response with a good HTTP status whose body decodes to [body]. *)
Definition ok_response (body : value) : http_result :=
  HttpReturns (mkResponse None (inr body)).

(** A world in which nothing has happened yet. *)
Definition fresh_world (net : nat -> http_result) (clock : nat -> float) : World :=
  mkWorld net clock 0 0 [].

Definition running_body : value :=
  VDict [("status", VInt 1); ("comment", VStr "running")].

Definition done_body : value :=
  VDict [("status", VInt 2); ("comment", VStr "done");
         ("urls", VList [VStr "https://img/1.png"])].

Definition queued_body : value :=
  VDict [("status", VInt 7); ("comment", VStr "queued")].

Definition accepted_body : value :=
  VDict [("id", VStr "job-1"); ("status", VInt 1)].

Definition no_id_body : value := VDict [("status", VInt 1)].

(** The job runs for ever; the clock reads 0, 200, then 400 seconds. *)
Definition w_running : World :=
  fresh_world (fun _ => ok_response running_body)
    (fun n => match n with
              | O => 0%float
              | S O => 200%float
              | _ => 400%float
              end).

(** The job runs at the first check and has status 7 at the second. *)
Definition w_then_queued : World :=
  fresh_world (fun n => match n with
                        | O => ok_response running_body
                        | _ => ok_response queued_body
                        end)
    (fun _ => 0%float).

(** Every request is refused by the transport. *)
Definition w_refused : World :=
  fresh_world (fun _ => HttpRaises (mkExn RequestException "connection refused"))
    (fun _ => 0%float).

(** The job runs at the first check; the second response does not decode. *)
Definition w_then_garbled : World :=
  fresh_world (fun n => match n with
                        | O => ok_response running_body
                        | _ => HttpReturns
                                 (mkResponse None
                                    (inl (mkExn RequestsJSONDecodeError
                                            "Expecting value")))
                        end)
    (fun _ => 0%float).

(** The submission is accepted with an id; the job is done at the first check. *)
Definition w_accepted : World :=
  fresh_world (fun n => match n with
                        | O => ok_response accepted_body
                        | _ => ok_response done_body
                        end)
    (fun _ => 0%float).

(** The submission is answered with status 1 and no id. *)
Definition w_no_id : World :=
  fresh_world (fun n => match n with
                        | O => ok_response no_id_body
                        | _ => ok_response done_body
                        end)
    (fun _ => 0%float).

Definition unlabelled_body : value := VDict [("comment", VStr "no status here")].

Definition null_body : value :=
  VDict [("seed", VNone); ("upscaled", VBool false)].

(** The job runs at the first check and is done at the second. *)
Definition w_then_done : World :=
  fresh_world (fun n => match n with
                        | O => ok_response running_body
                        | _ => ok_response done_body
                        end)
    (fun _ => 0%float).

(** Every response is an object without a status. *)
Definition w_unlabelled : World :=
  fresh_world (fun _ => ok_response unlabelled_body) (fun _ => 0%float).

(** Every response decodes to an empty list. *)
Definition w_list : World :=
  fresh_world (fun _ => ok_response (VList [])) (fun _ => 0%float).

(** The submission is accepted; the job runs at the first check and is done at
    the second; the clock stands still. *)
Definition w_job : World :=
  fresh_world (fun n => match n with
                        | O => ok_response accepted_body
                        | S O => ok_response running_body
                        | _ => ok_response done_body
                        end)
    (fun _ => 0%float).

(** The same service with a clock that reads 0, 200, then 400 seconds. *)
Definition w_job_slow : World :=
  fresh_world (net w_job)
    (fun n => match n with
              | O => 0%float
              | S O => 200%float
              | _ => 400%float
              end).

(** The submission is accepted; every status check is refused. *)
Definition w_job_refused : World :=
  fresh_world (fun n => match n with
                        | O => ok_response accepted_body
                        | _ => HttpRaises (mkExn RequestException "connection refused")
                        end)
    (fun _ => 0%float).

(** The default endpoint of the submission. *)
Definition endpoint0 : string := "https://ali.youchuan.cn/v1/tob/diffusion".

(** ** The Python runtime

    Three functions of the interpreter are taken as they are: the printing and
    the reading of a [float], and the [repr] of a [str] (its quoting depends on
    the Unicode tables).  Everything else of the [json] module and of [str()]
    is defined over them.

    Two bounds of the interpreter are left open as well.
    [int_max_str_digits] is [sys.get_int_max_str_digits()], 4300 unless it has
    been set: 0 for no limit, and otherwise the most digits that [int()] reads.
    [recursion_spare] is what the stack has left for the decoder beyond two
    containers: the decoder counts one call for every array or object it
    enters, against the depth the interpreter allows from where [extract]
    runs.  The stack is taken to hold the calls of [logger.info], which go
    deeper than the decoder's own three frames and two containers. *)

Section WithRuntime.

Variable float_repr : float -> string.
Variable float_of_str : string -> float.
Variable str_repr : string -> string.
Variable int_max_str_digits : Z.
Variable recursion_spare : nat.

(** The number of containers, one inside the other, that the decoder can
    enter. *)
Definition recursion_limit : nat := 2 + recursion_spare.

(** Whether a literal of so many digits is more than [int()] reads.  Below 640
    digits the limit is not looked at, and it cannot be set below. *)
Definition int_too_long (digits : Z) : bool :=
  (640 <? digits) && (0 <? int_max_str_digits) && (int_max_str_digits <? digits).

(** The [ValueError] of a literal that is too long. *)
Definition int_limit_error (digits : Z) : exn :=
  mkExn ValueError
    ("Exceeds the limit (" ++ str_of_Z int_max_str_digits
     ++ " digits) for integer string conversion: value has " ++ str_of_Z digits
     ++ " digits; use sys.set_int_max_str_digits() to increase the limit").

(** [int(s)] for a string that [isdigit()] accepts: the digits it begins with
    are counted against the limit before the rest is looked at, and a digit
    that is not decimal is not read. *)
Definition py_int (s : string) : exn + Z :=
  let '(digits, rest) := span_digits (ascii_digits s) in
  if int_too_long (len digits) then inl (int_limit_error (len digits))
  else if (rest =? "")%string && negb (digits =? "")%string
  then inr (int_digits 0 digits)
  else inl (mkExn ValueError
              ("invalid literal for int() with base 10: " ++ take 200 (str_repr s))).

(** [repr(v)] *)
Fixpoint py_repr (v : value) : string :=
  match v with
  | VNone => "None"
  | VBool true => "True"
  | VBool false => "False"
  | VInt n => str_of_Z n
  | VFloat f => float_repr f
  | VStr s => str_repr s
  | VList l => "[" ++ join ", " (map py_repr l) ++ "]"
  | VDict d =>
      "{" ++ join ", " (map (fun kv => let '(k, x) := kv in
                                        str_repr k ++ ": " ++ py_repr x) d) ++ "}"
  end.

(** [str(v)], which is also what an f-string puts for [{v}]. *)
Definition py_str (v : value) : string :=
  match v with
  | VStr s => s
  | _ => py_repr v
  end.

(** [str(e)]: a [KeyError] shows the [repr] of its argument. *)
Definition str_exn (e : exn) : string :=
  match exn_cls e with
  | KeyError => str_repr (exn_arg e)
  | _ => exn_arg e
  end.

(** *** [json.dumps(v, ensure_ascii=False, indent=...)] *)

Definition hex_digit (n : Z) : ascii :=
  if n <? 10 then chr (48 + n) else chr (87 + n).

(** The escapes of [json.encoder.ESCAPE_DCT]; with [ensure_ascii=False] every
    other character is written as it is. *)
Definition escape_char (c : ascii) : string :=
  let n := ord c in
  if n =? 34 then String "\" dq
  else if n =? 92 then "\\"
  else if n =? 8 then "\b"
  else if n =? 12 then "\f"
  else if n =? 10 then "\n"
  else if n =? 13 then "\r"
  else if n =? 9 then "\t"
  else if n <? 32 then
    "\u00" ++ String (hex_digit (n / 16)) (String (hex_digit (n mod 16)) "")
  else String c "".

Fixpoint escape_str (s : string) : string :=
  match s with
  | EmptyString => ""
  | String c r => escape_char c ++ escape_str r
  end.

Definition encode_str (s : string) : string := dq ++ escape_str s ++ dq.

Definition floatstr (f : float) : string :=
  match Prim2SF f with
  | S754_nan => "NaN"
  | S754_infinity false => "Infinity"
  | S754_infinity true => "-Infinity"
  | _ => float_repr f
  end.

Fixpoint spaces (n : nat) : string :=
  match n with
  | O => ""
  | S n' => String " " (spaces n')
  end.

Definition newline_indent (indent : option nat) (level : nat) : string :=
  match indent with
  | None => ""
  | Some n => String (chr 10) (spaces (n * level))
  end.

Definition item_separator (indent : option nat) : string :=
  match indent with
  | None => ", "
  | Some _ => ","
  end.

Fixpoint encode (indent : option nat) (level : nat) (v : value) : string :=
  match v with
  | VNone => "null"
  | VBool true => "true"
  | VBool false => "false"
  | VInt n => str_of_Z n
  | VFloat f => floatstr f
  | VStr s => encode_str s
  | VList [] => "[]"
  | VList l =>
      "[" ++ newline_indent indent (S level)
      ++ join (item_separator indent ++ newline_indent indent (S level))
              (map (encode indent (S level)) l)
      ++ newline_indent indent level ++ "]"
  | VDict [] => "{}"
  | VDict d =>
      "{" ++ newline_indent indent (S level)
      ++ join (item_separator indent ++ newline_indent indent (S level))
              (map (fun kv => let '(k, x) := kv in
                              encode_str k ++ ": " ++ encode indent (S level) x) d)
      ++ newline_indent indent level ++ "}"
  end.

Definition json_dumps (indent : option nat) (v : value) : string :=
  encode indent 0 v.

(** *** [json.loads(s)] *)

Definition is_json_ws (c : ascii) : bool :=
  let n := ord c in (n =? 32) || (n =? 9) || (n =? 10) || (n =? 13).

Fixpoint skip_ws (s : string) : string :=
  match s with
  | String c r => if is_json_ws c then skip_ws r else s
  | EmptyString => s
  end.

Definition hex_val (c : ascii) : option Z :=
  let n := ord c in
  if (48 <=? n) && (n <=? 57) then Some (n - 48)
  else if (97 <=? n) && (n <=? 102) then Some (n - 87)
  else if (65 <=? n) && (n <=? 70) then Some (n - 55)
  else None.

(** Four hexadecimal digits at the head of [s]. *)
Definition hex4 (s : string) : option (Z * string) :=
  match s with
  | String a (String b (String c (String d r))) =>
      match hex_val a, hex_val b, hex_val c, hex_val d with
      | Some x, Some y, Some z, Some t => Some (((x * 16 + y) * 16 + z) * 16 + t, r)
      | _, _, _, _ => None
      end
  | _ => None
  end.

(** [chr(cp)], in UTF-8. *)
Definition utf8 (cp : Z) : string :=
  if cp <? 128 then bytes [cp]
  else if cp <? 2048 then bytes [192 + cp / 64; 128 + cp mod 64]
  else if cp <? 65536 then
    bytes [224 + cp / 4096; 128 + (cp / 64) mod 64; 128 + cp mod 64]
  else
    bytes [240 + cp / 262144; 128 + (cp / 4096) mod 64;
           128 + (cp / 64) mod 64; 128 + cp mod 64].

Definition unescape (c : ascii) : option string :=
  let n := ord c in
  if n =? 34 then Some dq
  else if n =? 92 then Some "\"
  else if n =? 47 then Some "/"
  else if n =? 98 then Some (bytes [8])
  else if n =? 102 then Some (bytes [12])
  else if n =? 110 then Some (bytes [10])
  else if n =? 114 then Some (bytes [13])
  else if n =? 116 then Some (bytes [9])
  else None.

(** The body of a string literal, after its opening quote (strict mode: no
    control character); the result is the decoded string and what follows the
    closing quote. *)
Fixpoint scan_string (fuel : nat) (s : string) : option (string * string) :=
  match fuel with
  | O => None
  | S fuel' =>
      let cons_ (x : string) (rest : string) :=
        match scan_string fuel' rest with
        | Some (t, rest') => Some (x ++ t, rest')
        | None => None
        end in
      match s with
      | EmptyString => None
      | String c r =>
          if ord c =? 34 then Some ("", r)
          else if ord c =? 92 then
            match r with
            | EmptyString => None
            | String e r' =>
                if ord e =? 117 then
                  match hex4 r' with
                  | None => None
                  | Some (u, r2) =>
                      if (55296 <=? u) && (u <=? 56319) then
                        match r2 with
                        | String b1 (String b2 r3) =>
                            if (ord b1 =? 92) && (ord b2 =? 117) then
                              match hex4 r3 with
                              | None => None
                              | Some (u2, r4) =>
                                  if (56320 <=? u2) && (u2 <=? 57343) then
                                    cons_ (utf8 (65536 + ((u - 55296) * 1024
                                                          + (u2 - 56320)))) r4
                                  else cons_ (utf8 u) r2
                              end
                            else cons_ (utf8 u) r2
                        | _ => cons_ (utf8 u) r2
                        end
                      else cons_ (utf8 u) r2
                  end
                else
                  match unescape e with
                  | Some x => cons_ x r'
                  | None => None
                  end
            end
          else if ord c <? 32 then None
          else cons_ (String c "") r
      end
  end.

(** [int(s)] for an optional minus sign and digits. *)
Definition int_of_literal (s : string) : Z :=
  match s with
  | String c r => if ord c =? 45 then - int_of_str r else int_of_str s
  | EmptyString => 0
  end.

(** What the scanner makes of the head of a text: a value and what follows it,
    a [json.JSONDecodeError], or another exception. *)
Inductive scanned : Type :=
| Scanned (v : value) (rest : string)
| Malformed
| Broke (e : exn).

(** A number, by [json.scanner.NUMBER_RE]: an integer part, and a fraction or
    an exponent only when complete.  A number without either is read by
    [int()], which counts its digits. *)
Definition scan_number (s : string) : scanned :=
  let '(sign, s1) :=
    match s with
    | String c r => if ord c =? 45 then ("-", r) else ("", s)
    | EmptyString => ("", s)
    end in
  match s1 with
  | EmptyString => Malformed
  | String c r =>
      if is_digit c then
        let '(digits, rest) :=
          if ord c =? 48 then ("0", r) else span_digits s1 in
        let integer := sign ++ digits in
        let '(frac, rest1) :=
          match rest with
          | String p r2 =>
              if ord p =? 46 then
                let '(fd, r3) := span_digits r2 in
                if (fd =? "")%string then ("", rest) else (String p fd, r3)
              else ("", rest)
          | EmptyString => ("", rest)
          end in
        let '(exp, rest2) :=
          match rest1 with
          | String e r4 =>
              if (ord e =? 101) || (ord e =? 69) then
                let '(sg, r5) :=
                  match r4 with
                  | String g r5 =>
                      if (ord g =? 45) || (ord g =? 43) then (String g "", r5)
                      else ("", r4)
                  | EmptyString => ("", r4)
                  end in
                let '(ed, r6) := span_digits r5 in
                if (ed =? "")%string then ("", rest1)
                else (String e (sg ++ ed), r6)
              else ("", rest1)
          | EmptyString => ("", rest1)
          end in
        if (frac =? "")%string && (exp =? "")%string
        then
          if int_too_long (len digits) then Broke (int_limit_error (len digits))
          else Scanned (VInt (int_of_literal integer)) rest2
        else Scanned (VFloat (float_of_str (integer ++ frac ++ exp))) rest2
      else Malformed
  end.

(** The constants the scanner accepts besides numbers. *)
Definition scan_constant (s : string) : scanned :=
  match drop_prefix "null" s with
  | Some r => Scanned VNone r
  | None =>
  match drop_prefix "true" s with
  | Some r => Scanned (VBool true) r
  | None =>
  match drop_prefix "false" s with
  | Some r => Scanned (VBool false) r
  | None =>
  match scan_number s with
  | Scanned v r => Scanned v r
  | Broke e => Broke e
  | Malformed =>
  match drop_prefix "NaN" s with
  | Some r => Scanned (VFloat nan) r
  | None =>
  match drop_prefix "Infinity" s with
  | Some r => Scanned (VFloat infinity) r
  | None =>
  match drop_prefix "-Infinity" s with
  | Some r => Scanned (VFloat neg_infinity) r
  | None => Malformed
  end end end end end end end.

(** The [RecursionError] of a container that the decoder has no room to
    enter. *)
Definition too_deep (container : string) : exn :=
  mkExn RecursionError
    ("maximum recursion depth exceeded while decoding a JSON " ++ container
     ++ " from a unicode string").

(** [scan_once]: one value at the head of [s], inside [depth] containers;
    [parse_elems] and [parse_members] read what follows the first element of an
    array and the opening brace or a comma of an object.  An array or an object
    is entered, if there is room, before its first character is looked at. *)
Fixpoint parse_value (fuel : nat) (depth : nat) (s : string) {struct fuel}
  : scanned :=
  match fuel with
  | O => Malformed
  | S fuel' =>
      match s with
      | EmptyString => Malformed
      | String c r =>
          if ord c =? 34 then
            match scan_string (S (String.length r)) r with
            | Some (x, rest) => Scanned (VStr x) rest
            | None => Malformed
            end
          else if ord c =? 123 then
            if (recursion_limit <=? depth)%nat then Broke (too_deep "object")
            else
              match skip_ws r with
              | String c1 r1 =>
                  if ord c1 =? 125 then Scanned (VDict []) r1
                  else parse_members fuel' (S depth) [] (skip_ws r)
              | EmptyString => Malformed
              end
          else if ord c =? 91 then
            if (recursion_limit <=? depth)%nat then Broke (too_deep "array")
            else
              match skip_ws r with
              | String c1 r1 =>
                  if ord c1 =? 93 then Scanned (VList []) r1
                  else parse_elems fuel' (S depth) [] (skip_ws r)
              | EmptyString => Malformed
              end
          else scan_constant s
      end
  end
with parse_elems (fuel : nat) (depth : nat) (acc : list value) (s : string)
  {struct fuel} : scanned :=
  match fuel with
  | O => Malformed
  | S fuel' =>
      match parse_value fuel' depth s with
      | Malformed => Malformed
      | Broke e => Broke e
      | Scanned x rest =>
          match skip_ws rest with
          | String c r =>
              if ord c =? 93 then Scanned (VList (rev (x :: acc))) r
              else if ord c =? 44
              then parse_elems fuel' depth (x :: acc) (skip_ws r)
              else Malformed
          | EmptyString => Malformed
          end
      end
  end
with parse_members (fuel : nat) (depth : nat) (acc : list (string * value))
  (s : string) {struct fuel} : scanned :=
  match fuel with
  | O => Malformed
  | S fuel' =>
      match s with
      | String q r =>
          if ord q =? 34 then
            match scan_string (S (String.length r)) r with
            | None => Malformed
            | Some (k, rest) =>
                match skip_ws rest with
                | String c r1 =>
                    if ord c =? 58 then
                      match parse_value fuel' depth (skip_ws r1) with
                      | Malformed => Malformed
                      | Broke e => Broke e
                      | Scanned x rest1 =>
                          match skip_ws rest1 with
                          | String c2 r2 =>
                              if ord c2 =? 125
                              then Scanned (VDict (dict_set acc k x)) r2
                              else if ord c2 =? 44
                              then parse_members fuel' depth (dict_set acc k x)
                                     (skip_ws r2)
                              else Malformed
                          | EmptyString => Malformed
                          end
                      end
                    else Malformed
                | EmptyString => Malformed
                end
            end
          else Malformed
      | EmptyString => Malformed
      end
  end.

(** [JSONDecoder.decode(s)]: one value, with nothing but whitespace around it.
    A [json.JSONDecodeError] carries the document; the text of its diagnostic
    is not modelled. *)
Definition decode (s : string) : exn + value :=
  match parse_value (2 * String.length s + 2) 0 (skip_ws s) with
  | Scanned v rest =>
      match skip_ws rest with
      | EmptyString => inr v
      | String _ _ => inl (mkExn JSONDecodeError s)
      end
  | Malformed => inl (mkExn JSONDecodeError s)
  | Broke e => inl e
  end.

(** What [json.loads(s)] returns; [None] stands for a raised exception. *)
Definition json_loads (s : string) : option value :=
  match decode s with
  | inr v => Some v
  | inl _ => None
  end.

(** ** module/node.py *)

(** [{"error": error_msg}] *)
Definition error_object (error_msg : string) : value :=
  VDict [("error", VStr error_msg)].

(** [{"error": error_msg, "job_id": job_id}] *)
Definition job_error_object (error_msg : string) (job_id : value) : value :=
  VDict [("error", VStr error_msg); ("job_id", job_id)].

(** *** [_poll_job_result]: the loop the combined node polls with *)

(** One turn of its [while True], with the [try] around it. *)
Definition _poll_job_iter (job_id : value) (job_url : string)
  (headers : list (string * string)) (start_time : float)
  (poll_interval max_wait_time : Z) : M (loop_ctl value) :=
  try_except
    (now <- time_time ;;
     if float_gt_Z (PrimFloat.sub now start_time) max_wait_time then
       (let error_msg := "任务轮询超时 (" ++ str_of_Z max_wait_time ++ "秒)" in
        logger_info ("[MidjourneyAPI] " ++ error_msg) ;;
        ret (Done (job_error_object error_msg job_id)))
     else
       (logger_info ("[MidjourneyAPI] 轮询任务状态: " ++ py_str job_id) ;;
        response <- requests_get job_url headers 10 ;;
        raise_for_status response ;;
        result_data <- response_json response ;;
        job_status <- py_get result_data "status" (VInt 0) ;;
        comment <- py_get result_data "comment" (VStr "") ;;
        logger_info ("[MidjourneyAPI] 任务状态: " ++ py_str job_status
                     ++ " (" ++ py_str comment ++ ")") ;;
        if py_eq_int job_status 2 then
          (logger_info "[MidjourneyAPI] 任务完成成功" ;;
           ret (Done result_data))
        else if py_eq_int job_status 3 then
          (error_message <- py_get result_data "comment" (VStr "任务执行失败") ;;
           logger_info ("[MidjourneyAPI] 任务执行失败: " ++ py_str error_message) ;;
           ret (Done result_data))
        else if py_eq_int job_status 1 then
          (time_sleep poll_interval ;;
           ret Continue)
        else
          (logger_info ("[MidjourneyAPI] 未知任务状态: " ++ py_str job_status) ;;
           ret (Done result_data))))
    (fun e =>
       if isinstance e RequestException then
         (let error_msg := "轮询请求失败: " ++ str_exn e in
          logger_info ("[MidjourneyAPI] " ++ error_msg) ;;
          ret (Done (job_error_object error_msg job_id)))
       else
         (let error_msg := "轮询过程出错: " ++ str_exn e in
          logger_info ("[MidjourneyAPI] " ++ error_msg) ;;
          ret (Done (job_error_object error_msg job_id)))).

Definition _poll_job_loop (fuel : nat) (job_id : value) (job_url : string)
  (headers : list (string * string)) (start_time : float)
  (poll_interval max_wait_time : Z) : M value :=
  while_true fuel
    (_poll_job_iter job_id job_url headers start_time poll_interval max_wait_time).

Definition _poll_job_result (fuel : nat) (job_id : value) (app_id secret_key : string)
  (poll_interval max_wait_time : Z) : M value :=
  let job_url := "https://ali.youchuan.cn/v1/tob/job/" ++ py_str job_id in
  let headers :=
    [("x-youchuan-app", if (app_id =? "")%string then "" else app_id);
     ("x-youchuan-secret", if (secret_key =? "")%string then "" else secret_key);
     ("Content-Type", "application/json")] in
  start_time <- time_time ;;
  _poll_job_loop fuel job_id job_url headers start_time poll_interval max_wait_time.

(** *** [MidjourneyAPI.run]: submit, then poll when asked to

    The node returns a one-element tuple; the model returns its element. *)
Definition run (fuel : nat) (text app_id secret_key endpoint : string)
  (poll_interval max_wait_time : Z) (auto_poll : bool) : M string :=
  try_except
    (require_nonblank text "text 不能为空" ;;
     require_nonblank app_id "app_id 不能为空" ;;
     require_nonblank secret_key "secret_key 不能为空" ;;
     let request_data := VDict [("text", VStr (strip text))] in
     let headers :=
       [("x-youchuan-app", app_id);
        ("x-youchuan-secret", secret_key);
        ("Content-Type", "application/json")] in
     logger_info ("[MidjourneyAPI] 发送请求到: " ++ endpoint ++ ", 文本: "
                  ++ take 50 text ++ "...") ;;
     response <- requests_post endpoint headers request_data 30 ;;
     raise_for_status response ;;
     response_data <- response_json response ;;
     job_id <- py_get response_data "id" (VStr "") ;;
     job_status <- py_get response_data "status" (VInt 0) ;;
     logger_info ("[MidjourneyAPI] 任务提交成功，ID: " ++ py_str job_id
                  ++ ", 状态: " ++ py_str job_status) ;;
     response_data <-
       (if auto_poll && truthy job_id && py_eq_int job_status 1 then
          (logger_info "[MidjourneyAPI] 开始自动轮询任务结果" ;;
           _poll_job_result fuel job_id app_id secret_key poll_interval max_wait_time)
        else ret response_data) ;;
     ret (json_dumps (Some 2%nat) response_data))
    (fun e =>
       if isinstance e RequestException then
         (let error_msg := "API 请求失败: " ++ str_exn e in
          logger_info ("[MidjourneyAPI] " ++ error_msg) ;;
          ret (json_dumps None (error_object error_msg)))
       else if isinstance e JSONDecodeError then
         (let error_msg := "JSON 解析失败: " ++ str_exn e in
          logger_info ("[MidjourneyAPI] " ++ error_msg) ;;
          ret (json_dumps None (error_object error_msg)))
       else
         (let error_msg := "未知错误: " ++ str_exn e in
          logger_info ("[MidjourneyAPI] " ++ error_msg) ;;
          ret (json_dumps None (error_object error_msg)))).

(** *** [MidjourneyAPISubmit.submit]: returns [(job_id, response)] *)
Definition submit (text app_id secret_key endpoint : string) : M (value * string) :=
  try_except
    (require_nonblank text "text 不能为空" ;;
     require_nonblank app_id "app_id 不能为空" ;;
     require_nonblank secret_key "secret_key 不能为空" ;;
     let request_data := VDict [("text", VStr (strip text))] in
     let headers :=
       [("x-youchuan-app", app_id);
        ("x-youchuan-secret", secret_key);
        ("Content-Type", "application/json")] in
     logger_info ("[MidjourneyAPISubmit] 提交任务到: " ++ endpoint ++ ", 文本: "
                  ++ take 50 text ++ "...") ;;
     response <- requests_post endpoint headers request_data 30 ;;
     raise_for_status response ;;
     response_data <- response_json response ;;
     job_id <- py_get response_data "id" (VStr "") ;;
     job_status <- py_get response_data "status" (VInt 0) ;;
     (if truthy job_id then
        logger_info ("[MidjourneyAPISubmit] 任务提交成功，ID: " ++ py_str job_id
                     ++ ", 状态: " ++ py_str job_status)
      else
        logger_info "[MidjourneyAPISubmit] 任务提交完成，但未获取到 job_id") ;;
     let response_json := json_dumps (Some 2%nat) response_data in
     ret (job_id, response_json))
    (fun e =>
       if isinstance e RequestException then
         (let error_msg := "API 请求失败: " ++ str_exn e in
          logger_info ("[MidjourneyAPISubmit] " ++ error_msg) ;;
          let error_response := json_dumps None (error_object error_msg) in
          ret (VStr "", error_response))
       else if isinstance e JSONDecodeError then
         (let error_msg := "JSON 解析失败: " ++ str_exn e in
          logger_info ("[MidjourneyAPISubmit] " ++ error_msg) ;;
          let error_response := json_dumps None (error_object error_msg) in
          ret (VStr "", error_response))
       else
         (let error_msg := "未知错误: " ++ str_exn e in
          logger_info ("[MidjourneyAPISubmit] " ++ error_msg) ;;
          let error_response := json_dumps None (error_object error_msg) in
          ret (VStr "", error_response))).

(** *** [MidjourneyAPIPoll.poll]: returns [(result, status)] *)

(** [{"error": error_msg, "job_id": job_id, "last_status": job_status}] *)
Definition timeout_object (error_msg job_id : string) (job_status : value) : value :=
  VDict [("error", VStr error_msg); ("job_id", VStr job_id);
         ("last_status", job_status)].

(** One turn of its [while True], with the [try] around it. *)
Definition poll_iter (job_id job_url : string) (headers : list (string * string))
  (start_time : float) (poll_interval max_wait_time : Z) (single_query : bool)
  : M (loop_ctl (string * value)) :=
  try_except
    (logger_info ("[MidjourneyAPIPoll] 查询任务状态: " ++ job_id) ;;
     response <- requests_get job_url headers 10 ;;
     raise_for_status response ;;
     result_data <- response_json response ;;
     job_status <- py_get result_data "status" (VInt 0) ;;
     comment <- py_get result_data "comment" (VStr "") ;;
     logger_info ("[MidjourneyAPIPoll] 任务状态: " ++ py_str job_status
                  ++ " (" ++ py_str comment ++ ")") ;;
     if py_eq_int job_status 2 then
       (logger_info "[MidjourneyAPIPoll] 任务完成成功" ;;
        let result_json := json_dumps (Some 2%nat) result_data in
        ret (Done (result_json, VInt 2)))
     else if py_eq_int job_status 3 then
       (error_message <- py_get result_data "comment" (VStr "任务执行失败") ;;
        logger_info ("[MidjourneyAPIPoll] 任务执行失败: " ++ py_str error_message) ;;
        let result_json := json_dumps (Some 2%nat) result_data in
        ret (Done (result_json, VInt 3)))
     else if single_query then
       (let result_json := json_dumps (Some 2%nat) result_data in
        ret (Done (result_json, job_status)))
     else if py_eq_int job_status 1 then
       (now <- time_time ;;
        if float_gt_Z (PrimFloat.sub now start_time) max_wait_time then
          (let error_msg := "任务轮询超时 (" ++ str_of_Z max_wait_time ++ "秒)" in
           logger_info ("[MidjourneyAPIPoll] " ++ error_msg) ;;
           let error_response :=
             json_dumps None (timeout_object error_msg job_id job_status) in
           ret (Done (error_response, VInt (-1))))
        else
          (time_sleep poll_interval ;;
           ret Continue))
     else
       (logger_info ("[MidjourneyAPIPoll] 未知任务状态: " ++ py_str job_status) ;;
        let result_json := json_dumps (Some 2%nat) result_data in
        ret (Done (result_json, job_status))))
    (fun e =>
       if isinstance e RequestException then
         (let error_msg := "轮询请求失败: " ++ str_exn e in
          logger_info ("[MidjourneyAPIPoll] " ++ error_msg) ;;
          let error_response :=
            json_dumps None (job_error_object error_msg (VStr job_id)) in
          ret (Done (error_response, VInt 0)))
       else
         (let error_msg := "轮询过程出错: " ++ str_exn e in
          logger_info ("[MidjourneyAPIPoll] " ++ error_msg) ;;
          let error_response :=
            json_dumps None (job_error_object error_msg (VStr job_id)) in
          ret (Done (error_response, VInt 0)))).

Definition poll_loop (fuel : nat) (job_id job_url : string)
  (headers : list (string * string)) (start_time : float)
  (poll_interval max_wait_time : Z) (single_query : bool) : M (string * value) :=
  while_true fuel
    (poll_iter job_id job_url headers start_time poll_interval max_wait_time
       single_query).

(** The early return of [poll] on a blank input. *)
Definition poll_reject (error_msg : string) : M (string * value) :=
  logger_info ("[MidjourneyAPIPoll] " ++ error_msg) ;;
  let error_response := json_dumps None (error_object error_msg) in
  ret (error_response, VInt 0).

Definition poll (fuel : nat) (job_id app_id secret_key : string)
  (poll_interval max_wait_time : Z) (single_query : bool) : M (string * value) :=
  if blank job_id then poll_reject "job_id 不能为空"
  else if blank app_id then poll_reject "app_id 不能为空"
  else if blank secret_key then poll_reject "secret_key 不能为空"
  else
    let job_url := "https://ali.youchuan.cn/v1/tob/job/" ++ strip job_id in
    let headers :=
      [("x-youchuan-app", app_id);
       ("x-youchuan-secret", secret_key);
       ("Content-Type", "application/json")] in
    start_time <- time_time ;;
    poll_loop fuel job_id job_url headers start_time poll_interval max_wait_time
      single_query.

(** *** [MidjourneyJSONExtractor.extract] *)

(** What [extract] returns: the dictionary
    [{"ui": {"json": [...], "text": [...]}, "result": (v,)}] or the bare
    one-element tuple [(v,)]. *)
Inductive extract_result : Type :=
| UIResult (ui_json : list value) (ui_text : list string) (result : value)
| Tuple1 (v : value).

(** [json.loads(s)], raising. *)
Definition loads (s : string) : M value := lift (decode s).

(** The body of [for key in keys]: one step down the structure. *)
Definition descend (current_data : value) (key : string) : exn + value :=
  match (match current_data with
         | VDict d => dict_get d key
         | _ => None
         end) with
  | Some x => inr x
  | None =>
      match current_data with
      | VList l =>
          if isdigit key then
            match py_int key with
            | inl e => inl e
            | inr index =>
                if (0 <=? index) && (index <? Z.of_nat (List.length l))
                then inr (nth (Z.to_nat index) l VNone)
                else inl (mkExn KeyError
                            ("数组索引 " ++ str_of_Z index ++ " 超出范围"))
            end
          else inl (mkExn KeyError ("键 '" ++ key ++ "' 不存在"))
      | _ => inl (mkExn KeyError ("键 '" ++ key ++ "' 不存在"))
      end
  end.

Fixpoint traverse (keys : list string) (current_data : value) : exn + value :=
  match keys with
  | [] => inr current_data
  | key :: rest =>
      match descend current_data key with
      | inl e => inl e
      | inr x => traverse rest x
      end
  end.

(** The result-formatting step: the string [result]. *)
Definition format_result (return_as_string : bool) (current_data : value) : string :=
  if return_as_string then
    match current_data with
    | VDict _ | VList _ => json_dumps (Some 2%nat) current_data
    | _ => py_str current_data
    end
  else
    match current_data with
    | VNone => ""
    | _ => py_str current_data
    end.

Definition extract (json_input : value) (key_path : string) (default_value : value)
  (return_as_string : bool) : M extract_result :=
  try_except
    (data <- match json_input with
             | VStr s => loads s
             | _ => ret json_input
             end ;;
     let keys := split_dot (strip key_path) in
     current_data <- lift (traverse keys data) ;;
     let result := format_result return_as_string current_data in
     logger_info ("[JSONExtractor] 成功提取键路径 '" ++ key_path ++ "': "
                  ++ take 100 result
                  ++ (if 100 <? len result then "..." else "")) ;;
     formatted_result <-
       try_except (loads result)
         (fun e =>
            if isinstance e JSONDecodeError then
              (logger_info
                 ("[JSONExtractor] 格式化结果失败，无法解析JSON，可能不是JSON格式: "
                  ++ result) ;;
               ret (VStr result))
            else raise e) ;;
     ret (UIResult [formatted_result] [result] formatted_result))
    (fun e =>
       if isinstance e JSONDecodeError then
         (let error_msg := "JSON 解析失败: " ++ str_exn e in
          logger_info ("[JSONExtractor] " ++ error_msg) ;;
          ret (Tuple1 default_value))
       else if isinstance e KeyError then
         (let error_msg := "键路径 '" ++ key_path ++ "' 不存在: " ++ str_exn e in
          logger_info ("[JSONExtractor] " ++ error_msg) ;;
          ret (Tuple1 default_value))
       else
         (let error_msg := "提取过程出错: " ++ str_exn e in
          logger_info ("[JSONExtractor] " ++ error_msg) ;;
          ret (Tuple1 default_value))).

(** ** What the claims speak of *)

(** The [n]-th request is answered by a response that decodes to [body]. *)
Definition answers (w : World) (n : nat) (body : value) : Prop :=
  exists r, net w n = HttpReturns r /\ resp_error r = None /\ resp_json r = inr body.

(** The [n]-th request fails with [e]: the transport raises it, the HTTP status
    is an error, or the body does not decode. *)
Definition fails_with (w : World) (n : nat) (e : exn) : Prop :=
  net w n = HttpRaises e \/
  exists r, net w n = HttpReturns r /\
    (resp_error r = Some e \/ (resp_error r = None /\ resp_json r = inl e)).

(** The body is an object whose [status] field is the integer [s]. *)
Definition has_status (body : value) (s : Z) : Prop :=
  exists d, body = VDict d /\ dict_get d "status" = Some (VInt s).

(** [time.time() - start_time > max_wait_time] at the [n]-th reading. *)
Definition exceeds (w : World) (start_time : float) (n : nat) (max_wait_time : Z) : bool :=
  float_gt_Z (PrimFloat.sub (clock w n) start_time) max_wait_time.

(** [w'] is [w] after [dn] more requests and [dc] more clock readings. *)
Definition advanced (dn dc : nat) (w w' : World) : Prop :=
  net w' = net w /\ clock w' = clock w /\
  n_net w' = (n_net w + dn)%nat /\ n_clock w' = (n_clock w + dc)%nat.

(** The world after one reading of the clock. *)
Definition tick (w : World) : World :=
  mkWorld (net w) (clock w) (n_net w) (S (n_clock w)) (trace w).

(** The text of the timeout message. *)
Definition timeout_msg (max_wait_time : Z) : string :=
  "任务轮询超时 (" ++ str_of_Z max_wait_time ++ "秒)".

(** From the world [w] on, the next [k] status checks find the job running
    (status 1) and none of their clock readings is past the deadline. *)
Definition keeps_running (w : World) (start_time : float) (max_wait_time : Z)
  (k : nat) : Prop :=
  forall i, (i < k)%nat ->
    (exists body, answers w (n_net w + i) body /\ has_status body 1) /\
    exceeds w start_time (n_clock w + i) max_wait_time = false.

(** The same for a call of [poll] entered in [w]: its first reading of the
    clock is [start_time], the check of turn [i] reads the next one. *)
Definition still_running (w : World) (max_wait_time : Z) (k : nat) : Prop :=
  forall i, (i < k)%nat ->
    (exists body, answers w (n_net w + i) body /\ has_status body 1) /\
    exceeds w (clock w (n_clock w)) (n_clock w + S i) max_wait_time = false.

(** The body is an object whose [id] field is [job_id]. *)
Definition has_id (body : value) (job_id : value) : Prop :=
  exists d, body = VDict d /\ dict_get d "id" = Some job_id.

Definition outcome_map {A B : Type} (f : A -> B) (o : outcome A) : outcome B :=
  match o with
  | Return a => Return (f a)
  | Raise e => Raise e
  | OutOfFuel => OutOfFuel
  end.

(** The transition rule of the polling state machine, after the words of the
    specification and not after the code: status 2 and status 3 are terminal,
    status 1 is retried, any other status is terminal. *)
Inductive verdict : Type :=
| Terminal
| Retry.

Definition spec_status_rule (status : Z) : verdict :=
  if status =? 2 then Terminal
  else if status =? 3 then Terminal
  else if status =? 1 then Retry
  else Terminal.

(** The parsing step: a string is decoded, anything else is taken as it is. *)
Definition decoded (json_input : value) : option value :=
  match json_input with
  | VStr s => json_loads s
  | _ => Some json_input
  end.

(** The re-parsing step: [formatted_result], or the exception that its
    handler, which is for [json.JSONDecodeError] alone, lets through. *)
Definition reparse (result : string) : exn + value :=
  match decode result with
  | inr v => inr v
  | inl e => if isinstance e JSONDecodeError then inr (VStr result) else inl e
  end.

(** [s] between double quotes. *)
Definition quoted (s : string) : string := dq ++ s ++ dq.

(** The JSON texts of the examples: an object with the list of two urls under
    [urls], and an object with 1 under [a]. *)
Definition urls_text : string :=
  "{" ++ quoted "urls" ++ ":[" ++ quoted "a" ++ "," ++ quoted "b" ++ "]}".

Definition a1_text : string := "{" ++ quoted "a" ++ ":1}".

(** An object with the string "1" under [a], and one with a string of [n]
    ones. *)
Definition one_text : string := "{" ++ quoted "a" ++ ":" ++ quoted "1" ++ "}".

Definition ones_text (n : nat) : string :=
  "{" ++ quoted "a" ++ ":" ++ quoted (ones n) ++ "}".

(** ** What the further properties speak of *)

Definition is_log (ev : event) : bool :=
  match ev with
  | EvLog _ => true
  | _ => false
  end.

(** What the node has done to the outside: its requests and its sleeps, in
    order, without the log lines. *)
Definition effects (w : World) : list event :=
  filter (fun ev => negb (is_log ev)) (trace w).

(** [w'] is [w] after [dn] more requests, [dc] more clock readings and the
    effects [l]. *)
Definition steps (dn dc : nat) (l : list event) (w w' : World) : Prop :=
  advanced dn dc w w' /\ effects w' = (effects w ++ l)%list.

(** The headers both nodes send. *)
Definition credentials (app_id secret_key : string) : list (string * string) :=
  [("x-youchuan-app", app_id); ("x-youchuan-secret", secret_key);
   ("Content-Type", "application/json")].

(** The address of a job. *)
Definition job_url (job_id : string) : string :=
  "https://ali.youchuan.cn/v1/tob/job/" ++ job_id.

(** The request of a submission. *)
Definition submission (endpoint text app_id secret_key : string) : event :=
  EvPost endpoint (credentials app_id secret_key)
    (VDict [("text", VStr (strip text))]) 30.

(** A status check. *)
Definition check (url : string) (headers : list (string * string)) : event :=
  EvGet url headers 10.

(** [k] status checks, each followed by a sleep of [secs]. *)
Fixpoint waits (k : nat) (url : string) (headers : list (string * string))
  (secs : Z) : list event :=
  match k with
  | O => []
  | S k' => check url headers :: EvSleep secs :: waits k' url headers secs
  end.

(** [result_data.get("status", 0)] on an object. *)
Definition status_of (d : list (string * value)) : value :=
  match dict_get d "status" with
  | Some x => x
  | None => VInt 0
  end.

(** [response_data.get("id", "")] on an object. *)
Definition id_of (d : list (string * value)) : value :=
  match dict_get d "id" with
  | Some x => x
  | None => VStr ""
  end.

(** What [str(e)] is when [.get] is called on a body that is not an object. *)
Definition no_get_msg (body : value) : string :=
  "'" ++ type_name body ++ "' object has no attribute 'get'".

Definition is_object (body : value) : bool :=
  match body with
  | VDict _ => true
  | _ => false
  end.

(** The code [poll] returns with a body whose status [v] is not "running". *)
Definition poll_code (v : value) : value :=
  if py_eq_int v 2 then VInt 2
  else if py_eq_int v 3 then VInt 3
  else v.

(** After the submission answered in [w], the next [k] status checks of the
    combined node find the job running and read a clock within the deadline. *)
Definition job_still_running (w : World) (max_wait_time : Z) (k : nat) : Prop :=
  forall i, (i < k)%nat ->
    (exists body, answers w (n_net w + 1 + i) body /\ has_status body 1) /\
    exceeds w (clock w (n_clock w)) (n_clock w + 1 + i) max_wait_time = false.


(** A computation whose only effect is to log. *)
Definition quiet {A : Type} (m : M A) : Prop :=
  forall w, exists o w', m w = (o, w') /\ steps 0 0 [] w w'.

(** ** The steps of the two loops *)

Ltac mstep :=
  cbv [try_except bind ret raise logger_info time_time time_sleep requests_get
       requests_post http_request raise_for_status response_json lift py_get
       require_nonblank];
  cbn [net n_net clock n_clock emit py_eq_int].

Ltac adv :=
  unfold advanced; cbn [net n_net clock n_clock emit tick]; repeat split; lia.

Lemma advanced_trans a b c d w1 w2 w3 :
  advanced a b w1 w2 -> advanced c d w2 w3 -> advanced (a + c) (b + d) w1 w3.
Proof.
  unfold advanced. intros (H1 & H2 & H3 & H4) (H5 & H6 & H7 & H8).
  repeat split; try congruence; lia.
Qed.

Lemma while_true_continue {A : Type} (body : M (loop_ctl A)) fuel w w' :
  body w = (Return Continue, w') ->
  while_true (S fuel) body w = while_true fuel body w'.
Proof. intros H. cbn [while_true]. unfold bind. rewrite H. reflexivity. Qed.

Lemma while_true_done {A : Type} (body : M (loop_ctl A)) fuel w w' a :
  body w = (Return (Done a), w') ->
  while_true (S fuel) body w = (Return a, w').
Proof. intros H. cbn [while_true]. unfold bind. rewrite H. reflexivity. Qed.

Section PollSteps.

Variables (job_id job_url : string) (headers : list (string * string)).
Variables (start_time : float) (poll_interval max_wait_time : Z).

Lemma poll_iter_terminal single_query w body s :
  answers w (n_net w) body -> has_status body s ->
  s = 2 \/ s = 3 \/ single_query = true \/ s <> 1 ->
  exists w', advanced 1 0 w w' /\
    poll_iter job_id job_url headers start_time poll_interval max_wait_time
      single_query w
    = (Return (Done (json_dumps (Some 2%nat) body, VInt s)), w').
Proof.
  intros (r & Hn & He & Hj) (d & -> & Hs) Hc.
  unfold poll_iter. mstep. rewrite Hn, He. mstep. rewrite Hj. mstep. rewrite Hs. mstep.
  destruct (s =? 2) eqn:E2.
  { apply Z.eqb_eq in E2; subst s. eexists; split; [|reflexivity]. adv. }
  destruct (s =? 3) eqn:E3.
  { apply Z.eqb_eq in E3; subst s. mstep. eexists; split; [|reflexivity]. adv. }
  destruct single_query.
  { eexists; split; [|reflexivity]. adv. }
  destruct (s =? 1) eqn:E1.
  { apply Z.eqb_eq in E1. apply Z.eqb_neq in E2, E3.
    destruct Hc as [?|[?|[?|?]]]; congruence. }
  eexists; split; [|reflexivity]. adv.
Qed.

Lemma poll_iter_timeout w body :
  answers w (n_net w) body -> has_status body 1 ->
  exceeds w start_time (n_clock w) max_wait_time = true ->
  exists w', advanced 1 1 w w' /\
    poll_iter job_id job_url headers start_time poll_interval max_wait_time false w
    = (Return (Done (json_dumps None
                       (timeout_object (timeout_msg max_wait_time) job_id (VInt 1)),
                     VInt (-1))), w').
Proof.
  intros (r & Hn & He & Hj) (d & -> & Hs) Ht. unfold exceeds in Ht.
  unfold poll_iter. mstep. rewrite Hn, He. mstep. rewrite Hj. mstep. rewrite Hs. mstep.
  cbn [Z.eqb Pos.eqb]. mstep. rewrite Ht.
  eexists; split; [|reflexivity]. adv.
Qed.

Lemma poll_iter_continue w body :
  answers w (n_net w) body -> has_status body 1 ->
  exceeds w start_time (n_clock w) max_wait_time = false ->
  0 <= poll_interval ->
  exists w', advanced 1 1 w w' /\
    poll_iter job_id job_url headers start_time poll_interval max_wait_time false w
    = (Return Continue, w').
Proof.
  intros (r & Hn & He & Hj) (d & -> & Hs) Ht Hp. unfold exceeds in Ht.
  unfold poll_iter. mstep. rewrite Hn, He. mstep. rewrite Hj. mstep. rewrite Hs. mstep.
  cbn [Z.eqb Pos.eqb]. mstep. rewrite Ht.
  apply Z.ltb_ge in Hp. rewrite Hp.
  eexists; split; [|reflexivity]. adv.
Qed.

Lemma poll_iter_failure single_query w e :
  fails_with w (n_net w) e ->
  exists msg w', advanced 1 0 w w' /\
    poll_iter job_id job_url headers start_time poll_interval max_wait_time
      single_query w
    = (Return (Done (json_dumps None (job_error_object msg (VStr job_id)), VInt 0)),
       w').
Proof.
  intros [Hn | (r & Hn & [He | [He Hj]])];
    unfold poll_iter; mstep; rewrite Hn; try rewrite He; mstep; try rewrite Hj; mstep;
    destruct (isinstance e RequestException);
    do 2 eexists; (split; [|reflexivity]); adv.
Qed.

End PollSteps.

Section JobSteps.

Variables (job_id : value) (job_url : string) (headers : list (string * string)).
Variables (start_time : float) (poll_interval max_wait_time : Z).

Lemma job_iter_timeout w :
  exceeds w start_time (n_clock w) max_wait_time = true ->
  exists w', advanced 0 1 w w' /\
    _poll_job_iter job_id job_url headers start_time poll_interval max_wait_time w
    = (Return (Done (job_error_object (timeout_msg max_wait_time) job_id)), w').
Proof.
  intros Ht. unfold exceeds in Ht.
  unfold _poll_job_iter. mstep. rewrite Ht.
  eexists; split; [|reflexivity]. adv.
Qed.

Lemma job_iter_terminal w body s :
  exceeds w start_time (n_clock w) max_wait_time = false ->
  answers w (n_net w) body -> has_status body s -> s <> 1 ->
  exists w', advanced 1 1 w w' /\
    _poll_job_iter job_id job_url headers start_time poll_interval max_wait_time w
    = (Return (Done body), w').
Proof.
  intros Ht (r & Hn & He & Hj) (d & -> & Hs) Hc. unfold exceeds in Ht.
  unfold _poll_job_iter. mstep. rewrite Ht. mstep.
  rewrite Hn, He. mstep. rewrite Hj. mstep. rewrite Hs. mstep.
  destruct (s =? 2); [eexists; split; [|reflexivity]; adv|].
  destruct (s =? 3); [mstep; eexists; split; [|reflexivity]; adv|].
  destruct (s =? 1) eqn:E1; [apply Z.eqb_eq in E1; congruence|].
  eexists; split; [|reflexivity]. adv.
Qed.

Lemma job_iter_continue w body :
  exceeds w start_time (n_clock w) max_wait_time = false ->
  answers w (n_net w) body -> has_status body 1 ->
  0 <= poll_interval ->
  exists w', advanced 1 1 w w' /\
    _poll_job_iter job_id job_url headers start_time poll_interval max_wait_time w
    = (Return Continue, w').
Proof.
  intros Ht (r & Hn & He & Hj) (d & -> & Hs) Hp. unfold exceeds in Ht.
  unfold _poll_job_iter. mstep. rewrite Ht. mstep.
  rewrite Hn, He. mstep. rewrite Hj. mstep. rewrite Hs. mstep.
  cbn [Z.eqb Pos.eqb]. mstep.
  apply Z.ltb_ge in Hp. rewrite Hp.
  eexists; split; [|reflexivity]. adv.
Qed.

Lemma job_iter_failure w e :
  exceeds w start_time (n_clock w) max_wait_time = false ->
  fails_with w (n_net w) e ->
  exists msg w', advanced 1 1 w w' /\
    _poll_job_iter job_id job_url headers start_time poll_interval max_wait_time w
    = (Return (Done (job_error_object msg job_id)), w').
Proof.
  intros Ht Hf. unfold exceeds in Ht.
  destruct Hf as [Hn | (r & Hn & [He | [He Hj]])];
    unfold _poll_job_iter; mstep; rewrite Ht; mstep;
    rewrite Hn; try rewrite He; mstep; try rewrite Hj; mstep;
    destruct (isinstance e RequestException);
    do 2 eexists; (split; [|reflexivity]); adv.
Qed.

(** Whatever the world does, a turn of the loop raises nothing. *)
Lemma job_iter_no_raise w e w' :
  _poll_job_iter job_id job_url headers start_time poll_interval max_wait_time w
  <> (Raise e, w').
Proof.
  unfold _poll_job_iter, try_except.
  match goal with |- (match ?m w with _ => _ end) <> _ => destruct (m w) as [[c | e0 |] w0] end.
  - discriminate.
  - destruct (isinstance e0 RequestException); mstep; discriminate.
  - discriminate.
Qed.

Lemma job_loop_no_raise fuel w e w' :
  _poll_job_loop fuel job_id job_url headers start_time poll_interval max_wait_time w
  <> (Raise e, w').
Proof.
  unfold _poll_job_loop. revert w.
  induction fuel as [| fuel IH]; intros w; cbn [while_true]; [discriminate|].
  unfold bind at 1.
  destruct (_poll_job_iter job_id job_url headers start_time poll_interval
              max_wait_time w) as [[c | e0 |] w0] eqn:E.
  - destruct c; [apply IH | discriminate].
  - exfalso. exact (job_iter_no_raise _ _ _ E).
  - discriminate.
Qed.

End JobSteps.

(** ** The loops *)

Lemma answers_advanced dn dc w w' i body :
  advanced dn dc w w' -> answers w (n_net w + dn + i) body ->
  answers w' (n_net w' + i) body.
Proof.
  intros (Hn & _ & Hc & _) (r & H1 & H2). exists r. rewrite Hn, Hc. auto.
Qed.

Lemma exceeds_advanced dn dc w w' st i mx :
  advanced dn dc w w' ->
  exceeds w' st (n_clock w' + i) mx = exceeds w st (n_clock w + dc + i) mx.
Proof.
  intros (_ & Hk & _ & Hc). unfold exceeds. rewrite Hk, Hc. reflexivity.
Qed.

Lemma answers_next dn dc w w' body :
  advanced dn dc w w' -> answers w (n_net w + dn) body -> answers w' (n_net w') body.
Proof.
  intros (Hn & _ & Hc & _) (r & H1 & H2). exists r. rewrite Hn, Hc. auto.
Qed.

Lemma fails_next dn dc w w' e :
  advanced dn dc w w' -> fails_with w (n_net w + dn) e -> fails_with w' (n_net w') e.
Proof.
  intros (Hn & _ & Hc & _) H. unfold fails_with in *. rewrite Hn, Hc. exact H.
Qed.

Lemma exceeds_next dn dc w w' st mx :
  advanced dn dc w w' ->
  exceeds w' st (n_clock w') mx = exceeds w st (n_clock w + dc) mx.
Proof.
  intros (_ & Hk & _ & Hc). unfold exceeds. rewrite Hk, Hc. reflexivity.
Qed.

Lemma keeps_running_advanced w w' st mx k :
  advanced 1 1 w w' -> keeps_running w st mx (S k) -> keeps_running w' st mx k.
Proof.
  intros Ha H i Hi. destruct (H (S i)) as [(body & Hb & Hs) Ht]; [lia|]. split.
  - exists body. split; [|exact Hs].
    apply (answers_advanced 1 1 w w' i body Ha).
    replace (n_net w + 1 + i)%nat with (n_net w + S i)%nat by lia. exact Hb.
  - rewrite (exceeds_advanced 1 1 w w' st i mx Ha).
    replace (n_clock w + 1 + i)%nat with (n_clock w + S i)%nat by lia. exact Ht.
Qed.

Lemma still_running_tick w mx k :
  still_running w mx k -> keeps_running (tick w) (clock w (n_clock w)) mx k.
Proof.
  intros H i Hi. destruct (H i Hi) as [Hb Ht]. split.
  - exact Hb.
  - unfold exceeds in *. cbn [tick clock n_clock].
    replace (S (n_clock w) + i)%nat with (n_clock w + S i)%nat by lia. exact Ht.
Qed.

Section PollLoop.

Variables (job_id job_url : string) (headers : list (string * string)).
Variables (start_time : float) (poll_interval max_wait_time : Z).

(** While the job keeps running the loop of [poll] goes round. *)
Lemma poll_loop_running k : forall fuel w,
  ((0 < k)%nat -> 0 <= poll_interval) ->
  keeps_running w start_time max_wait_time k ->
  exists w', advanced k k w w' /\
    poll_loop (k + fuel) job_id job_url headers start_time poll_interval
      max_wait_time false w
    = poll_loop fuel job_id job_url headers start_time poll_interval
        max_wait_time false w'.
Proof.
  induction k as [| k IH]; intros fuel w Hp Hk.
  - exists w. split; [adv | reflexivity].
  - destruct (Hk 0%nat) as [(body & Hb & Hs) Ht]; [lia|].
    rewrite Nat.add_0_r in Hb, Ht.
    destruct (poll_iter_continue job_id job_url headers start_time poll_interval
                max_wait_time w body Hb Hs Ht) as (w1 & Ha & E); [apply Hp; lia|].
    destruct (IH fuel w1) as (w2 & Ha2 & E2).
    { intros _. apply Hp. lia. }
    { eapply keeps_running_advanced; eauto. }
    exists w2. split.
    + exact (advanced_trans _ _ _ _ _ _ _ Ha Ha2).
    + unfold poll_loop in *. cbn [Nat.add].
      rewrite (while_true_continue _ _ _ _ E). exact E2.
Qed.

End PollLoop.

(** With its three inputs present, [poll] reads the clock and enters its loop. *)
Lemma poll_enter fuel job_id app_id secret_key poll_interval max_wait_time
  single_query w :
  blank job_id = false -> blank app_id = false -> blank secret_key = false ->
  poll fuel job_id app_id secret_key poll_interval max_wait_time single_query w
  = poll_loop fuel job_id ("https://ali.youchuan.cn/v1/tob/job/" ++ strip job_id)
      [("x-youchuan-app", app_id); ("x-youchuan-secret", secret_key);
       ("Content-Type", "application/json")]
      (clock w (n_clock w)) poll_interval max_wait_time single_query (tick w).
Proof.
  intros H1 H2 H3. unfold poll. rewrite H1, H2, H3. reflexivity.
Qed.

Lemma tick_advanced w : advanced 0 1 w (tick w).
Proof. adv. Qed.

Lemma first_true (P : nat -> bool) : forall k,
  P k = true ->
  exists j, (j <= k)%nat /\ P j = true /\ forall i, (i < j)%nat -> P i = false.
Proof.
  intros k. revert P. induction k as [| k IH]; intros P Hk.
  - exists 0%nat. repeat split; [lia | exact Hk | intros i Hi; lia].
  - destruct (P 0%nat) eqn:E0.
    + exists 0%nat. repeat split; [lia | exact E0 | intros i Hi; lia].
    + destruct (IH (fun n => P (S n)) Hk) as (j & Hj & Pj & Hlt).
      exists (S j). repeat split; [lia | exact Pj |].
      intros [| i] Hi; [exact E0 | apply Hlt; lia].
Qed.

(** After [k] turns that found the job running, [poll] is at the head of its
    loop, [k] requests and [k + 1] clock readings later. *)
Lemma poll_running_prefix fuel job_id app_id secret_key poll_interval max_wait_time
  w k :
  blank job_id = false -> blank app_id = false -> blank secret_key = false ->
  ((0 < k)%nat -> 0 <= poll_interval) ->
  still_running w max_wait_time k ->
  exists w', advanced k (S k) w w' /\
    poll (k + fuel) job_id app_id secret_key poll_interval max_wait_time false w
    = poll_loop fuel job_id ("https://ali.youchuan.cn/v1/tob/job/" ++ strip job_id)
        [("x-youchuan-app", app_id); ("x-youchuan-secret", secret_key);
         ("Content-Type", "application/json")]
        (clock w (n_clock w)) poll_interval max_wait_time false w'.
Proof.
  intros H1 H2 H3 Hp Hk.
  rewrite (poll_enter _ _ _ _ _ _ _ _ H1 H2 H3).
  destruct (poll_loop_running job_id
              ("https://ali.youchuan.cn/v1/tob/job/" ++ strip job_id)
              [("x-youchuan-app", app_id); ("x-youchuan-secret", secret_key);
               ("Content-Type", "application/json")]
              (clock w (n_clock w)) poll_interval max_wait_time k fuel (tick w) Hp
              (still_running_tick _ _ _ Hk)) as (w' & Ha & E).
  exists w'. split; [|exact E].
  pose proof (advanced_trans _ _ _ _ _ _ _ (tick_advanced w) Ha) as Ha'.
  cbn [Nat.add] in Ha'. exact Ha'.
Qed.

(** ** The claims about [poll] *)

(** C1. In single-query mode, with its three inputs present, [poll] returns on
    the first response: the body as indented JSON text and, as status code, the
    integer [status] of that body, after exactly one request (status 1 gives
    code 1, 2 gives 2, 3 gives 3). *)
Theorem C1_single_query_returns_first_status :
  forall fuel job_id app_id secret_key poll_interval max_wait_time w body s,
    blank job_id = false -> blank app_id = false -> blank secret_key = false ->
    answers w (n_net w) body -> has_status body s ->
    exists w',
      poll (S fuel) job_id app_id secret_key poll_interval max_wait_time true w
      = (Return (json_dumps (Some 2%nat) body, VInt s), w')
      /\ n_net w' = S (n_net w).
Proof.
  intros fuel job_id app_id secret_key poll_interval max_wait_time w body s
    H1 H2 H3 Hb Hs.
  rewrite (poll_enter _ _ _ _ _ _ _ _ H1 H2 H3).
  destruct (poll_iter_terminal job_id
              ("https://ali.youchuan.cn/v1/tob/job/" ++ strip job_id)
              [("x-youchuan-app", app_id); ("x-youchuan-secret", secret_key);
               ("Content-Type", "application/json")]
              (clock w (n_clock w)) poll_interval max_wait_time true (tick w) body s
              Hb Hs) as (w' & Ha & E); [right; right; left; reflexivity|].
  exists w'. split.
  - unfold poll_loop. exact (while_true_done _ _ _ _ _ E).
  - destruct Ha as (_ & _ & Hn & _). rewrite Hn. cbn [tick n_net]. lia.
Qed.

(** C2. With [single_query] off and a sleep length that is not negative, when
    every status check answers status 1 and some check reads a clock past
    [max_wait_time] since the first reading, [poll] returns: the code is -1 and
    the result the error object with the message of the timeout, the [job_id]
    as given and [last_status] 1. *)
Theorem C2_poll_times_out_while_running :
  forall job_id app_id secret_key poll_interval max_wait_time w k,
    blank job_id = false -> blank app_id = false -> blank secret_key = false ->
    0 <= poll_interval ->
    (forall i, exists body, answers w (n_net w + i) body /\ has_status body 1) ->
    exceeds w (clock w (n_clock w)) (n_clock w + S k) max_wait_time = true ->
    exists fuel w',
      poll fuel job_id app_id secret_key poll_interval max_wait_time false w
      = (Return (json_dumps None
                   (timeout_object (timeout_msg max_wait_time) job_id (VInt 1)),
                 VInt (-1)), w').
Proof.
  intros job_id app_id secret_key poll_interval max_wait_time w k
    H1 H2 H3 Hp Hall Hk.
  destruct (first_true
              (fun i => exceeds w (clock w (n_clock w)) (n_clock w + S i) max_wait_time)
              k Hk) as (j & _ & Hj & Hlt).
  assert (Hrun : still_running w max_wait_time j).
  { intros i Hi. split; [apply Hall | apply Hlt; exact Hi]. }
  destruct (poll_running_prefix 1 job_id app_id secret_key poll_interval
              max_wait_time w j H1 H2 H3 (fun _ => Hp) Hrun) as (w1 & Ha & E).
  destruct (Hall j) as (body & Hb & Hs).
  destruct (poll_iter_timeout job_id
              ("https://ali.youchuan.cn/v1/tob/job/" ++ strip job_id)
              [("x-youchuan-app", app_id); ("x-youchuan-secret", secret_key);
               ("Content-Type", "application/json")]
              (clock w (n_clock w)) poll_interval max_wait_time w1 body)
    as (w2 & _ & E2).
  - exact (answers_next _ _ _ _ _ Ha Hb).
  - exact Hs.
  - rewrite (exceeds_next _ _ _ _ _ _ Ha). exact Hj.
  - exists (j + 1)%nat, w2. rewrite E. unfold poll_loop.
    exact (while_true_done _ _ _ _ _ E2).
Qed.

(** C7. With [single_query] off, a response whose [status] is an integer other
    than 1, 2 and 3 ends [poll] at once, whether it is the first response or
    comes after [k] checks that found the job running: the result is the whole
    body as indented JSON text, the code is that status, and no request follows. *)
Theorem C7_poll_unknown_status_is_terminal :
  forall fuel job_id app_id secret_key poll_interval max_wait_time w k body s,
    blank job_id = false -> blank app_id = false -> blank secret_key = false ->
    ((0 < k)%nat -> 0 <= poll_interval) ->
    still_running w max_wait_time k ->
    answers w (n_net w + k) body -> has_status body s ->
    s <> 1 -> s <> 2 -> s <> 3 ->
    exists w',
      poll (k + S fuel) job_id app_id secret_key poll_interval max_wait_time false w
      = (Return (json_dumps (Some 2%nat) body, VInt s), w')
      /\ n_net w' = (n_net w + k + 1)%nat.
Proof.
  intros fuel job_id app_id secret_key poll_interval max_wait_time w k body s
    H1 H2 H3 Hp Hrun Hb Hs N1 N2 N3.
  destruct (poll_running_prefix (S fuel) job_id app_id secret_key poll_interval
              max_wait_time w k H1 H2 H3 Hp Hrun) as (w1 & Ha & E).
  destruct (poll_iter_terminal job_id
              ("https://ali.youchuan.cn/v1/tob/job/" ++ strip job_id)
              [("x-youchuan-app", app_id); ("x-youchuan-secret", secret_key);
               ("Content-Type", "application/json")]
              (clock w (n_clock w)) poll_interval max_wait_time false w1 body s)
    as (w2 & Ha2 & E2).
  - exact (answers_next _ _ _ _ _ Ha Hb).
  - exact Hs.
  - right. right. right. exact N1.
  - exists w2. split.
    + rewrite E. unfold poll_loop. exact (while_true_done _ _ _ _ _ E2).
    + destruct Ha as (_ & _ & Hn & _). destruct Ha2 as (_ & _ & Hn2 & _). lia.
Qed.

(** ** The claims about [run] and [submit] *)

Lemma run_blank fuel text app_id secret_key endpoint poll_interval max_wait_time
  auto_poll w :
  blank text = true \/ blank app_id = true \/ blank secret_key = true ->
  exists msg,
    run fuel text app_id secret_key endpoint poll_interval max_wait_time auto_poll w
    = (Return (json_dumps None (error_object msg)),
       emit (EvLog ("[MidjourneyAPI] " ++ msg)) w).
Proof.
  intros H. unfold run. mstep.
  destruct (blank text); [eexists; reflexivity|].
  destruct (blank app_id); [eexists; reflexivity|].
  destruct (blank secret_key); [eexists; reflexivity|].
  exfalso. destruct H as [H | [H | H]]; discriminate H.
Qed.

Lemma submit_blank text app_id secret_key endpoint w :
  blank text = true \/ blank app_id = true \/ blank secret_key = true ->
  exists msg,
    submit text app_id secret_key endpoint w
    = (Return (VStr "", json_dumps None (error_object msg)),
       emit (EvLog ("[MidjourneyAPISubmit] " ++ msg)) w).
Proof.
  intros H. unfold submit. mstep.
  destruct (blank text); [eexists; reflexivity|].
  destruct (blank app_id); [eexists; reflexivity|].
  destruct (blank secret_key); [eexists; reflexivity|].
  exfalso. destruct H as [H | [H | H]]; discriminate H.
Qed.

Lemma run_failure fuel text app_id secret_key endpoint poll_interval max_wait_time
  auto_poll w e :
  blank text = false -> blank app_id = false -> blank secret_key = false ->
  fails_with w (n_net w) e ->
  exists msg w', advanced 1 0 w w' /\
    run fuel text app_id secret_key endpoint poll_interval max_wait_time auto_poll w
    = (Return (json_dumps None (error_object msg)), w').
Proof.
  intros H1 H2 H3 [Hn | (r & Hn & [He | [He Hj]])];
    unfold run; mstep; rewrite H1, H2, H3; mstep;
    rewrite Hn; try rewrite He; mstep; try rewrite Hj; mstep;
    destruct (isinstance e RequestException);
    try destruct (isinstance e JSONDecodeError);
    do 2 eexists; (split; [|reflexivity]); adv.
Qed.

Lemma submit_failure text app_id secret_key endpoint w e :
  blank text = false -> blank app_id = false -> blank secret_key = false ->
  fails_with w (n_net w) e ->
  exists msg w', advanced 1 0 w w' /\
    submit text app_id secret_key endpoint w
    = (Return (VStr "", json_dumps None (error_object msg)), w').
Proof.
  intros H1 H2 H3 [Hn | (r & Hn & [He | [He Hj]])];
    unfold submit; mstep; rewrite H1, H2, H3; mstep;
    rewrite Hn; try rewrite He; mstep; try rewrite Hj; mstep;
    destruct (isinstance e RequestException);
    try destruct (isinstance e JSONDecodeError);
    do 2 eexists; (split; [|reflexivity]); adv.
Qed.

Lemma job_result_no_raise fuel job_id app_id secret_key poll_interval max_wait_time
  w e w' :
  _poll_job_result fuel job_id app_id secret_key poll_interval max_wait_time w
  <> (Raise e, w').
Proof.
  unfold _poll_job_result. mstep. apply job_loop_no_raise.
Qed.

(** A submission answered with status 1 and an [id] that is not empty hands
    over to [_poll_job_result] when [auto_poll] is on. *)
Lemma run_delegates fuel text app_id secret_key endpoint poll_interval max_wait_time
  w body job_id :
  blank text = false -> blank app_id = false -> blank secret_key = false ->
  answers w (n_net w) body -> has_status body 1 -> has_id body job_id ->
  truthy job_id = true ->
  exists w1, advanced 1 0 w w1 /\
    run fuel text app_id secret_key endpoint poll_interval max_wait_time true w
    = (outcome_map (json_dumps (Some 2%nat))
         (fst (_poll_job_result fuel job_id app_id secret_key poll_interval
                 max_wait_time w1)),
       snd (_poll_job_result fuel job_id app_id secret_key poll_interval
              max_wait_time w1)).
Proof.
  intros H1 H2 H3 (r & Hn & He & Hj) (d & -> & Hs) (d' & Hd & Hi) Ht.
  injection Hd as <-.
  unfold run. mstep. rewrite H1, H2, H3. mstep. rewrite Hn, He. mstep.
  rewrite Hj. mstep. rewrite Hi, Hs. mstep. rewrite Ht.
  cbn [andb Z.eqb Pos.eqb]. mstep.
  match goal with
  | |- context [_poll_job_result ?f ?j ?a ?k ?p ?m ?w0] =>
      exists w0; split; [adv|];
      destruct (_poll_job_result f j a k p m w0) as [[v | e |] w2] eqn:E
  end.
  - reflexivity.
  - exfalso. exact (job_result_no_raise _ _ _ _ _ _ _ _ _ E).
  - reflexivity.
Qed.

Lemma spec_rule_retry s : spec_status_rule s = Retry -> s = 1.
Proof.
  unfold spec_status_rule.
  destruct (s =? 2); [discriminate|].
  destruct (s =? 3); [discriminate|].
  destruct (s =? 1) eqn:E; [intros _; apply Z.eqb_eq; exact E | discriminate].
Qed.

Lemma spec_rule_terminal s : spec_status_rule s = Terminal -> s <> 1.
Proof. intros H ->. discriminate H. Qed.

(** A turn of [_poll_job_loop] that is within time follows the rule. *)
Lemma job_loop_rule fuel job_id job_url headers start_time poll_interval
  max_wait_time w body s :
  0 <= poll_interval ->
  exceeds w start_time (n_clock w) max_wait_time = false ->
  answers w (n_net w) body -> has_status body s ->
  exists w', advanced 1 1 w w' /\
    _poll_job_loop (S fuel) job_id job_url headers start_time poll_interval
      max_wait_time w
    = match spec_status_rule s with
      | Terminal => (Return body, w')
      | Retry =>
          _poll_job_loop fuel job_id job_url headers start_time poll_interval
            max_wait_time w'
      end.
Proof.
  intros Hp Ht Hb Hs. unfold _poll_job_loop.
  destruct (spec_status_rule s) eqn:R.
  - destruct (job_iter_terminal job_id job_url headers start_time poll_interval
                max_wait_time w body s Ht Hb Hs (spec_rule_terminal _ R))
      as (w' & Ha & E).
    exists w'. split; [exact Ha | exact (while_true_done _ _ _ _ _ E)].
  - apply spec_rule_retry in R. subst s.
    destruct (job_iter_continue job_id job_url headers start_time poll_interval
                max_wait_time w body Ht Hb Hs Hp) as (w' & Ha & E).
    exists w'. split; [exact Ha | exact (while_true_continue _ _ _ _ E)].
Qed.

(** Past the deadline it returns the error object of the timeout, without a
    request. *)
Lemma job_loop_timeout fuel job_id job_url headers start_time poll_interval
  max_wait_time w :
  exceeds w start_time (n_clock w) max_wait_time = true ->
  exists w', advanced 0 1 w w' /\
    _poll_job_loop (S fuel) job_id job_url headers start_time poll_interval
      max_wait_time w
    = (Return (job_error_object (timeout_msg max_wait_time) job_id), w').
Proof.
  intros Ht.
  destruct (job_iter_timeout job_id job_url headers start_time poll_interval
              max_wait_time w Ht) as (w' & Ha & E).
  exists w'. split; [exact Ha | exact (while_true_done _ _ _ _ _ E)].
Qed.

(** A turn of the loop of [poll], without [single_query], follows the same
    rule; its deadline is looked at when the status is 1. *)
Lemma poll_loop_rule fuel job_id job_url headers start_time poll_interval
  max_wait_time w body s :
  0 <= poll_interval ->
  answers w (n_net w) body -> has_status body s ->
  exists w', n_net w' = S (n_net w) /\
    poll_loop (S fuel) job_id job_url headers start_time poll_interval
      max_wait_time false w
    = match spec_status_rule s with
      | Terminal => (Return (json_dumps (Some 2%nat) body, VInt s), w')
      | Retry =>
          if exceeds w start_time (n_clock w) max_wait_time
          then (Return (json_dumps None
                          (timeout_object (timeout_msg max_wait_time) job_id (VInt s)),
                        VInt (-1)), w')
          else poll_loop fuel job_id job_url headers start_time poll_interval
                 max_wait_time false w'
      end.
Proof.
  intros Hp Hb Hs. unfold poll_loop.
  destruct (spec_status_rule s) eqn:R.
  - destruct (poll_iter_terminal job_id job_url headers start_time poll_interval
                max_wait_time false w body s Hb Hs) as (w' & Ha & E).
    { right. right. right. exact (spec_rule_terminal _ R). }
    exists w'. split; [destruct Ha as (_ & _ & Hn & _); lia|].
    exact (while_true_done _ _ _ _ _ E).
  - apply spec_rule_retry in R. subst s.
    destruct (exceeds w start_time (n_clock w) max_wait_time) eqn:Ht.
    + destruct (poll_iter_timeout job_id job_url headers start_time poll_interval
                  max_wait_time w body Hb Hs Ht) as (w' & Ha & E).
      exists w'. split; [destruct Ha as (_ & _ & Hn & _); lia|].
      exact (while_true_done _ _ _ _ _ E).
    + destruct (poll_iter_continue job_id job_url headers start_time poll_interval
                  max_wait_time w body Hb Hs Ht Hp) as (w' & Ha & E).
      exists w'. split; [destruct Ha as (_ & _ & Hn & _); lia|].
      exact (while_true_continue _ _ _ _ E).
Qed.

(** C5. When [text], [app_id] or [secret_key] is empty or only whitespace, [run]
    and [submit] return the JSON text of an object with the sole key [error]
    ([submit] with an empty job id beside it); nothing is raised and no request
    is made: the only effect is one log line. *)
Theorem C5_blank_input_is_rejected_without_request :
  forall fuel text app_id secret_key endpoint poll_interval max_wait_time auto_poll w,
    blank text = true \/ blank app_id = true \/ blank secret_key = true ->
    (exists msg w',
       run fuel text app_id secret_key endpoint poll_interval max_wait_time
         auto_poll w
       = (Return (json_dumps None (error_object msg)), w')
       /\ n_net w' = n_net w
       /\ trace w' = (trace w ++ [EvLog ("[MidjourneyAPI] " ++ msg)])%list)
    /\ (exists msg w',
          submit text app_id secret_key endpoint w
          = (Return (VStr "", json_dumps None (error_object msg)), w')
          /\ n_net w' = n_net w
          /\ trace w' = (trace w ++ [EvLog ("[MidjourneyAPISubmit] " ++ msg)])%list).
Proof.
  intros fuel text app_id secret_key endpoint poll_interval max_wait_time auto_poll
    w H. split.
  - destruct (run_blank fuel text app_id secret_key endpoint poll_interval
                max_wait_time auto_poll w H) as (msg & E).
    exists msg. eexists. split; [exact E|]. split; reflexivity.
  - destruct (submit_blank text app_id secret_key endpoint w H) as (msg & E).
    exists msg. eexists. split; [exact E|]. split; reflexivity.
Qed.

(** C6. A request that fails (the transport raises, the HTTP status is an
    error, or the body does not decode) makes [run] and [submit] return the JSON
    text of an object with the key [error], and makes [poll] return such an
    object with the [job_id] beside the error, together with the code 0; nothing
    is raised, and [poll] makes no request after the failed one, be it the first
    or one that follows [k] checks that found the job running. *)
Theorem C6_request_failures_become_error_objects :
  forall fuel text job_id app_id secret_key endpoint poll_interval max_wait_time
         auto_poll single_query w e wp k ep,
    blank text = false -> blank job_id = false ->
    blank app_id = false -> blank secret_key = false ->
    fails_with w (n_net w) e ->
    ((0 < k)%nat -> 0 <= poll_interval) ->
    still_running wp max_wait_time k ->
    fails_with wp (n_net wp + k) ep ->
    (exists msg w',
       run fuel text app_id secret_key endpoint poll_interval max_wait_time
         auto_poll w
       = (Return (json_dumps None (error_object msg)), w')
       /\ n_net w' = S (n_net w))
    /\ (exists msg w',
          submit text app_id secret_key endpoint w
          = (Return (VStr "", json_dumps None (error_object msg)), w')
          /\ n_net w' = S (n_net w))
    /\ (exists msg w',
          poll (S fuel) job_id app_id secret_key poll_interval max_wait_time
            single_query w
          = (Return (json_dumps None (job_error_object msg (VStr job_id)), VInt 0),
             w')
          /\ n_net w' = S (n_net w))
    /\ (exists msg w',
          poll (k + S fuel) job_id app_id secret_key poll_interval max_wait_time
            false wp
          = (Return (json_dumps None (job_error_object msg (VStr job_id)), VInt 0),
             w')
          /\ n_net w' = (n_net wp + k + 1)%nat).
Proof.
  intros fuel text job_id app_id secret_key endpoint poll_interval max_wait_time
    auto_poll single_query w e wp k ep Ht Hj Ha Hk Hf Hp Hrun Hfp.
  split; [|split; [|split]].
  - destruct (run_failure fuel text app_id secret_key endpoint poll_interval
                max_wait_time auto_poll w e Ht Ha Hk Hf) as (msg & w' & Hadv & E).
    exists msg, w'. split; [exact E|]. destruct Hadv as (_ & _ & Hn & _). lia.
  - destruct (submit_failure text app_id secret_key endpoint w e Ht Ha Hk Hf)
      as (msg & w' & Hadv & E).
    exists msg, w'. split; [exact E|]. destruct Hadv as (_ & _ & Hn & _). lia.
  - rewrite (poll_enter _ _ _ _ _ _ _ _ Hj Ha Hk).
    destruct (poll_iter_failure job_id
                ("https://ali.youchuan.cn/v1/tob/job/" ++ strip job_id)
                [("x-youchuan-app", app_id); ("x-youchuan-secret", secret_key);
                 ("Content-Type", "application/json")]
                (clock w (n_clock w)) poll_interval max_wait_time single_query
                (tick w) e Hf) as (msg & w' & Hadv & E).
    exists msg, w'. split.
    + unfold poll_loop. exact (while_true_done _ _ _ _ _ E).
    + destruct Hadv as (_ & _ & Hn & _). rewrite Hn. cbn [tick n_net]. lia.
  - destruct (poll_running_prefix (S fuel) job_id app_id secret_key poll_interval
                max_wait_time wp k Hj Ha Hk Hp Hrun) as (w1 & Hadv & E).
    destruct (poll_iter_failure job_id
                ("https://ali.youchuan.cn/v1/tob/job/" ++ strip job_id)
                [("x-youchuan-app", app_id); ("x-youchuan-secret", secret_key);
                 ("Content-Type", "application/json")]
                (clock wp (n_clock wp)) poll_interval max_wait_time false
                w1 ep (fails_next _ _ _ _ _ Hadv Hfp)) as (msg & w' & Hadv2 & E2).
    exists msg, w'. split.
    + rewrite E. unfold poll_loop. exact (while_true_done _ _ _ _ _ E2).
    + destruct Hadv as (_ & _ & Hn & _). destruct Hadv2 as (_ & _ & Hn2 & _). lia.
Qed.

(** ** The claims about [extract] *)

Lemma extract_parse_failure json_input key_path default_value return_as_string w :
  decoded json_input = None ->
  exists w',
    extract json_input key_path default_value return_as_string w
    = (Return (Tuple1 default_value), w').
Proof.
  intros H. unfold extract, loads.
  destruct json_input; try discriminate H.
  cbn [decoded] in H. unfold json_loads in H.
  destruct (decode s) as [e | v]; [|discriminate H].
  mstep.
  destruct (isinstance e JSONDecodeError); [mstep; eexists; reflexivity|].
  destruct (isinstance e KeyError); mstep; eexists; reflexivity.
Qed.

Lemma decoded_loads json_input data w :
  decoded json_input = Some data ->
  match json_input with
  | VStr s => lift (decode s)
  | _ => ret json_input
  end w = (Return data, w).
Proof.
  intros H.
  destruct json_input; cbn [decoded] in H; try (injection H as <-; reflexivity).
  unfold json_loads in H. destruct (decode s) as [e | v]; [discriminate H|].
  injection H as <-. reflexivity.
Qed.

Lemma extract_traverse_failure json_input key_path default_value return_as_string
  w data e :
  decoded json_input = Some data ->
  traverse (split_dot (strip key_path)) data = inl e ->
  exists w',
    extract json_input key_path default_value return_as_string w
    = (Return (Tuple1 default_value), w').
Proof.
  intros H Ht. unfold extract, loads.
  unfold try_except at 1. unfold bind at 1.
  rewrite (decoded_loads json_input data w H).
  unfold bind at 1. rewrite Ht. cbn [lift]. unfold raise at 1.
  destruct (isinstance e JSONDecodeError); [mstep; eexists; reflexivity|].
  destruct (isinstance e KeyError); mstep; eexists; reflexivity.
Qed.

Lemma extract_success json_input key_path default_value return_as_string
  w data current_data :
  decoded json_input = Some data ->
  traverse (split_dot (strip key_path)) data = inr current_data ->
  exists w',
    extract json_input key_path default_value return_as_string w
    = (Return (match reparse (format_result return_as_string current_data) with
               | inr formatted_result =>
                   UIResult [formatted_result]
                     [format_result return_as_string current_data]
                     formatted_result
               | inl _ => Tuple1 default_value
               end), w').
Proof.
  intros H Ht. unfold extract, loads.
  unfold try_except at 1. unfold bind at 1.
  rewrite (decoded_loads json_input data w H).
  unfold bind at 1. rewrite Ht. cbn [lift]. unfold ret at 1.
  unfold reparse.
  destruct (decode (format_result return_as_string current_data)) as [e | v];
    mstep; [|eexists; reflexivity].
  destruct (isinstance e JSONDecodeError) eqn:Ee; mstep; [eexists; reflexivity|].
  rewrite Ee.
  destruct (isinstance e KeyError); mstep; eexists; reflexivity.
Qed.

Lemma append_empty_r s : s ++ "" = s.
Proof. induction s as [| c s IH]; cbn [append]; [|rewrite IH]; reflexivity. Qed.

Lemma span_digits_eq s : forall d r, span_digits s = (d, r) -> s = d ++ r.
Proof.
  induction s as [| c s IH]; intros d r H; cbn [span_digits] in H.
  - injection H as <- <-. reflexivity.
  - destruct (is_digit c).
    + destruct (span_digits s) as [d' r'] eqn:E. injection H as <- <-.
      cbn [append]. f_equal. apply IH. reflexivity.
    + injection H as <- <-. reflexivity.
Qed.

(** What [int(key)] returns is the value of the digits of [key]. *)
Lemma py_int_value key index : py_int key = inr index -> index = int_of_str key.
Proof.
  unfold py_int, int_of_str.
  destruct (span_digits (ascii_digits key)) as [d r] eqn:E.
  destruct (int_too_long (len d)); [discriminate|].
  destruct ((r =? "")%string && negb (d =? "")%string) eqn:Er; [|discriminate].
  intros H. injection H as <-.
  apply andb_true_iff in Er. destruct Er as [Er _]. apply String.eqb_eq in Er.
  subst r. rewrite (span_digits_eq _ _ _ E).
  rewrite append_empty_r. reflexivity.
Qed.

Lemma traverse_app pre post data current_data :
  traverse pre data = inr current_data ->
  traverse (pre ++ post)%list data = traverse post current_data.
Proof.
  revert data. induction pre as [| key pre IH]; intros data H.
  - injection H as <-. reflexivity.
  - cbn [traverse app] in *. destruct (descend data key) as [e | x].
    + discriminate H.
    + apply IH. exact H.
Qed.

(** C8. When [json_input] is a string that is not valid JSON, [extract] returns
    the one-element tuple of [default_value], whatever the other arguments, and
    raises nothing. *)
Theorem C8_extract_malformed_json_yields_default :
  forall s key_path default_value return_as_string w,
    json_loads s = None ->
    exists w',
      extract (VStr s) key_path default_value return_as_string w
      = (Return (Tuple1 default_value), w').
Proof.
  intros s key_path default_value return_as_string w H.
  apply extract_parse_failure. exact H.
Qed.

(** C9. On the text of an object with the list of "a" and "b" under [urls], the
    path [urls.1] yields "b"; on the text of an object with 1 under [a], the same
    path with the default "X" yields "X".  A key missing from a mapping and an
    index out of the range of a sequence make the step fail, a failed step at
    any depth makes the traversal fail, and a failed traversal makes [extract]
    return [default_value] and raise nothing. *)
Theorem C9_extract_path_examples_and_fallback :
  forall default_value return_as_string w,
    (exists w',
       extract (VStr urls_text) "urls.1" default_value return_as_string w
       = (Return (UIResult [VStr "b"] ["b"] (VStr "b")), w'))
    /\ (exists w',
          extract (VStr a1_text) "urls.1" (VStr "X") return_as_string w
          = (Return (Tuple1 (VStr "X")), w'))
    /\ (forall d key, dict_get d key = None ->
          exists e, descend (VDict d) key = inl e)
    /\ (forall l key, isdigit key = true ->
          Z.of_nat (List.length l) <= int_of_str key ->
          exists e, descend (VList l) key = inl e)
    /\ (forall pre key post data current_data e,
          traverse pre data = inr current_data ->
          descend current_data key = inl e ->
          traverse (pre ++ key :: post)%list data = inl e)
    /\ (forall json_input key_path data e,
          decoded json_input = Some data ->
          traverse (split_dot (strip key_path)) data = inl e ->
          exists w',
            extract json_input key_path default_value return_as_string w
            = (Return (Tuple1 default_value), w')).
Proof.
  intros default_value return_as_string w.
  split; [|split; [|split; [|split; [|split]]]].
  - destruct (extract_success (VStr urls_text) "urls.1" default_value
                return_as_string w
                (VDict [("urls", VList [VStr "a"; VStr "b"])]) (VStr "b"))
      as (w' & E); [vm_compute; reflexivity | vm_compute; reflexivity |].
    exists w'. rewrite E.
    replace (format_result return_as_string (VStr "b")) with "b"
      by (destruct return_as_string; reflexivity).
    replace (reparse "b") with (@inr exn value (VStr "b")) by (vm_compute; reflexivity).
    reflexivity.
  - apply (extract_traverse_failure (VStr a1_text) "urls.1" (VStr "X")
             return_as_string w (VDict [("a", VInt 1)])
             (mkExn KeyError "键 'urls' 不存在"));
      vm_compute; reflexivity.
  - intros d key H. unfold descend. rewrite H. eexists. reflexivity.
  - intros l key Hd Hr. unfold descend. rewrite Hd.
    destruct (py_int key) as [e | index] eqn:Ei; [eexists; reflexivity|].
    apply py_int_value in Ei. subst index.
    destruct ((0 <=? int_of_str key) && (int_of_str key <? Z.of_nat (List.length l)))
      eqn:E.
    + apply andb_true_iff in E. destruct E as [_ E]. apply Z.ltb_lt in E. lia.
    + eexists. reflexivity.
  - intros pre key post data current_data e Hp Hd.
    rewrite (traverse_app pre (key :: post) data current_data Hp).
    cbn [traverse]. rewrite Hd. reflexivity.
  - intros json_input key_path data e Hd Ht.
    exact (extract_traverse_failure json_input key_path default_value
             return_as_string w data e Hd Ht).
Qed.


(** C3, evaluated where it fails.  On the text of an object with 1 under [a] and
    the path [a], the result-formatting step produces the string "1", and
    [extract] returns under [result] the integer 1 that the re-parse made of it:
    the re-parse does change the primary value. *)
Theorem C3_reparse_replaces_the_formatted_string :
  forall default_value w,
    format_result true (VInt 1) = "1"
    /\ exists w',
         extract (VStr a1_text) "a" default_value true w
         = (Return (UIResult [VInt 1] ["1"] (VInt 1)), w').
Proof.
  intros default_value w. split; [reflexivity|].
  destruct (extract_success (VStr a1_text) "a" default_value true w
              (VDict [("a", VInt 1)]) (VInt 1))
    as (w' & E); [vm_compute; reflexivity | vm_compute; reflexivity |].
  exists w'. rewrite E.
  replace (format_result true (VInt 1)) with "1" by reflexivity.
  replace (reparse "1") with (@inr exn value (VInt 1)) by (vm_compute; reflexivity).
  reflexivity.
Qed.

(** ** Further properties: what the nodes do to the outside *)

Ltac stp :=
  unfold steps, advanced, effects;
  cbn [net n_net clock n_clock trace emit tick];
  rewrite ?filter_app; cbn [filter is_log negb];
  rewrite <- ?app_assoc; cbn [app]; rewrite ?app_nil_r;
  repeat split; try lia; try reflexivity.

Lemma steps_refl w : steps 0 0 [] w w.
Proof. stp. Qed.

Lemma steps_trans a b c d l1 l2 w1 w2 w3 :
  steps a b l1 w1 w2 -> steps c d l2 w2 w3 ->
  steps (a + c) (b + d) (l1 ++ l2) w1 w3.
Proof.
  intros [H1 E1] [H2 E2]. split.
  - exact (advanced_trans _ _ _ _ _ _ _ H1 H2).
  - rewrite E2, E1, app_assoc. reflexivity.
Qed.

Lemma steps_tick w : steps 0 1 [] w (tick w).
Proof. stp. Qed.

Lemma waits_snoc k url headers secs :
  (waits k url headers secs ++ [check url headers; EvSleep secs])%list
  = waits (S k) url headers secs.
Proof.
  induction k as [| k IH]; [reflexivity|].
  cbn [waits app]. cbn [waits] in IH. rewrite IH. reflexivity.
Qed.

Lemma waits_cons k url headers secs :
  ([check url headers; EvSleep secs] ++ waits k url headers secs)%list
  = waits (S k) url headers secs.
Proof. reflexivity. Qed.

Section PollTurns.

Variables (job_id url : string) (headers : list (string * string)).
Variables (start_time : float) (poll_interval max_wait_time : Z).

(** A response that decodes to an object and does not say "running" ends the
    loop with the body; the clock is not looked at. *)
Lemma poll_turn_final single_query w d :
  answers w (n_net w) (VDict d) ->
  py_eq_int (status_of d) 2 = false -> py_eq_int (status_of d) 3 = false ->
  single_query = true \/ py_eq_int (status_of d) 1 = false ->
  exists w', steps 1 0 [check url headers] w w' /\
    poll_iter job_id url headers start_time poll_interval max_wait_time
      single_query w
    = (Return (Done (json_dumps (Some 2%nat) (VDict d), status_of d)), w').
Proof.
  intros (r & Hn & He & Hj) E2 E3 Hc. unfold status_of in *.
  unfold poll_iter. mstep. rewrite Hn, He. mstep. rewrite Hj. mstep.
  rewrite E2, E3.
  destruct single_query.
  - eexists. split; [|reflexivity]. stp.
  - destruct Hc as [Hc | Hc]; [discriminate Hc|]. rewrite Hc. mstep.
    eexists. split; [|reflexivity]. stp.
Qed.

Lemma poll_turn_done w d :
  answers w (n_net w) (VDict d) ->
  forall single_query,
  (py_eq_int (status_of d) 2 = true ->
   exists w', steps 1 0 [check url headers] w w' /\
     poll_iter job_id url headers start_time poll_interval max_wait_time
       single_query w
     = (Return (Done (json_dumps (Some 2%nat) (VDict d), VInt 2)), w'))
  /\ (py_eq_int (status_of d) 2 = false -> py_eq_int (status_of d) 3 = true ->
      exists w', steps 1 0 [check url headers] w w' /\
        poll_iter job_id url headers start_time poll_interval max_wait_time
          single_query w
        = (Return (Done (json_dumps (Some 2%nat) (VDict d), VInt 3)), w')).
Proof.
  intros (r & Hn & He & Hj) single_query. unfold status_of. split.
  - intros E2. unfold poll_iter. mstep. rewrite Hn, He. mstep. rewrite Hj. mstep.
    rewrite E2. eexists. split; [|reflexivity]. stp.
  - intros E2 E3. unfold poll_iter. mstep. rewrite Hn, He. mstep. rewrite Hj.
    mstep. rewrite E2, E3. mstep. eexists. split; [|reflexivity]. stp.
Qed.

Lemma poll_turn_continue w body :
  answers w (n_net w) body -> has_status body 1 ->
  exceeds w start_time (n_clock w) max_wait_time = false ->
  0 <= poll_interval ->
  exists w', steps 1 1 [check url headers; EvSleep poll_interval] w w' /\
    poll_iter job_id url headers start_time poll_interval max_wait_time false w
    = (Return Continue, w').
Proof.
  intros (r & Hn & He & Hj) (d & -> & Hs) Ht Hp. unfold exceeds in Ht.
  unfold poll_iter. mstep. rewrite Hn, He. mstep. rewrite Hj. mstep. rewrite Hs. mstep.
  cbn [Z.eqb Pos.eqb]. mstep. rewrite Ht.
  apply Z.ltb_ge in Hp. rewrite Hp.
  eexists. split; [|reflexivity]. stp.
Qed.

Lemma poll_turn_not_object single_query w body :
  answers w (n_net w) body -> is_object body = false ->
  exists w', steps 1 0 [check url headers] w w' /\
    poll_iter job_id url headers start_time poll_interval max_wait_time
      single_query w
    = (Return (Done (json_dumps None
                       (job_error_object ("轮询过程出错: " ++ no_get_msg body)
                          (VStr job_id)), VInt 0)), w').
Proof.
  intros (r & Hn & He & Hj) Ho.
  unfold poll_iter. mstep. rewrite Hn, He. mstep. rewrite Hj. mstep.
  destruct body; try discriminate Ho; mstep; cbn [isinstance exn_cls]; mstep;
    (eexists; split; [|reflexivity]); stp.
Qed.




(** While the job keeps running the loop goes round: a check and a sleep each
    turn. *)
Lemma poll_loop_waits k : forall fuel w,
  ((0 < k)%nat -> 0 <= poll_interval) ->
  keeps_running w start_time max_wait_time k ->
  exists w', steps k k (waits k url headers poll_interval) w w' /\
    poll_loop (k + fuel) job_id url headers start_time poll_interval
      max_wait_time false w
    = poll_loop fuel job_id url headers start_time poll_interval
        max_wait_time false w'.
Proof.
  induction k as [| k IH]; intros fuel w Hp Hk.
  - exists w. split; [apply steps_refl | reflexivity].
  - destruct (Hk 0%nat) as [(body & Hb & Hs) Ht]; [lia|].
    rewrite Nat.add_0_r in Hb, Ht.
    destruct (poll_turn_continue w body Hb Hs Ht) as (w1 & Ha & E); [apply Hp; lia|].
    destruct (IH fuel w1) as (w2 & Ha2 & E2).
    { intros _. apply Hp. lia. }
    { apply (keeps_running_advanced w w1); [exact (proj1 Ha) | exact Hk]. }
    exists w2. split.
    + pose proof (steps_trans _ _ _ _ _ _ _ _ _ Ha Ha2) as H.
      rewrite waits_cons in H. exact H.
    + unfold poll_loop in *. cbn [Nat.add].
      rewrite (while_true_continue _ _ _ _ E). exact E2.
Qed.

End PollTurns.


(** ** Further properties of [poll] *)

Lemma poll_waits_prefix fuel job_id app_id secret_key poll_interval max_wait_time
  w k :
  blank job_id = false -> blank app_id = false -> blank secret_key = false ->
  ((0 < k)%nat -> 0 <= poll_interval) ->
  still_running w max_wait_time k ->
  exists w',
    steps k (S k)
      (waits k (job_url (strip job_id)) (credentials app_id secret_key)
         poll_interval) w w' /\
    poll (k + fuel) job_id app_id secret_key poll_interval max_wait_time false w
    = poll_loop fuel job_id (job_url (strip job_id))
        (credentials app_id secret_key) (clock w (n_clock w)) poll_interval
        max_wait_time false w'.
Proof.
  intros H1 H2 H3 Hp Hk.
  rewrite (poll_enter _ _ _ _ _ _ _ _ H1 H2 H3).
  destruct (poll_loop_waits job_id (job_url (strip job_id))
              (credentials app_id secret_key) (clock w (n_clock w)) poll_interval
              max_wait_time k fuel (tick w) Hp (still_running_tick _ _ _ Hk))
    as (w' & Ha & E).
  exists w'. split; [|exact E].
  pose proof (steps_trans _ _ _ _ _ _ _ _ _ (steps_tick w) Ha) as Ha'.
  cbn [Nat.add app] in Ha'. exact Ha'.
Qed.

(** The end of a call of [poll] on a response that decodes to an object and
    does not say "running", after [k] checks that did. *)
Lemma poll_ends fuel job_id app_id secret_key poll_interval max_wait_time w k d :
  blank job_id = false -> blank app_id = false -> blank secret_key = false ->
  ((0 < k)%nat -> 0 <= poll_interval) ->
  still_running w max_wait_time k ->
  answers w (n_net w + k) (VDict d) ->
  py_eq_int (status_of d) 1 = false ->
  exists w',
    steps (k + 1) (S k)
      (waits k (job_url (strip job_id)) (credentials app_id secret_key)
         poll_interval
       ++ [check (job_url (strip job_id)) (credentials app_id secret_key)]) w w' /\
    poll (k + S fuel) job_id app_id secret_key poll_interval max_wait_time false w
    = (Return (json_dumps (Some 2%nat) (VDict d), poll_code (status_of d)), w').
Proof.
  intros H1 H2 H3 Hp Hrun Hb E1.
  destruct (poll_waits_prefix (S fuel) job_id app_id secret_key poll_interval
              max_wait_time w k H1 H2 H3 Hp Hrun) as (w1 & Ha & E).
  pose proof (answers_next _ _ _ _ _ (proj1 Ha) Hb) as Hb1.
  assert (exists w2,
             steps 1 0 [check (job_url (strip job_id)) (credentials app_id secret_key)]
               w1 w2 /\
             poll_iter job_id (job_url (strip job_id))
               (credentials app_id secret_key) (clock w (n_clock w)) poll_interval
               max_wait_time false w1
             = (Return (Done (json_dumps (Some 2%nat) (VDict d),
                              poll_code (status_of d))), w2)) as (w2 & Ha2 & E2).
  { unfold poll_code.
    destruct (py_eq_int (status_of d) 2) eqn:E2.
    - exact (proj1 (poll_turn_done job_id _ _ _ poll_interval max_wait_time w1 d
                      Hb1 false) E2).
    - destruct (py_eq_int (status_of d) 3) eqn:E3.
      + exact (proj2 (poll_turn_done job_id _ _ _ poll_interval max_wait_time w1 d
                        Hb1 false) E2 E3).
      + apply poll_turn_final; auto. }
  exists w2. split.
  - pose proof (steps_trans _ _ _ _ _ _ _ _ _ Ha Ha2) as H.
    replace (S k + 0)%nat with (S k) in H by lia. exact H.
  - rewrite E. unfold poll_loop. exact (while_true_done _ _ _ _ _ E2).
Qed.

(** X1. A blank [job_id], [app_id] or [secret_key] makes [poll] return the JSON
    text of an object with the sole key [error] and the code 0, in either mode
    and before the loop is entered: no request is made, the clock is not read
    and nothing is slept. *)
Theorem poll_rejects_blank_input :
  forall fuel job_id app_id secret_key poll_interval max_wait_time single_query w,
    blank job_id = true \/ blank app_id = true \/ blank secret_key = true ->
    exists msg w',
      poll fuel job_id app_id secret_key poll_interval max_wait_time single_query w
      = (Return (json_dumps None (error_object msg), VInt 0), w')
      /\ steps 0 0 [] w w'.
Proof.
  intros fuel job_id app_id secret_key poll_interval max_wait_time single_query w H.
  unfold poll, poll_reject. mstep.
  destruct (blank job_id); [do 2 eexists; split; [reflexivity | stp]|].
  destruct (blank app_id); [do 2 eexists; split; [reflexivity | stp]|].
  destruct (blank secret_key); [do 2 eexists; split; [reflexivity | stp]|].
  exfalso. destruct H as [H | [H | H]]; discriminate H.
Qed.

(** X2. With [single_query] off, [poll] returns a job that has left the running
    state (any integer status but 1: done, failed or unknown) with its whole
    body and that status, whatever the clock reads by then.  On the way it has
    made exactly one status check per turn, at the address of the trimmed
    [job_id], with the credentials as given and a timeout of 10 seconds, and has
    slept [poll_interval] after each check that found the job running. *)
Theorem poll_returns_the_job_once_it_stops_running :
  forall fuel job_id app_id secret_key poll_interval max_wait_time w k body s,
    blank job_id = false -> blank app_id = false -> blank secret_key = false ->
    ((0 < k)%nat -> 0 <= poll_interval) ->
    still_running w max_wait_time k ->
    answers w (n_net w + k) body -> has_status body s -> s <> 1 ->
    exists w',
      poll (k + S fuel) job_id app_id secret_key poll_interval max_wait_time false w
      = (Return (json_dumps (Some 2%nat) body, VInt s), w')
      /\ steps (k + 1) (S k)
           (waits k (job_url (strip job_id)) (credentials app_id secret_key)
              poll_interval
            ++ [check (job_url (strip job_id)) (credentials app_id secret_key)])
           w w'.
Proof.
  intros fuel job_id app_id secret_key poll_interval max_wait_time w k body s
    H1 H2 H3 Hp Hrun Hb (d & -> & Hs) N1.
  assert (Hv : status_of d = VInt s) by (unfold status_of; rewrite Hs; reflexivity).
  destruct (poll_ends fuel job_id app_id secret_key poll_interval max_wait_time
              w k d H1 H2 H3 Hp Hrun Hb) as (w' & Ha & E).
  { rewrite Hv. cbn [py_eq_int]. apply Z.eqb_neq. exact N1. }
  exists w'. split; [|exact Ha].
  rewrite E, Hv. unfold poll_code. cbn [py_eq_int].
  destruct (s =? 2) eqn:E2; [apply Z.eqb_eq in E2; subst s; reflexivity|].
  destruct (s =? 3) eqn:E3; [apply Z.eqb_eq in E3; subst s; reflexivity|].
  reflexivity.
Qed.

(** X3. A response that decodes to an object without a [status] field is read
    as status 0: [poll] returns the whole body with the code 0, the code it also
    gives to a failed request, and does not check again. *)
Theorem poll_reads_a_missing_status_as_zero :
  forall fuel job_id app_id secret_key poll_interval max_wait_time w k d,
    blank job_id = false -> blank app_id = false -> blank secret_key = false ->
    ((0 < k)%nat -> 0 <= poll_interval) ->
    still_running w max_wait_time k ->
    answers w (n_net w + k) (VDict d) -> dict_get d "status" = None ->
    exists w',
      poll (k + S fuel) job_id app_id secret_key poll_interval max_wait_time false w
      = (Return (json_dumps (Some 2%nat) (VDict d), VInt 0), w')
      /\ n_net w' = (n_net w + k + 1)%nat.
Proof.
  intros fuel job_id app_id secret_key poll_interval max_wait_time w k d
    H1 H2 H3 Hp Hrun Hb Hs.
  assert (Hv : status_of d = VInt 0) by (unfold status_of; rewrite Hs; reflexivity).
  destruct (poll_ends fuel job_id app_id secret_key poll_interval max_wait_time
              w k d H1 H2 H3 Hp Hrun Hb) as (w' & Ha & E).
  { rewrite Hv. reflexivity. }
  exists w'. split.
  - rewrite E, Hv. reflexivity.
  - destruct Ha as [(_ & _ & Hn & _) _]. lia.
Qed.

(** X4. While the job keeps running and the clock stays within the deadline,
    [poll] does not give up: after [k] turns, each a status check followed by a
    sleep of [poll_interval], it is still in its loop, having returned and
    raised nothing. *)
Theorem poll_keeps_polling_while_the_job_runs :
  forall job_id app_id secret_key poll_interval max_wait_time w k,
    blank job_id = false -> blank app_id = false -> blank secret_key = false ->
    ((0 < k)%nat -> 0 <= poll_interval) ->
    still_running w max_wait_time k ->
    exists w',
      poll k job_id app_id secret_key poll_interval max_wait_time false w
      = (OutOfFuel, w')
      /\ steps k (S k)
           (waits k (job_url (strip job_id)) (credentials app_id secret_key)
              poll_interval) w w'.
Proof.
  intros job_id app_id secret_key poll_interval max_wait_time w k H1 H2 H3 Hp Hrun.
  destruct (poll_waits_prefix 0 job_id app_id secret_key poll_interval
              max_wait_time w k H1 H2 H3 Hp Hrun) as (w' & Ha & E).
  exists w'. split; [|exact Ha].
  rewrite Nat.add_0_r in E. rewrite E. reflexivity.
Qed.


(** ** Further properties of [run] and [submit] *)

Lemma nonblank_not_empty s : blank s = false -> (s =? "")%string = false.
Proof. unfold blank. intros H. apply orb_false_elim in H. exact (proj1 H). Qed.



(** X6. [submit] always returns a pair, and all it ever does to the outside is
    at most one request, the POST of the trimmed text to the endpoint with the
    credentials as given and a timeout of 30 seconds: it never polls, sleeps or
    reads the clock, whatever status the service answers. *)
Theorem submit_returns_after_at_most_one_request :
  forall text app_id secret_key endpoint w,
    exists r w',
      submit text app_id secret_key endpoint w = (Return r, w')
      /\ (steps 0 0 [] w w'
          \/ steps 1 0 [submission endpoint text app_id secret_key] w w').
Proof.
  intros text app_id secret_key endpoint w. unfold submit. mstep.
  destruct (blank text);
    [do 2 eexists; split; [reflexivity | left; stp]|].
  destruct (blank app_id);
    [do 2 eexists; split; [reflexivity | left; stp]|].
  destruct (blank secret_key);
    [do 2 eexists; split; [reflexivity | left; stp]|].
  mstep.
  destruct (net w (n_net w)) as [e | r].
  { destruct (isinstance e RequestException);
      [|destruct (isinstance e JSONDecodeError)];
      do 2 eexists; (split; [reflexivity | right; stp]). }
  destruct (resp_error r) as [e |].
  { destruct (isinstance e RequestException);
      [|destruct (isinstance e JSONDecodeError)];
      do 2 eexists; (split; [reflexivity | right; stp]). }
  mstep. destruct (resp_json r) as [e | body].
  { mstep. destruct (isinstance e RequestException);
      [|destruct (isinstance e JSONDecodeError)];
      do 2 eexists; (split; [reflexivity | right; stp]). }
  mstep.
  destruct body; mstep; cbn [isinstance exn_cls]; mstep;
    try (do 2 eexists; (split; [reflexivity | right; stp])).
  match goal with
  | |- context [truthy ?v] => destruct (truthy v)
  end; do 2 eexists; (split; [reflexivity | right; stp]).
Qed.

Lemma submit_answered text app_id secret_key endpoint w d :
  blank text = false -> blank app_id = false -> blank secret_key = false ->
  answers w (n_net w) (VDict d) ->
  exists w',
    submit text app_id secret_key endpoint w
    = (Return (id_of d, json_dumps (Some 2%nat) (VDict d)), w')
    /\ steps 1 0 [submission endpoint text app_id secret_key] w w'.
Proof.
  intros H1 H2 H3 (r & Hn & He & Hj).
  unfold submit, id_of. mstep. rewrite H1, H2, H3. mstep. rewrite Hn, He. mstep.
  rewrite Hj. mstep.
  match goal with
  | |- context [truthy ?v] => destruct (truthy v)
  end; eexists; (split; [reflexivity | stp]).
Qed.

(** X7. A submission answered by an object makes [submit] return the [id] of
    the object, or the empty string when it has none, with the whole body as
    indented JSON text, after that one request. *)
Theorem submit_returns_the_id_and_the_body :
  forall text app_id secret_key endpoint w d,
    blank text = false -> blank app_id = false -> blank secret_key = false ->
    answers w (n_net w) (VDict d) ->
    exists w',
      submit text app_id secret_key endpoint w
      = (Return (id_of d, json_dumps (Some 2%nat) (VDict d)), w')
      /\ steps 1 0 [submission endpoint text app_id secret_key] w w'.
Proof.
  intros text app_id secret_key endpoint w d H1 H2 H3 Hb.
  exact (submit_answered text app_id secret_key endpoint w d H1 H2 H3 Hb).
Qed.

(** The combined node where the guard of its polling fails. *)
Lemma run_answered_unpolled fuel text app_id secret_key endpoint poll_interval
  max_wait_time auto_poll w d :
  blank text = false -> blank app_id = false -> blank secret_key = false ->
  answers w (n_net w) (VDict d) ->
  auto_poll = false \/ truthy (id_of d) = false
  \/ py_eq_int (status_of d) 1 = false ->
  exists w',
    run fuel text app_id secret_key endpoint poll_interval max_wait_time
      auto_poll w
    = (Return (json_dumps (Some 2%nat) (VDict d)), w')
    /\ steps 1 0 [submission endpoint text app_id secret_key] w w'.
Proof.
  intros H1 H2 H3 (r & Hn & He & Hj) Hc.
  unfold run. mstep. rewrite H1, H2, H3. mstep. rewrite Hn, He. mstep.
  rewrite Hj. mstep.
  assert (E : auto_poll && truthy (id_of d) && py_eq_int (status_of d) 1 = false).
  { destruct Hc as [-> | [-> | ->]]; [reflexivity | |].
    - destruct auto_poll; reflexivity.
    - apply andb_false_r. }
  unfold id_of, status_of in E. rewrite E. mstep.
  eexists. split; [reflexivity | stp].
Qed.

(** X8. [run] returns the body of the submission as it is, after its one
    request and without a status check, whenever [auto_poll] is off, the body
    has no [id] that counts as true, or its status is not 1. *)
Theorem run_returns_the_submission_when_it_does_not_poll :
  forall fuel text app_id secret_key endpoint poll_interval max_wait_time
         auto_poll w d,
    blank text = false -> blank app_id = false -> blank secret_key = false ->
    answers w (n_net w) (VDict d) ->
    auto_poll = false \/ truthy (id_of d) = false
    \/ py_eq_int (status_of d) 1 = false ->
    exists w',
      run fuel text app_id secret_key endpoint poll_interval max_wait_time
        auto_poll w
      = (Return (json_dumps (Some 2%nat) (VDict d)), w')
      /\ steps 1 0 [submission endpoint text app_id secret_key] w w'.
Proof.
  intros fuel text app_id secret_key endpoint poll_interval max_wait_time
    auto_poll w d H1 H2 H3 Hb Hc.
  exact (run_answered_unpolled fuel text app_id secret_key endpoint poll_interval
           max_wait_time auto_poll w d H1 H2 H3 Hb Hc).
Qed.

(** X9. A response whose body decodes to something that is not an object (a
    list, a string, a number, null) is an error like any other: [run] and
    [submit] return the JSON text of the error object, [poll] returns it with
    the [job_id] and the code 0, each after that one request. *)
Theorem a_body_that_is_not_an_object_is_an_error :
  forall fuel text job_id app_id secret_key endpoint poll_interval max_wait_time
         auto_poll single_query w body,
    blank text = false -> blank job_id = false ->
    blank app_id = false -> blank secret_key = false ->
    answers w (n_net w) body -> is_object body = false ->
    (exists w',
       run fuel text app_id secret_key endpoint poll_interval max_wait_time
         auto_poll w
       = (Return (json_dumps None (error_object ("未知错误: " ++ no_get_msg body))),
          w')
       /\ n_net w' = S (n_net w))
    /\ (exists w',
          submit text app_id secret_key endpoint w
          = (Return (VStr "",
                     json_dumps None
                       (error_object ("未知错误: " ++ no_get_msg body))), w')
          /\ n_net w' = S (n_net w))
    /\ (exists w',
          poll (S fuel) job_id app_id secret_key poll_interval max_wait_time
            single_query w
          = (Return (json_dumps None
                       (job_error_object ("轮询过程出错: " ++ no_get_msg body)
                          (VStr job_id)), VInt 0), w')
          /\ n_net w' = S (n_net w)).
Proof.
  intros fuel text job_id app_id secret_key endpoint poll_interval max_wait_time
    auto_poll single_query w body Ht Hj Ha Hk Hb Ho.
  split; [|split].
  - destruct Hb as (r & Hn & He & Hjs).
    unfold run. mstep. rewrite Ht, Ha, Hk. mstep. rewrite Hn, He. mstep.
    rewrite Hjs. mstep.
    destruct body; try discriminate Ho; mstep; cbn [isinstance exn_cls]; mstep;
      (eexists; split; [reflexivity | reflexivity]).
  - destruct Hb as (r & Hn & He & Hjs).
    unfold submit. mstep. rewrite Ht, Ha, Hk. mstep. rewrite Hn, He. mstep.
    rewrite Hjs. mstep.
    destruct body; try discriminate Ho; mstep; cbn [isinstance exn_cls]; mstep;
      (eexists; split; [reflexivity | reflexivity]).
  - rewrite (poll_enter _ _ _ _ _ _ _ _ Hj Ha Hk).
    destruct (poll_turn_not_object job_id
                ("https://ali.youchuan.cn/v1/tob/job/" ++ strip job_id)
                [("x-youchuan-app", app_id); ("x-youchuan-secret", secret_key);
                 ("Content-Type", "application/json")]
                (clock w (n_clock w)) poll_interval max_wait_time single_query
                (tick w) body Hb Ho) as (w' & Hs & E).
    exists w'. split.
    + unfold poll_loop. exact (while_true_done _ _ _ _ _ E).
    + destruct Hs as [(_ & _ & Hn & _) _]. rewrite Hn. cbn [tick n_net]. lia.
Qed.


(** ** Further properties of the combined node while it polls *)

Section JobTurns.

Variables (job_id : value) (url : string) (headers : list (string * string)).
Variables (start_time : float) (poll_interval max_wait_time : Z).

Lemma job_turn_continue w body :
  exceeds w start_time (n_clock w) max_wait_time = false ->
  answers w (n_net w) body -> has_status body 1 ->
  0 <= poll_interval ->
  exists w', steps 1 1 [check url headers; EvSleep poll_interval] w w' /\
    _poll_job_iter job_id url headers start_time poll_interval max_wait_time w
    = (Return Continue, w').
Proof.
  intros Ht (r & Hn & He & Hj) (d & -> & Hs) Hp. unfold exceeds in Ht.
  unfold _poll_job_iter. mstep. rewrite Ht. mstep.
  rewrite Hn, He. mstep. rewrite Hj. mstep. rewrite Hs. mstep.
  cbn [Z.eqb Pos.eqb]. mstep.
  apply Z.ltb_ge in Hp. rewrite Hp.
  eexists. split; [|reflexivity]. stp.
Qed.

Lemma job_turn_final w body s :
  exceeds w start_time (n_clock w) max_wait_time = false ->
  answers w (n_net w) body -> has_status body s -> s <> 1 ->
  exists w', steps 1 1 [check url headers] w w' /\
    _poll_job_iter job_id url headers start_time poll_interval max_wait_time w
    = (Return (Done body), w').
Proof.
  intros Ht (r & Hn & He & Hj) (d & -> & Hs) Hc. unfold exceeds in Ht.
  unfold _poll_job_iter. mstep. rewrite Ht. mstep.
  rewrite Hn, He. mstep. rewrite Hj. mstep. rewrite Hs. mstep.
  destruct (s =? 2); [eexists; split; [|reflexivity]; stp|].
  destruct (s =? 3); [mstep; eexists; split; [|reflexivity]; stp|].
  destruct (s =? 1) eqn:E1; [apply Z.eqb_eq in E1; congruence|].
  eexists. split; [|reflexivity]. stp.
Qed.

Lemma job_turn_timeout w :
  exceeds w start_time (n_clock w) max_wait_time = true ->
  exists w', steps 0 1 [] w w' /\
    _poll_job_iter job_id url headers start_time poll_interval max_wait_time w
    = (Return (Done (job_error_object (timeout_msg max_wait_time) job_id)), w').
Proof.
  intros Ht. unfold exceeds in Ht.
  unfold _poll_job_iter. mstep. rewrite Ht.
  eexists. split; [|reflexivity]. stp.
Qed.

Lemma job_turn_failure w e :
  exceeds w start_time (n_clock w) max_wait_time = false ->
  fails_with w (n_net w) e ->
  exists msg w', steps 1 1 [check url headers] w w' /\
    _poll_job_iter job_id url headers start_time poll_interval max_wait_time w
    = (Return (Done (job_error_object msg job_id)), w').
Proof.
  intros Ht Hf. unfold exceeds in Ht.
  destruct Hf as [Hn | (r & Hn & [He | [He Hj]])];
    unfold _poll_job_iter; mstep; rewrite Ht; mstep;
    rewrite Hn; try rewrite He; mstep; try rewrite Hj; mstep;
    destruct (isinstance e RequestException);
    do 2 eexists; (split; [|reflexivity]); stp.
Qed.

Lemma job_loop_waits k : forall fuel w,
  ((0 < k)%nat -> 0 <= poll_interval) ->
  keeps_running w start_time max_wait_time k ->
  exists w', steps k k (waits k url headers poll_interval) w w' /\
    _poll_job_loop (k + fuel) job_id url headers start_time poll_interval
      max_wait_time w
    = _poll_job_loop fuel job_id url headers start_time poll_interval
        max_wait_time w'.
Proof.
  induction k as [| k IH]; intros fuel w Hp Hk.
  - exists w. split; [apply steps_refl | reflexivity].
  - destruct (Hk 0%nat) as [(body & Hb & Hs) Ht]; [lia|].
    rewrite Nat.add_0_r in Hb, Ht.
    destruct (job_turn_continue w body Ht Hb Hs) as (w1 & Ha & E); [apply Hp; lia|].
    destruct (IH fuel w1) as (w2 & Ha2 & E2).
    { intros _. apply Hp. lia. }
    { apply (keeps_running_advanced w w1); [exact (proj1 Ha) | exact Hk]. }
    exists w2. split.
    + pose proof (steps_trans _ _ _ _ _ _ _ _ _ Ha Ha2) as H.
      rewrite waits_cons in H. exact H.
    + unfold _poll_job_loop in *. cbn [Nat.add].
      rewrite (while_true_continue _ _ _ _ E). exact E2.
Qed.

End JobTurns.

(** A submission answered with status 1 and an [id] that counts as true, with
    [auto_poll] on: [run] has posted, and goes on as the loop does from its
    first reading of the clock. *)
Lemma run_enters_the_loop fuel text app_id secret_key endpoint poll_interval
  max_wait_time w body job_id :
  blank text = false -> blank app_id = false -> blank secret_key = false ->
  answers w (n_net w) body -> has_status body 1 -> has_id body job_id ->
  truthy job_id = true ->
  exists w1,
    steps 1 1 [submission endpoint text app_id secret_key] w w1 /\
    run fuel text app_id secret_key endpoint poll_interval max_wait_time true w
    = (outcome_map (json_dumps (Some 2%nat))
         (fst (_poll_job_loop fuel job_id (job_url (py_str job_id))
                 (credentials app_id secret_key) (clock w (n_clock w))
                 poll_interval max_wait_time w1)),
       snd (_poll_job_loop fuel job_id (job_url (py_str job_id))
              (credentials app_id secret_key) (clock w (n_clock w))
              poll_interval max_wait_time w1)).
Proof.
  intros H1 H2 H3 (r & Hn & He & Hj) (d & -> & Hs) (d' & Hd & Hi) Ht.
  injection Hd as <-.
  unfold run. mstep. rewrite H1, H2, H3. mstep. rewrite Hn, He. mstep.
  rewrite Hj. mstep. rewrite Hi, Hs. mstep. rewrite Ht.
  cbn [andb Z.eqb Pos.eqb]. mstep.
  unfold _poll_job_result. mstep.
  rewrite (nonblank_not_empty _ H2), (nonblank_not_empty _ H3).
  unfold job_url, credentials, submission.
  match goal with
  | |- context [_poll_job_loop ?f ?j ?u ?h ?st ?p ?m ?w0] =>
      exists w0; split; [stp|];
      destruct (_poll_job_loop f j u h st p m w0) as [[v | e |] w2] eqn:E
  end.
  - reflexivity.
  - exfalso. exact (job_loop_no_raise _ _ _ _ _ _ _ _ _ _ E).
  - reflexivity.
Qed.

Lemma job_still_running_enter w w1 l mx k :
  steps 1 1 l w w1 -> job_still_running w mx k ->
  keeps_running w1 (clock w (n_clock w)) mx k.
Proof.
  intros [(Hn & Hc & Hnn & Hnc) _] H i Hi.
  destruct (H i Hi) as [(body & (r & Hb) & Hs) Ht]. split.
  - exists body. split; [|exact Hs]. exists r. rewrite Hn, Hnn. exact Hb.
  - unfold exceeds in *. rewrite Hc, Hnc. exact Ht.
Qed.

(** The combined node after [k] checks that found the job running: it is at the
    head of its loop. *)
Lemma run_waits_prefix fuel text app_id secret_key endpoint poll_interval
  max_wait_time w body job_id k :
  blank text = false -> blank app_id = false -> blank secret_key = false ->
  answers w (n_net w) body -> has_status body 1 -> has_id body job_id ->
  truthy job_id = true ->
  ((0 < k)%nat -> 0 <= poll_interval) ->
  job_still_running w max_wait_time k ->
  exists w1,
    steps (1 + k) (1 + k)
      (submission endpoint text app_id secret_key
       :: waits k (job_url (py_str job_id)) (credentials app_id secret_key)
            poll_interval) w w1 /\
    run (k + fuel) text app_id secret_key endpoint poll_interval max_wait_time
      true w
    = (outcome_map (json_dumps (Some 2%nat))
         (fst (_poll_job_loop fuel job_id (job_url (py_str job_id))
                 (credentials app_id secret_key) (clock w (n_clock w))
                 poll_interval max_wait_time w1)),
       snd (_poll_job_loop fuel job_id (job_url (py_str job_id))
              (credentials app_id secret_key) (clock w (n_clock w))
              poll_interval max_wait_time w1)).
Proof.
  intros H1 H2 H3 Hb Hs Hi Ht Hp Hrun.
  destruct (run_enters_the_loop (k + fuel) text app_id secret_key endpoint
              poll_interval max_wait_time w body job_id H1 H2 H3 Hb Hs Hi Ht)
    as (w0 & Ha & E).
  destruct (job_loop_waits job_id (job_url (py_str job_id))
              (credentials app_id secret_key) (clock w (n_clock w)) poll_interval
              max_wait_time k fuel w0 Hp
              (job_still_running_enter _ _ _ _ _ Ha Hrun)) as (w1 & Ha1 & E1).
  exists w1. split.
  - exact (steps_trans _ _ _ _ _ _ _ _ _ Ha Ha1).
  - rewrite E, E1. reflexivity.
Qed.


Lemma outcome_of_loop_done {A : Type} (f : A -> string) (r : outcome A * World) a w' :
  r = (Return a, w') -> (outcome_map f (fst r), snd r) = (Return (f a), w').
Proof. intros ->. reflexivity. Qed.

(** The combined node, polled to the end of a job. *)
Lemma run_polls_to_the_end :
  forall fuel text app_id secret_key endpoint poll_interval max_wait_time w body0
         job_id k body s,
    blank text = false -> blank app_id = false -> blank secret_key = false ->
    answers w (n_net w) body0 -> has_status body0 1 -> has_id body0 job_id ->
    truthy job_id = true ->
    ((0 < k)%nat -> 0 <= poll_interval) ->
    job_still_running w max_wait_time k ->
    exceeds w (clock w (n_clock w)) (n_clock w + 1 + k) max_wait_time = false ->
    answers w (n_net w + 1 + k) body -> has_status body s -> s <> 1 ->
    exists w',
      run (k + S fuel) text app_id secret_key endpoint poll_interval max_wait_time
        true w
      = (Return (json_dumps (Some 2%nat) body), w')
      /\ steps (k + 2) (k + 2)
           (submission endpoint text app_id secret_key
            :: waits k (job_url (py_str job_id)) (credentials app_id secret_key)
                 poll_interval
            ++ [check (job_url (py_str job_id)) (credentials app_id secret_key)])
           w w'.
Proof.
  intros fuel text app_id secret_key endpoint poll_interval max_wait_time w body0
    job_id k body s H1 H2 H3 Hb0 Hs0 Hi Ht Hp Hrun Hx Hb Hs N1.
  destruct (run_waits_prefix (S fuel) text app_id secret_key endpoint
              poll_interval max_wait_time w body0 job_id k
              H1 H2 H3 Hb0 Hs0 Hi Ht Hp Hrun) as (w1 & Ha & E).
  rewrite <- Nat.add_assoc in Hx, Hb.
  destruct (job_turn_final job_id (job_url (py_str job_id))
              (credentials app_id secret_key) (clock w (n_clock w)) poll_interval
              max_wait_time w1 body s) as (w2 & Ha2 & E2).
  - rewrite (exceeds_next _ _ _ _ _ _ (proj1 Ha)). exact Hx.
  - exact (answers_next _ _ _ _ _ (proj1 Ha) Hb).
  - exact Hs.
  - exact N1.
  - exists w2. split.
    + rewrite E. apply outcome_of_loop_done.
      unfold _poll_job_loop. exact (while_true_done _ _ _ _ _ E2).
    + pose proof (steps_trans _ _ _ _ _ _ _ _ _ Ha Ha2) as H.
      replace (1 + k + 1)%nat with (k + 2)%nat in H by lia. exact H.
Qed.

(** The combined node, polled until a turn starts past the deadline. *)
Lemma run_polls_to_the_deadline :
  forall fuel text app_id secret_key endpoint poll_interval max_wait_time w body0
         job_id k,
    blank text = false -> blank app_id = false -> blank secret_key = false ->
    answers w (n_net w) body0 -> has_status body0 1 -> has_id body0 job_id ->
    truthy job_id = true ->
    ((0 < k)%nat -> 0 <= poll_interval) ->
    job_still_running w max_wait_time k ->
    exceeds w (clock w (n_clock w)) (n_clock w + 1 + k) max_wait_time = true ->
    exists w',
      run (k + S fuel) text app_id secret_key endpoint poll_interval max_wait_time
        true w
      = (Return (json_dumps (Some 2%nat)
                   (job_error_object (timeout_msg max_wait_time) job_id)), w')
      /\ steps (k + 1) (k + 2)
           (submission endpoint text app_id secret_key
            :: waits k (job_url (py_str job_id)) (credentials app_id secret_key)
                 poll_interval)
           w w'.
Proof.
  intros fuel text app_id secret_key endpoint poll_interval max_wait_time w body0
    job_id k H1 H2 H3 Hb0 Hs0 Hi Ht Hp Hrun Hx.
  destruct (run_waits_prefix (S fuel) text app_id secret_key endpoint
              poll_interval max_wait_time w body0 job_id k
              H1 H2 H3 Hb0 Hs0 Hi Ht Hp Hrun) as (w1 & Ha & E).
  rewrite <- Nat.add_assoc in Hx.
  destruct (job_turn_timeout job_id (job_url (py_str job_id))
              (credentials app_id secret_key) (clock w (n_clock w)) poll_interval
              max_wait_time w1) as (w2 & Ha2 & E2).
  - rewrite (exceeds_next _ _ _ _ _ _ (proj1 Ha)). exact Hx.
  - exists w2. split.
    + rewrite E. apply outcome_of_loop_done.
      unfold _poll_job_loop. exact (while_true_done _ _ _ _ _ E2).
    + pose proof (steps_trans _ _ _ _ _ _ _ _ _ Ha Ha2) as H.
      replace (1 + k + 0)%nat with (k + 1)%nat in H by lia.
      replace (1 + k + 1)%nat with (k + 2)%nat in H by lia.
      rewrite app_nil_r in H. exact H.
Qed.

(** The combined node, polled until a status check fails. *)
Lemma run_polls_to_a_failure :
  forall fuel text app_id secret_key endpoint poll_interval max_wait_time w body0
         job_id k e,
    blank text = false -> blank app_id = false -> blank secret_key = false ->
    answers w (n_net w) body0 -> has_status body0 1 -> has_id body0 job_id ->
    truthy job_id = true ->
    ((0 < k)%nat -> 0 <= poll_interval) ->
    job_still_running w max_wait_time k ->
    exceeds w (clock w (n_clock w)) (n_clock w + 1 + k) max_wait_time = false ->
    fails_with w (n_net w + 1 + k) e ->
    exists msg w',
      run (k + S fuel) text app_id secret_key endpoint poll_interval max_wait_time
        true w
      = (Return (json_dumps (Some 2%nat) (job_error_object msg job_id)), w')
      /\ n_net w' = (n_net w + k + 2)%nat.
Proof.
  intros fuel text app_id secret_key endpoint poll_interval max_wait_time w body0
    job_id k e H1 H2 H3 Hb0 Hs0 Hi Ht Hp Hrun Hx Hf.
  destruct (run_waits_prefix (S fuel) text app_id secret_key endpoint
              poll_interval max_wait_time w body0 job_id k
              H1 H2 H3 Hb0 Hs0 Hi Ht Hp Hrun) as (w1 & Ha & E).
  rewrite <- Nat.add_assoc in Hx, Hf.
  destruct (job_turn_failure job_id (job_url (py_str job_id))
              (credentials app_id secret_key) (clock w (n_clock w)) poll_interval
              max_wait_time w1 e) as (msg & w2 & Ha2 & E2).
  - rewrite (exceeds_next _ _ _ _ _ _ (proj1 Ha)). exact Hx.
  - exact (fails_next _ _ _ _ _ (proj1 Ha) Hf).
  - exists msg, w2. split.
    + rewrite E. apply outcome_of_loop_done.
      unfold _poll_job_loop. exact (while_true_done _ _ _ _ _ E2).
    + destruct Ha as [(_ & _ & Hn & _) _]. destruct Ha2 as [(_ & _ & Hn2 & _) _].
      lia.
Qed.


(** X10. With [auto_poll] on, after a submission answered with status 1 and an
    [id], [run] checks the job every [poll_interval] seconds and returns the
    body of the first response whose status is an integer other than 1 (done,
    failed or unknown alike, with nothing to tell them apart but the body), as
    long as every check, that one included, starts within the deadline.  It
    has made the POST and one GET per turn, at the address of the [id], with
    the credentials as given. *)
Theorem run_returns_the_job_once_it_stops_running :
  forall fuel text app_id secret_key endpoint poll_interval max_wait_time w body0
         job_id k body s,
    blank text = false -> blank app_id = false -> blank secret_key = false ->
    answers w (n_net w) body0 -> has_status body0 1 -> has_id body0 job_id ->
    truthy job_id = true ->
    ((0 < k)%nat -> 0 <= poll_interval) ->
    job_still_running w max_wait_time k ->
    exceeds w (clock w (n_clock w)) (n_clock w + 1 + k) max_wait_time = false ->
    answers w (n_net w + 1 + k) body -> has_status body s -> s <> 1 ->
    exists w',
      run (k + S fuel) text app_id secret_key endpoint poll_interval max_wait_time
        true w
      = (Return (json_dumps (Some 2%nat) body), w')
      /\ steps (k + 2) (k + 2)
           (submission endpoint text app_id secret_key
            :: waits k (job_url (py_str job_id)) (credentials app_id secret_key)
                 poll_interval
            ++ [check (job_url (py_str job_id)) (credentials app_id secret_key)])
           w w'.
Proof.
  intros fuel text app_id secret_key endpoint poll_interval max_wait_time w body0
    job_id k body s H1 H2 H3 Hb0 Hs0 Hi Ht Hp Hrun Hx Hb Hs N1.
  exact (run_polls_to_the_end fuel text app_id secret_key endpoint poll_interval
           max_wait_time w body0 job_id k body s
           H1 H2 H3 Hb0 Hs0 Hi Ht Hp Hrun Hx Hb Hs N1).
Qed.

(** X11. The loop of the combined node looks at the clock before it asks: when
    a turn starts past the deadline, [run] returns the error object of the
    timeout with the [id] of the job, as indented JSON text, and the status
    check of that turn is not made, so a job that finished in the meantime is
    not fetched. *)
Theorem run_gives_up_at_the_deadline_without_a_last_check :
  forall fuel text app_id secret_key endpoint poll_interval max_wait_time w body0
         job_id k,
    blank text = false -> blank app_id = false -> blank secret_key = false ->
    answers w (n_net w) body0 -> has_status body0 1 -> has_id body0 job_id ->
    truthy job_id = true ->
    ((0 < k)%nat -> 0 <= poll_interval) ->
    job_still_running w max_wait_time k ->
    exceeds w (clock w (n_clock w)) (n_clock w + 1 + k) max_wait_time = true ->
    exists w',
      run (k + S fuel) text app_id secret_key endpoint poll_interval max_wait_time
        true w
      = (Return (json_dumps (Some 2%nat)
                   (job_error_object (timeout_msg max_wait_time) job_id)), w')
      /\ steps (k + 1) (k + 2)
           (submission endpoint text app_id secret_key
            :: waits k (job_url (py_str job_id)) (credentials app_id secret_key)
                 poll_interval)
           w w'.
Proof.
  intros fuel text app_id secret_key endpoint poll_interval max_wait_time w body0
    job_id k H1 H2 H3 Hb0 Hs0 Hi Ht Hp Hrun Hx.
  exact (run_polls_to_the_deadline fuel text app_id secret_key endpoint
           poll_interval max_wait_time w body0 job_id k
           H1 H2 H3 Hb0 Hs0 Hi Ht Hp Hrun Hx).
Qed.

(** X12. A status check of the combined node that fails (the transport raises,
    the HTTP status is an error, or the body does not decode) ends the polling
    at once: [run] returns the error object with the [id] of the job, as
    indented JSON text, and checks no more. *)
Theorem run_reports_a_failed_status_check :
  forall fuel text app_id secret_key endpoint poll_interval max_wait_time w body0
         job_id k e,
    blank text = false -> blank app_id = false -> blank secret_key = false ->
    answers w (n_net w) body0 -> has_status body0 1 -> has_id body0 job_id ->
    truthy job_id = true ->
    ((0 < k)%nat -> 0 <= poll_interval) ->
    job_still_running w max_wait_time k ->
    exceeds w (clock w (n_clock w)) (n_clock w + 1 + k) max_wait_time = false ->
    fails_with w (n_net w + 1 + k) e ->
    exists msg w',
      run (k + S fuel) text app_id secret_key endpoint poll_interval max_wait_time
        true w
      = (Return (json_dumps (Some 2%nat) (job_error_object msg job_id)), w')
      /\ n_net w' = (n_net w + k + 2)%nat.
Proof.
  intros fuel text app_id secret_key endpoint poll_interval max_wait_time w body0
    job_id k e H1 H2 H3 Hb0 Hs0 Hi Ht Hp Hrun Hx Hf.
  exact (run_polls_to_a_failure fuel text app_id secret_key endpoint
           poll_interval max_wait_time w body0 job_id k e
           H1 H2 H3 Hb0 Hs0 Hi Ht Hp Hrun Hx Hf).
Qed.

(** ** The claim about the delegation of [run] *)

(** [_poll_job_result] reads the clock once and is its loop from there, at the
    address of the job and with the credentials as given. *)
Lemma job_result_is_the_loop fuel job_id app_id secret_key poll_interval
  max_wait_time w :
  _poll_job_result fuel job_id app_id secret_key poll_interval max_wait_time w
  = _poll_job_loop fuel job_id (job_url (py_str job_id))
      (credentials app_id secret_key) (clock w (n_clock w)) poll_interval
      max_wait_time (tick w).
Proof.
  unfold _poll_job_result, job_url, credentials, tick. mstep.
  replace (if (app_id =? "")%string then "" else app_id) with app_id.
  - replace (if (secret_key =? "")%string then "" else secret_key)
      with secret_key; [reflexivity|].
    destruct (secret_key =? "")%string eqn:E; [|reflexivity].
    apply String.eqb_eq in E. exact E.
  - destruct (app_id =? "")%string eqn:E; [|reflexivity].
    apply String.eqb_eq in E. exact E.
Qed.

(** C4 (as amended).  When the submission of [run] is answered with status 1
    and an [id] that counts as true, and [auto_poll] is on, [run] hands over to
    [_poll_job_result] and returns what it returns, as indented JSON text and
    nothing else.  [_poll_job_result] is the loop [_poll_job_loop], entered at
    the address of the job after one reading of the clock.  The loop has no
    single-query mode.  A turn of it that starts within time follows the
    transition rule of the specification (2 and 3 terminal with the body, 1
    slept on and retried, any other status terminal with the body), which a
    turn of the loop of [poll] follows as well, with its deadline looked at
    when the status is 1; a turn that starts past [max_wait_time] returns the
    error object of the timeout.  So [run], after [k] checks that found the
    job running, returns the body of the first response whose status is
    terminal, the error object of the timeout when the next turn starts past
    the deadline, and the error object of the request when the next check
    fails.  A response with status 1 and no [id], or an [id] that counts as
    false, is returned as it is after the one request, without polling. *)
Theorem C4_auto_poll_delegates_to_internal_loop :
  forall fuel text app_id secret_key endpoint poll_interval max_wait_time w body job_id,
    blank text = false -> blank app_id = false -> blank secret_key = false ->
    0 <= poll_interval ->
    answers w (n_net w) body -> has_status body 1 -> has_id body job_id ->
    truthy job_id = true ->
    (exists w1, advanced 1 0 w w1 /\
       run fuel text app_id secret_key endpoint poll_interval max_wait_time true w
       = (outcome_map (json_dumps (Some 2%nat))
            (fst (_poll_job_result fuel job_id app_id secret_key poll_interval
                    max_wait_time w1)),
          snd (_poll_job_result fuel job_id app_id secret_key poll_interval
                 max_wait_time w1)))
    /\ (forall n w0,
          _poll_job_result n job_id app_id secret_key poll_interval max_wait_time w0
          = _poll_job_loop n job_id (job_url (py_str job_id))
              (credentials app_id secret_key) (clock w0 (n_clock w0))
              poll_interval max_wait_time (tick w0))
    /\ (forall n job_url headers start_time w0 body0 s,
          exceeds w0 start_time (n_clock w0) max_wait_time = false ->
          answers w0 (n_net w0) body0 -> has_status body0 s ->
          exists w', advanced 1 1 w0 w' /\
            _poll_job_loop (S n) job_id job_url headers start_time poll_interval
              max_wait_time w0
            = match spec_status_rule s with
              | Terminal => (Return body0, w')
              | Retry =>
                  _poll_job_loop n job_id job_url headers start_time poll_interval
                    max_wait_time w'
              end)
    /\ (forall n job_url headers start_time w0,
          exceeds w0 start_time (n_clock w0) max_wait_time = true ->
          exists w', advanced 0 1 w0 w' /\
            _poll_job_loop (S n) job_id job_url headers start_time poll_interval
              max_wait_time w0
            = (Return (job_error_object (timeout_msg max_wait_time) job_id), w'))
    /\ (forall n id job_url headers start_time w0 body0 s,
          answers w0 (n_net w0) body0 -> has_status body0 s ->
          exists w', n_net w' = S (n_net w0) /\
            poll_loop (S n) id job_url headers start_time poll_interval
              max_wait_time false w0
            = match spec_status_rule s with
              | Terminal => (Return (json_dumps (Some 2%nat) body0, VInt s), w')
              | Retry =>
                  if exceeds w0 start_time (n_clock w0) max_wait_time
                  then (Return (json_dumps None
                                  (timeout_object (timeout_msg max_wait_time) id
                                     (VInt s)),
                                VInt (-1)), w')
                  else poll_loop n id job_url headers start_time poll_interval
                         max_wait_time false w'
              end)
    /\ (forall k body' s,
          job_still_running w max_wait_time k ->
          exceeds w (clock w (n_clock w)) (n_clock w + 1 + k) max_wait_time = false ->
          answers w (n_net w + 1 + k) body' -> has_status body' s ->
          spec_status_rule s = Terminal ->
          exists w',
            run (k + S fuel) text app_id secret_key endpoint poll_interval
              max_wait_time true w
            = (Return (json_dumps (Some 2%nat) body'), w')
            /\ steps (k + 2) (k + 2)
                 (submission endpoint text app_id secret_key
                  :: waits k (job_url (py_str job_id))
                       (credentials app_id secret_key) poll_interval
                  ++ [check (job_url (py_str job_id))
                        (credentials app_id secret_key)])
                 w w')
    /\ (forall k,
          job_still_running w max_wait_time k ->
          exceeds w (clock w (n_clock w)) (n_clock w + 1 + k) max_wait_time = true ->
          exists w',
            run (k + S fuel) text app_id secret_key endpoint poll_interval
              max_wait_time true w
            = (Return (json_dumps (Some 2%nat)
                         (job_error_object (timeout_msg max_wait_time) job_id)), w')
            /\ steps (k + 1) (k + 2)
                 (submission endpoint text app_id secret_key
                  :: waits k (job_url (py_str job_id))
                       (credentials app_id secret_key) poll_interval)
                 w w')
    /\ (forall k e,
          job_still_running w max_wait_time k ->
          exceeds w (clock w (n_clock w)) (n_clock w + 1 + k) max_wait_time = false ->
          fails_with w (n_net w + 1 + k) e ->
          exists msg w',
            run (k + S fuel) text app_id secret_key endpoint poll_interval
              max_wait_time true w
            = (Return (json_dumps (Some 2%nat) (job_error_object msg job_id)), w')
            /\ n_net w' = (n_net w + k + 2)%nat)
    /\ (forall n w0 d,
          answers w0 (n_net w0) (VDict d) -> has_status (VDict d) 1 ->
          dict_get d "id" = None
          \/ (exists v, dict_get d "id" = Some v /\ truthy v = false) ->
          exists w',
            run n text app_id secret_key endpoint poll_interval max_wait_time
              true w0
            = (Return (json_dumps (Some 2%nat) (VDict d)), w')
            /\ steps 1 0 [submission endpoint text app_id secret_key] w0 w').
Proof.
  intros fuel text app_id secret_key endpoint poll_interval max_wait_time w body
    job_id H1 H2 H3 Hp Hb Hs Hi Ht.
  assert (Hpk : forall k, (0 < k)%nat -> 0 <= poll_interval) by (intros _ _; exact Hp).
  split; [|split; [|split; [|split; [|split; [|split; [|split; [|split]]]]]]].
  - exact (run_delegates fuel text app_id secret_key endpoint poll_interval
             max_wait_time w body job_id H1 H2 H3 Hb Hs Hi Ht).
  - intros n w0.
    exact (job_result_is_the_loop n job_id app_id secret_key poll_interval
             max_wait_time w0).
  - intros n job_url headers start_time w0 body0 s Hx Hb0 Hs0.
    exact (job_loop_rule n job_id job_url headers start_time poll_interval
             max_wait_time w0 body0 s Hp Hx Hb0 Hs0).
  - intros n job_url headers start_time w0 Hx.
    exact (job_loop_timeout n job_id job_url headers start_time poll_interval
             max_wait_time w0 Hx).
  - intros n id job_url headers start_time w0 body0 s Hb0 Hs0.
    exact (poll_loop_rule n id job_url headers start_time poll_interval
             max_wait_time w0 body0 s Hp Hb0 Hs0).
  - intros k body' s Hrun Hx Hb' Hs' R.
    exact (run_polls_to_the_end fuel text app_id secret_key endpoint poll_interval
             max_wait_time w body job_id k body' s H1 H2 H3 Hb Hs Hi Ht (Hpk k)
             Hrun Hx Hb' Hs' (spec_rule_terminal s R)).
  - intros k Hrun Hx.
    exact (run_polls_to_the_deadline fuel text app_id secret_key endpoint
             poll_interval max_wait_time w body job_id k H1 H2 H3 Hb Hs Hi Ht
             (Hpk k) Hrun Hx).
  - intros k e Hrun Hx Hf.
    exact (run_polls_to_a_failure fuel text app_id secret_key endpoint
             poll_interval max_wait_time w body job_id k e H1 H2 H3 Hb Hs Hi Ht
             (Hpk k) Hrun Hx Hf).
  - intros n w0 d Hb0 Hs0 Hid.
    apply (run_answered_unpolled n text app_id secret_key endpoint poll_interval
             max_wait_time true w0 d H1 H2 H3 Hb0).
    right. left. unfold id_of.
    destruct Hid as [-> | (v & -> & Hv)]; [reflexivity | exact Hv].
Qed.


(** ** Further properties of [extract] *)

Lemma quiet_ret {A : Type} (a : A) : quiet (ret a).
Proof. intros w. do 2 eexists. split; [reflexivity | stp]. Qed.

Lemma quiet_raise {A : Type} (e : exn) : quiet (@raise A e).
Proof. intros w. do 2 eexists. split; [reflexivity | stp]. Qed.

Lemma quiet_logger_info msg : quiet (logger_info msg).
Proof. intros w. do 2 eexists. split; [reflexivity | stp]. Qed.

Lemma quiet_lift {A : Type} (r : exn + A) : quiet (lift r).
Proof. destruct r; [apply quiet_raise | apply quiet_ret]. Qed.

Lemma quiet_loads s : quiet (loads s).
Proof. unfold loads. apply quiet_lift. Qed.

Lemma quiet_bind {A B : Type} (m : M A) (k : A -> M B) :
  quiet m -> (forall a, quiet (k a)) -> quiet (bind m k).
Proof.
  intros Hm Hk w. destruct (Hm w) as (o & w1 & E & S1). unfold bind. rewrite E.
  destruct o as [a | e |].
  - destruct (Hk a w1) as (o2 & w2 & E2 & S2). exists o2, w2. split; [exact E2|].
    exact (steps_trans 0 0 0 0 [] [] _ _ _ S1 S2).
  - do 2 eexists. split; [reflexivity | exact S1].
  - do 2 eexists. split; [reflexivity | exact S1].
Qed.

Lemma quiet_try_except {A : Type} (m : M A) (h : exn -> M A) :
  quiet m -> (forall e, quiet (h e)) -> quiet (try_except m h).
Proof.
  intros Hm Hh w. destruct (Hm w) as (o & w1 & E & S1). unfold try_except.
  rewrite E. destruct o as [a | e |].
  - do 2 eexists. split; [reflexivity | exact S1].
  - destruct (Hh e w1) as (o2 & w2 & E2 & S2). exists o2, w2. split; [exact E2|].
    exact (steps_trans 0 0 0 0 [] [] _ _ _ S1 S2).
  - do 2 eexists. split; [reflexivity | exact S1].
Qed.

Lemma extract_quiet json_input key_path default_value return_as_string :
  quiet (extract json_input key_path default_value return_as_string).
Proof.
  unfold extract. apply quiet_try_except.
  - apply quiet_bind.
    + destruct json_input; try apply quiet_ret. apply quiet_loads.
    + intros data. cbv zeta. apply quiet_bind; [apply quiet_lift|].
      intros current_data. apply quiet_bind; [apply quiet_logger_info|].
      intros _. apply quiet_bind; [|intros v; apply quiet_ret].
      apply quiet_try_except; [apply quiet_loads|].
      intros e. destruct (isinstance e JSONDecodeError); [|apply quiet_raise].
      apply quiet_bind; [apply quiet_logger_info | intros _; apply quiet_ret].
  - intros e.
    destruct (isinstance e JSONDecodeError); [|destruct (isinstance e KeyError)];
      cbv zeta;
      (apply quiet_bind; [apply quiet_logger_info | intros _; apply quiet_ret]).
Qed.

Lemma extract_returns json_input key_path default_value return_as_string w :
  exists r w',
    extract json_input key_path default_value return_as_string w = (Return r, w').
Proof.
  destruct (decoded json_input) as [data |] eqn:Hd.
  - destruct (traverse (split_dot (strip key_path)) data) as [e | current_data] eqn:Ht.
    + destruct (extract_traverse_failure json_input key_path default_value
                  return_as_string w data e Hd Ht) as (w' & E).
      do 2 eexists. exact E.
    + destruct (extract_success json_input key_path default_value
                  return_as_string w data current_data Hd Ht) as (w' & E).
      do 2 eexists. exact E.
  - destruct (extract_parse_failure json_input key_path default_value
                return_as_string w Hd) as (w' & E).
    do 2 eexists. exact E.
Qed.

(** X13. [extract] works on what it is given and nothing else: for every input
    it returns, having made no request, read no clock and slept not at all;
    log lines are its only effect. *)
Theorem extract_touches_nothing_outside :
  forall json_input key_path default_value return_as_string w,
    exists r w',
      extract json_input key_path default_value return_as_string w = (Return r, w')
      /\ steps 0 0 [] w w'.
Proof.
  intros json_input key_path default_value return_as_string w.
  destruct (extract_returns json_input key_path default_value return_as_string w)
    as (r & w' & E).
  destruct (extract_quiet json_input key_path default_value return_as_string w)
    as (o & w2 & E2 & Hs).
  exists r, w'. split; [exact E|].
  rewrite E in E2. injection E2 as _ <-. exact Hs.
Qed.

(** X14. A JSON null, true or false at the end of the path comes out in
    Python's spelling, not in JSON's: with [return_as_string] on, null yields
    the string "None" (the empty string with it off), true and false yield the
    strings "True" and "False" in both modes; none of them parses back, so the
    string is also the value under [result]. *)
Theorem extract_spells_null_and_booleans_as_python_does :
  forall json_input key_path default_value return_as_string w data current_data,
    decoded json_input = Some data ->
    traverse (split_dot (strip key_path)) data = inr current_data ->
    (current_data = VNone ->
     exists w',
       extract json_input key_path default_value return_as_string w
       = (Return (if return_as_string
                  then UIResult [VStr "None"] ["None"] (VStr "None")
                  else UIResult [VStr ""] [""] (VStr "")), w'))
    /\ (forall b, current_data = VBool b ->
        exists w',
          extract json_input key_path default_value return_as_string w
          = (Return (if b
                     then UIResult [VStr "True"] ["True"] (VStr "True")
                     else UIResult [VStr "False"] ["False"] (VStr "False")), w')).
Proof.
  intros json_input key_path default_value return_as_string w data current_data
    Hd Ht.
  destruct (extract_success json_input key_path default_value return_as_string w
              data current_data Hd Ht) as (w' & E).
  split.
  - intros ->. exists w'. rewrite E.
    destruct return_as_string.
    + replace (format_result true VNone) with "None" by reflexivity.
      replace (reparse "None") with (@inr exn value (VStr "None")) by (vm_compute; reflexivity).
      reflexivity.
    + replace (format_result false VNone) with "" by reflexivity.
      replace (reparse "") with (@inr exn value (VStr "")) by (vm_compute; reflexivity).
      reflexivity.
  - intros b ->. exists w'. rewrite E.
    destruct b.
    + replace (format_result return_as_string (VBool true)) with "True"
        by (destruct return_as_string; reflexivity).
      replace (reparse "True") with (@inr exn value (VStr "True")) by (vm_compute; reflexivity).
      reflexivity.
    + replace (format_result return_as_string (VBool false)) with "False"
        by (destruct return_as_string; reflexivity).
      replace (reparse "False") with (@inr exn value (VStr "False")) by (vm_compute; reflexivity).
      reflexivity.
Qed.

Lemma split_dot_nonempty s : split_dot s <> [].
Proof.
  destruct s as [| c r]; [discriminate|]. cbn [split_dot].
  destruct (Ascii.eqb c "."); [discriminate|].
  destruct (split_dot r); discriminate.
Qed.

(** [(p + "." + q).split('.')] is [p.split('.') + q.split('.')]. *)
Lemma split_dot_join p q :
  split_dot (p ++ String "."%char q) = (split_dot p ++ split_dot q)%list.
Proof.
  induction p as [| c r IH].
  - reflexivity.
  - cbn [append split_dot]. destruct (Ascii.eqb c ".").
    + rewrite IH. reflexivity.
    + rewrite IH. destruct (split_dot r) as [| h t] eqn:E.
      * exfalso. exact (split_dot_nonempty r E).
      * reflexivity.
Qed.

(** X15. Paths compose: going down the path [p.q] is going down [p] and, from
    where that arrives, down [q]; it fails where the first of the two fails. *)
Theorem traverse_composes_along_the_dots :
  forall p q data,
    traverse (split_dot (p ++ "." ++ q)) data
    = match traverse (split_dot p) data with
      | inl e => inl e
      | inr x => traverse (split_dot q) x
      end.
Proof.
  intros p q data. change (p ++ "." ++ q) with (p ++ String "."%char q).
  rewrite split_dot_join.
  destruct (traverse (split_dot p) data) as [e | x] eqn:E.
  - revert data E. induction (split_dot p) as [| key keys IH]; intros data E.
    + discriminate E.
    + cbn [traverse app] in *. destruct (descend data key) as [e' | y].
      * exact E.
      * apply IH. exact E.
  - exact (traverse_app _ _ _ _ E).
Qed.


(** The decimal text of a number and its reading back. *)


















(** A text that begins with the letter h is not JSON. *)
Lemma decode_h rest :
  decode (String "h" rest) = inl (mkExn JSONDecodeError (String "h" rest)).
Proof.
  unfold decode. cbn [skip_ws is_json_ws ord].
  replace (is_json_ws "h") with false by reflexivity.
  cbn [String.length Nat.mul Nat.add]. cbn [parse_value].
  replace (ord "h" =? 34) with false by reflexivity.
  replace (ord "h" =? 123) with false by reflexivity.
  replace (ord "h" =? 91) with false by reflexivity.
  unfold scan_constant. cbn [drop_prefix].
  replace (Ascii.eqb "n" "h") with false by reflexivity.
  replace (Ascii.eqb "t" "h") with false by reflexivity.
  replace (Ascii.eqb "f" "h") with false by reflexivity.
  replace (Ascii.eqb "N" "h") with false by reflexivity.
  replace (Ascii.eqb "I" "h") with false by reflexivity.
  replace (Ascii.eqb "-" "h") with false by reflexivity.
  unfold scan_number.
  replace (ord "h" =? 45) with false by reflexivity.
  replace (is_digit "h") with false by reflexivity.
  reflexivity.
Qed.

(** X17. A string at the end of the path that begins with "http", as the image
    addresses of a finished job do, is returned as it is under [result], in
    both modes: it is not JSON text, so the re-parse leaves it alone. *)
Theorem extract_returns_a_url_unchanged :
  forall json_input key_path default_value return_as_string w data rest,
    decoded json_input = Some data ->
    traverse (split_dot (strip key_path)) data = inr (VStr ("http" ++ rest)) ->
    exists w',
      extract json_input key_path default_value return_as_string w
      = (Return (UIResult [VStr ("http" ++ rest)] ["http" ++ rest]
                   (VStr ("http" ++ rest))), w').
Proof.
  intros json_input key_path default_value return_as_string w data rest Hd Ht.
  destruct (extract_success json_input key_path default_value return_as_string w
              data (VStr ("http" ++ rest)) Hd Ht) as (w' & E).
  exists w'. rewrite E.
  replace (format_result return_as_string (VStr ("http" ++ rest)))
    with ("http" ++ rest) by (destruct return_as_string; reflexivity).
  unfold reparse. change ("http" ++ rest) with (String "h" ("ttp" ++ rest)).
  rewrite decode_h. reflexivity.
Qed.






(** X20. Configuring the logger twice is configuring it once: a logger without
    handlers gets the one stream handler with the format of the module and the
    level INFO, and a logger that has a handler already is left as it is, its
    level included, so that no import adds a second handler. *)
Theorem configure_logger_adds_its_handler_once :
  forall logger,
    configure_logger (configure_logger logger) = configure_logger logger
    /\ (handlers logger = [] ->
        configure_logger logger
        = mkLogger [mkHandler (Some "[MidjourneyAPI] %(message)s")] INFO)
    /\ (handlers logger <> [] -> configure_logger logger = logger)
    /\ List.length (handlers (configure_logger logger))
       = Nat.max 1 (List.length (handlers logger)).
Proof.
  intros [[| h t] l]; repeat split; try reflexivity.
  - intros H. contradiction H. reflexivity.
  - intros H. discriminate H.
Qed.

End WithRuntime.

(** ** Closed instances *)

Example strip_example :
  strip (bytes [32; 9] ++ "job 1" ++ bytes [227; 128; 128; 10]) = "job 1".
Proof. vm_compute. reflexivity. Qed.

Example blank_example : blank (bytes [32; 194; 160; 13; 10]) = true.
Proof. vm_compute. reflexivity. Qed.

Example split_example : split_dot "urls.1" = ["urls"; "1"].
Proof. reflexivity. Qed.

Example split_dots_example : split_dot ".a." = [""; "a"; ""].
Proof. reflexivity. Qed.

Example float_status_example : py_eq_int (VFloat 2%float) 2 = true.
Proof. vm_compute. reflexivity. Qed.

Example deadline_example :
  float_gt_Z (PrimFloat.sub 31.5%float 1%float) 30 = true.
Proof. vm_compute. reflexivity. Qed.

Example loads_example :
  json_loads read_float default_max_str_digits sample_spare ("[1, -2.5e1, " ++ quoted "xé" ++ ", null, {}]")
  = Some (VList [VInt 1; VFloat (-25)%float; VStr (bytes [120; 195; 169]); VNone;
                 VDict []]).
Proof. vm_compute. reflexivity. Qed.

Example dumps_example :
  json_dumps show_float None (VDict [("a", VList [VInt 1; VFloat 1.5%float]);
                                     ("b", VStr (bytes [9]))])
  = "{" ++ quoted "a" ++ ": [1, 1.5], " ++ quoted "b" ++ ": " ++ quoted "\t" ++ "}".
Proof. vm_compute. reflexivity. Qed.

(** The nodes, run on the sample worlds. *)

Example poll_single_query_example :
  fst (poll show_float show_str 1 "job-1" "app" "key" 3 300 true w_running)
  = Return (json_dumps show_float (Some 2%nat) running_body, VInt 1).
Proof. vm_compute. reflexivity. Qed.

Example poll_timeout_example :
  let r := poll show_float show_str 5 "job-1" "app" "key" 3 300 false w_running in
  fst r = Return (json_dumps show_float None
                    (timeout_object (timeout_msg 300) "job-1" (VInt 1)), VInt (-1))
  /\ n_net (snd r) = 2%nat.
Proof. vm_compute. split; reflexivity. Qed.

(** Below the range the node declares for [poll_interval] (1 to 30) the sleep is
    refused, and the refusal is reported like any other error. *)
Example poll_negative_interval_example :
  fst (poll show_float show_str 5 "job-1" "app" "key" (-1) 300 false w_running)
  = Return (json_dumps show_float None
              (job_error_object "轮询过程出错: sleep length must be non-negative"
                 (VStr "job-1")), VInt 0).
Proof. vm_compute. reflexivity. Qed.

Example poll_blank_job_id_example :
  let r := poll show_float show_str 5 "  " "app" "key" 3 300 false w_running in
  fst r = Return (json_dumps show_float None (error_object "job_id 不能为空"), VInt 0)
  /\ n_net (snd r) = 0%nat.
Proof. vm_compute. split; reflexivity. Qed.

Example run_auto_poll_example :
  let r := run show_float show_str 5 "a cat" "app" "key"
             "https://ali.youchuan.cn/v1/tob/diffusion" 3 300 true w_accepted in
  fst r = Return (json_dumps show_float (Some 2%nat) done_body)
  /\ n_net (snd r) = 2%nat.
Proof. vm_compute. split; reflexivity. Qed.

Example run_without_auto_poll_example :
  let r := run show_float show_str 5 "a cat" "app" "key"
             "https://ali.youchuan.cn/v1/tob/diffusion" 3 300 false w_accepted in
  fst r = Return (json_dumps show_float (Some 2%nat) accepted_body)
  /\ n_net (snd r) = 1%nat.
Proof. vm_compute. split; reflexivity. Qed.

Example submit_example :
  fst (submit show_float show_str " a cat " "app" "key"
         "https://ali.youchuan.cn/v1/tob/diffusion" w_accepted)
  = Return (VStr "job-1", json_dumps show_float (Some 2%nat) accepted_body).
Proof. vm_compute. reflexivity. Qed.

Example extract_index_out_of_range_example :
  fst (extract show_float read_float show_str default_max_str_digits sample_spare (VStr urls_text) "urls.2" (VStr "X")
         true w_running)
  = Return (Tuple1 (VStr "X")).
Proof. vm_compute. reflexivity. Qed.

Example extract_list_example :
  fst (extract show_float read_float show_str default_max_str_digits sample_spare (VStr urls_text) " urls " (VStr "X")
         true w_running)
  = Return (UIResult [VList [VStr "a"; VStr "b"]]
              [json_dumps show_float (Some 2%nat) (VList [VStr "a"; VStr "b"])]
              (VList [VStr "a"; VStr "b"])).
Proof. vm_compute. reflexivity. Qed.

(** Digits of other scripts: the Arabic-Indic one indexes like the ASCII one,
    the superscript two is a digit that [int()] does not read. *)
Example isdigit_example :
  isdigit (bytes [217; 161]) = true /\ int_of_str (bytes [217; 161]) = 1
  /\ isdigit (bytes [194; 178]) = true /\ isdigit "1.5" = false
  /\ isdigit "" = false.
Proof. vm_compute. repeat split; reflexivity. Qed.

Example extract_arabic_index_example :
  fst (extract show_float read_float show_str default_max_str_digits sample_spare
         (VStr urls_text) ("urls." ++ bytes [217; 161]) (VStr "X") true w_running)
  = Return (UIResult [VStr "b"] ["b"] (VStr "b")).
Proof. vm_compute. reflexivity. Qed.

Example extract_superscript_index_example :
  fst (extract show_float read_float show_str default_max_str_digits sample_spare
         (VStr urls_text) ("urls." ++ bytes [194; 178]) (VStr "X") true w_running)
  = Return (Tuple1 (VStr "X")).
Proof. vm_compute. reflexivity. Qed.

(** The two bounds of the decoder: an integer of 4301 digits, and one array
    more than there is room for, which is refused before the text is found to
    be cut short. *)
Example decode_bounds_example :
  decode read_float default_max_str_digits sample_spare (ones 4300)
  = inr (VInt (int_of_str (ones 4300)))
  /\ decode read_float default_max_str_digits sample_spare (ones 4301)
     = inl (int_limit_error default_max_str_digits 4301)
  /\ decode read_float default_max_str_digits sample_spare (opens 993)
     = inl (too_deep "array")
  /\ decode read_float default_max_str_digits sample_spare (opens 992)
     = inl (mkExn JSONDecodeError (opens 992)).
Proof. vm_compute. repeat split; reflexivity. Qed.

Example extract_decoded_input_example :
  fst (extract show_float read_float show_str default_max_str_digits sample_spare done_body "urls.0" (VStr "")
         false w_running)
  = Return (UIResult [VStr "https://img/1.png"] ["https://img/1.png"]
              (VStr "https://img/1.png")).
Proof. vm_compute. reflexivity. Qed.

(** C1, at a concrete input: the first response says status 1, and the
    single-query call returns code 1 after one request. *)
Lemma C1_witness :
  (blank "job-1" = false /\ blank "app" = false /\ blank "key" = false
   /\ answers w_running (n_net w_running) running_body
   /\ has_status running_body 1)
  /\ exists w',
       poll show_float show_str 1 "job-1" "app" "key" 3 300 true w_running
       = (Return (json_dumps show_float (Some 2%nat) running_body, VInt 1), w')
       /\ n_net w' = S (n_net w_running).
Proof.
  assert (H1 : blank "job-1" = false) by reflexivity.
  assert (H2 : blank "app" = false) by reflexivity.
  assert (H3 : blank "key" = false) by reflexivity.
  assert (H4 : answers w_running (n_net w_running) running_body)
    by (eexists; repeat split; reflexivity).
  assert (H5 : has_status running_body 1) by (eexists; split; reflexivity).
  split; [repeat (apply conj); assumption|].
  exact (C1_single_query_returns_first_status show_float show_str 0 "job-1" "app"
           "key" 3 300 w_running running_body 1 H1 H2 H3 H4 H5).
Defined.

(** C2, at a concrete input: the job keeps running and the third reading of the
    clock is 400 seconds after the first, past a [max_wait_time] of 300. *)
Lemma C2_witness :
  (blank "job-1" = false /\ blank "app" = false /\ blank "key" = false
   /\ 0 <= 3
   /\ (forall i, exists body,
         answers w_running (n_net w_running + i) body /\ has_status body 1)
   /\ exceeds w_running (clock w_running (n_clock w_running))
        (n_clock w_running + 2) 300 = true)
  /\ exists fuel w',
       poll show_float show_str fuel "job-1" "app" "key" 3 300 false w_running
       = (Return (json_dumps show_float None
                    (timeout_object (timeout_msg 300) "job-1" (VInt 1)),
                  VInt (-1)), w').
Proof.
  assert (H1 : blank "job-1" = false) by reflexivity.
  assert (H2 : blank "app" = false) by reflexivity.
  assert (H3 : blank "key" = false) by reflexivity.
  assert (H4 : 0 <= 3) by lia.
  assert (H5 : forall i, exists body,
             answers w_running (n_net w_running + i) body /\ has_status body 1).
  { intros i. exists running_body. split.
    - eexists; repeat split; reflexivity.
    - eexists; split; reflexivity. }
  assert (H6 : exceeds w_running (clock w_running (n_clock w_running))
                 (n_clock w_running + 2) 300 = true) by reflexivity.
  split; [repeat (apply conj); assumption|].
  exact (C2_poll_times_out_while_running show_float show_str "job-1" "app" "key"
           3 300 w_running 1 H1 H2 H3 H4 H5 H6).
Defined.

(** C4 as it was stated fails where the response has status 1 and no [id]: with
    [auto_poll] on, [run] returns the body of the submission itself after its
    one request, and no status check is made; the loop, entered in that world,
    would have returned the body of the finished job. *)
Lemma C4_counterexample :
  exists w1,
    run show_float show_str 5 "a cat" "app" "key"
      "https://ali.youchuan.cn/v1/tob/diffusion" 3 300 true w_no_id
    = (Return (json_dumps show_float (Some 2%nat) no_id_body), w1)
    /\ n_net w1 = 1%nat
    /\ fst (_poll_job_result show_float show_str 5 (VStr "") "app" "key" 3 300 w1)
       = Return done_body
    /\ json_dumps show_float (Some 2%nat) done_body
       <> json_dumps show_float (Some 2%nat) no_id_body.
Proof.
  eexists. split; [vm_compute; reflexivity|].
  split; [reflexivity|].
  split; [vm_compute; reflexivity|].
  vm_compute. discriminate.
Qed.

(** C4 as amended, at a concrete input: the submission is accepted with the id
    "job-1" and status 1, the job runs at the first check and is done at the
    second. *)
Lemma C4_witness :
  (blank "a cat" = false /\ blank "app" = false /\ blank "key" = false
   /\ 0 <= 3
   /\ answers w_job (n_net w_job) accepted_body
   /\ has_status accepted_body 1
   /\ has_id accepted_body (VStr "job-1")
   /\ truthy (VStr "job-1") = true)
  /\ (exists w1,
        advanced 1 0 w_job w1
        /\ run show_float show_str 5 "a cat" "app" "key" endpoint0 3 300 true w_job
           = (outcome_map (json_dumps show_float (Some 2%nat))
                (fst (_poll_job_result show_float show_str 5 (VStr "job-1") "app"
                        "key" 3 300 w1)),
              snd (_poll_job_result show_float show_str 5 (VStr "job-1") "app"
                     "key" 3 300 w1)))
  /\ (exists w',
        run show_float show_str (1 + S 5) "a cat" "app" "key" endpoint0 3 300 true
          w_job
        = (Return (json_dumps show_float (Some 2%nat) done_body), w')
        /\ steps (1 + 2) (1 + 2)
             (submission endpoint0 "a cat" "app" "key"
              :: waits 1 (job_url (py_str show_float show_str (VStr "job-1")))
                   (credentials "app" "key") 3
              ++ [check (job_url (py_str show_float show_str (VStr "job-1")))
                    (credentials "app" "key")])
             w_job w').
Proof.
  assert (H1 : blank "a cat" = false) by reflexivity.
  assert (H2 : blank "app" = false) by reflexivity.
  assert (H3 : blank "key" = false) by reflexivity.
  assert (H4 : 0 <= 3) by lia.
  assert (H5 : answers w_job (n_net w_job) accepted_body)
    by (eexists; repeat split; reflexivity).
  assert (H6 : has_status accepted_body 1) by (eexists; split; reflexivity).
  assert (H7 : has_id accepted_body (VStr "job-1")) by (eexists; split; reflexivity).
  assert (H8 : truthy (VStr "job-1") = true) by reflexivity.
  assert (H9 : job_still_running w_job 300 1).
  { intros [| i] Hi; [|lia]. split; [|reflexivity].
    exists running_body. split.
    - eexists; repeat split; reflexivity.
    - eexists; split; reflexivity. }
  assert (H10 : exceeds w_job (clock w_job (n_clock w_job)) (n_clock w_job + 1 + 1)
                  300 = false) by reflexivity.
  assert (H11 : answers w_job (n_net w_job + 1 + 1) done_body)
    by (eexists; repeat split; reflexivity).
  assert (H12 : has_status done_body 2) by (eexists; split; reflexivity).
  split; [repeat (apply conj); assumption|].
  pose proof (C4_auto_poll_delegates_to_internal_loop show_float show_str 5
                "a cat" "app" "key" endpoint0 3 300 w_job accepted_body
                (VStr "job-1") H1 H2 H3 H4 H5 H6 H7 H8) as C.
  split; [exact (proj1 C)|].
  exact (proj1 (proj2 (proj2 (proj2 (proj2 (proj2 C))))) 1%nat done_body 2
           H9 H10 H11 H12 eq_refl).
Defined.

(** C5, at a concrete input: the text is three spaces. *)
Lemma C5_witness :
  (blank "   " = true \/ blank "app" = true \/ blank "key" = true)
  /\ (exists msg w',
        run show_float show_str 5 "   " "app" "key"
          "https://ali.youchuan.cn/v1/tob/diffusion" 3 300 true w_accepted
        = (Return (json_dumps show_float None (error_object msg)), w')
        /\ n_net w' = n_net w_accepted
        /\ trace w' = (trace w_accepted ++ [EvLog ("[MidjourneyAPI] " ++ msg)])%list)
  /\ (exists msg w',
        submit show_float show_str "   " "app" "key"
          "https://ali.youchuan.cn/v1/tob/diffusion" w_accepted
        = (Return (VStr "", json_dumps show_float None (error_object msg)), w')
        /\ n_net w' = n_net w_accepted
        /\ trace w'
           = (trace w_accepted ++ [EvLog ("[MidjourneyAPISubmit] " ++ msg)])%list).
Proof.
  assert (H : blank "   " = true \/ blank "app" = true \/ blank "key" = true)
    by (left; reflexivity).
  split; [exact H|].
  exact (C5_blank_input_is_rejected_without_request show_float show_str 5 "   "
           "app" "key" "https://ali.youchuan.cn/v1/tob/diffusion" 3 300 true
           w_accepted H).
Defined.

(** C6, at a concrete input: the transport refuses the request of [run],
    [submit] and a first [poll]; and a [poll] that found the job running gets a
    second response that does not decode. *)
Lemma C6_witness :
  (blank "a cat" = false /\ blank "job-1" = false
   /\ blank "app" = false /\ blank "key" = false
   /\ fails_with w_refused (n_net w_refused)
        (mkExn RequestException "connection refused")
   /\ ((0 < 1)%nat -> 0 <= 3)
   /\ still_running w_then_garbled 300 1
   /\ fails_with w_then_garbled (n_net w_then_garbled + 1)
        (mkExn RequestsJSONDecodeError "Expecting value"))
  /\ (exists msg w',
        run show_float show_str 5 "a cat" "app" "key"
          "https://ali.youchuan.cn/v1/tob/diffusion" 3 300 true w_refused
        = (Return (json_dumps show_float None (error_object msg)), w')
        /\ n_net w' = S (n_net w_refused))
  /\ (exists msg w',
        submit show_float show_str "a cat" "app" "key"
          "https://ali.youchuan.cn/v1/tob/diffusion" w_refused
        = (Return (VStr "", json_dumps show_float None (error_object msg)), w')
        /\ n_net w' = S (n_net w_refused))
  /\ (exists msg w',
        poll show_float show_str 6 "job-1" "app" "key" 3 300 false w_refused
        = (Return (json_dumps show_float None
                     (job_error_object msg (VStr "job-1")), VInt 0), w')
        /\ n_net w' = S (n_net w_refused))
  /\ (exists msg w',
        poll show_float show_str (1 + 6) "job-1" "app" "key" 3 300 false
          w_then_garbled
        = (Return (json_dumps show_float None
                     (job_error_object msg (VStr "job-1")), VInt 0), w')
        /\ n_net w' = (n_net w_then_garbled + 1 + 1)%nat).
Proof.
  assert (H1 : blank "a cat" = false) by reflexivity.
  assert (H2 : blank "job-1" = false) by reflexivity.
  assert (H3 : blank "app" = false) by reflexivity.
  assert (H4 : blank "key" = false) by reflexivity.
  assert (H5 : fails_with w_refused (n_net w_refused)
                 (mkExn RequestException "connection refused"))
    by (left; reflexivity).
  assert (H6 : (0 < 1)%nat -> 0 <= 3) by (intros _; lia).
  assert (H7 : still_running w_then_garbled 300 1).
  { intros [| i] Hi; [|lia]. split.
    - exists running_body. split.
      + eexists; repeat split; reflexivity.
      + eexists; split; reflexivity.
    - reflexivity. }
  assert (H8 : fails_with w_then_garbled (n_net w_then_garbled + 1)
                 (mkExn RequestsJSONDecodeError "Expecting value")).
  { right. eexists. split; [reflexivity|]. right. split; reflexivity. }
  split; [repeat (apply conj); assumption|].
  exact (C6_request_failures_become_error_objects show_float show_str 5 "a cat"
           "job-1" "app" "key" "https://ali.youchuan.cn/v1/tob/diffusion" 3 300
           true false w_refused (mkExn RequestException "connection refused")
           w_then_garbled 1 (mkExn RequestsJSONDecodeError "Expecting value")
           H1 H2 H3 H4 H5 H6 H7 H8).
Defined.

(** C7, at a concrete input: the job runs at the first check and has the
    status 7 at the second. *)
Lemma C7_witness :
  (blank "job-1" = false /\ blank "app" = false /\ blank "key" = false
   /\ ((0 < 1)%nat -> 0 <= 3)
   /\ still_running w_then_queued 300 1
   /\ answers w_then_queued (n_net w_then_queued + 1) queued_body
   /\ has_status queued_body 7
   /\ 7 <> 1 /\ 7 <> 2 /\ 7 <> 3)
  /\ exists w',
       poll show_float show_str (1 + 1) "job-1" "app" "key" 3 300 false
         w_then_queued
       = (Return (json_dumps show_float (Some 2%nat) queued_body, VInt 7), w')
       /\ n_net w' = (n_net w_then_queued + 1 + 1)%nat.
Proof.
  assert (H1 : blank "job-1" = false) by reflexivity.
  assert (H2 : blank "app" = false) by reflexivity.
  assert (H3 : blank "key" = false) by reflexivity.
  assert (H4 : (0 < 1)%nat -> 0 <= 3) by (intros _; lia).
  assert (H5 : still_running w_then_queued 300 1).
  { intros [| i] Hi; [|lia]. split.
    - exists running_body. split.
      + eexists; repeat split; reflexivity.
      + eexists; split; reflexivity.
    - reflexivity. }
  assert (H6 : answers w_then_queued (n_net w_then_queued + 1) queued_body)
    by (eexists; repeat split; reflexivity).
  assert (H7 : has_status queued_body 7) by (eexists; split; reflexivity).
  assert (H8 : 7 <> 1) by lia.
  assert (H9 : 7 <> 2) by lia.
  assert (H10 : 7 <> 3) by lia.
  split; [repeat (apply conj); assumption|].
  exact (C7_poll_unknown_status_is_terminal show_float show_str 0 "job-1" "app"
           "key" 3 300 w_then_queued 1 queued_body 7
           H1 H2 H3 H4 H5 H6 H7 H8 H9 H10).
Defined.

(** C10 as it was stated fails in two ways.  On the text of an object with the
    string "1" under [a], parsing and traversal succeed and the value
    extracted is the string "1", but [result] holds the integer 1 that the
    re-parse made of it.  On the text of an object with a string of 4301 ones
    under [a], parsing and traversal succeed as well, and [extract] returns the
    bare tuple of [default_value]: the re-parse raises the [ValueError] of
    [int()], which the handler of the re-parse does not catch. *)
Lemma C10_counterexample :
  (json_loads read_float default_max_str_digits sample_spare one_text
   = Some (VDict [("a", VStr "1")])
   /\ traverse show_str default_max_str_digits (split_dot (strip "a"))
        (VDict [("a", VStr "1")])
      = inr (VStr "1")
   /\ fst (extract show_float read_float show_str default_max_str_digits
             sample_spare (VStr one_text) "a" (VStr "X") true w_running)
      = Return (UIResult [VInt 1] ["1"] (VInt 1))
   /\ VInt 1 <> VStr "1")
  /\ (json_loads read_float default_max_str_digits sample_spare (ones_text 4301)
      = Some (VDict [("a", VStr (ones 4301))])
      /\ traverse show_str default_max_str_digits (split_dot (strip "a"))
           (VDict [("a", VStr (ones 4301))])
         = inr (VStr (ones 4301))
      /\ fst (extract show_float read_float show_str default_max_str_digits
                sample_spare (VStr (ones_text 4301)) "a" (VStr "X") true w_running)
         = Return (Tuple1 (VStr "X"))).
Proof.
  split; [split; [|split; [|split]] | split; [|split]];
    try (vm_compute; reflexivity).
  discriminate.
Qed.

(** C8, at a concrete input: an object left open is not valid JSON. *)
Lemma C8_witness :
  json_loads read_float default_max_str_digits sample_spare ("{" ++ quoted "a" ++ ":") = None
  /\ exists w',
       extract show_float read_float show_str default_max_str_digits sample_spare (VStr ("{" ++ quoted "a" ++ ":"))
         "a" (VStr "fallback") true w_running
       = (Return (Tuple1 (VStr "fallback")), w').
Proof.
  assert (H : json_loads read_float default_max_str_digits sample_spare ("{" ++ quoted "a" ++ ":") = None)
    by (vm_compute; reflexivity).
  split; [exact H|].
  exact (C8_extract_malformed_json_yields_default show_float read_float show_str default_max_str_digits sample_spare
           ("{" ++ quoted "a" ++ ":") "a" (VStr "fallback") true w_running H).
Defined.

(** ** Closed instances of the further properties *)

Ltac conjs := repeat (apply conj); assumption.

Ltac answered := eexists; repeat split; reflexivity.

Ltac status := eexists; split; reflexivity.

(** X1, at a concrete input: the job id is two spaces. *)
Lemma poll_rejects_blank_input_witness :
  (blank "  " = true \/ blank "app" = true \/ blank "key" = true)
  /\ exists msg w',
       poll show_float show_str 0 "  " "app" "key" 3 300 false w_running
       = (Return (json_dumps show_float None (error_object msg), VInt 0), w')
       /\ steps 0 0 [] w_running w'.
Proof.
  assert (H : blank "  " = true \/ blank "app" = true \/ blank "key" = true)
    by (left; reflexivity).
  split; [exact H|].
  exact (poll_rejects_blank_input show_float show_str 0 "  " "app" "key" 3 300
           false w_running H).
Defined.

(** X2, at a concrete input: the job runs at the first check and is done at
    the second. *)
Lemma poll_returns_the_job_once_it_stops_running_witness :
  (blank " job-1 " = false /\ blank "app" = false /\ blank "key" = false
   /\ ((0 < 1)%nat -> 0 <= 3)
   /\ still_running w_then_done 300 1
   /\ answers w_then_done (n_net w_then_done + 1) done_body
   /\ has_status done_body 2
   /\ 2 <> 1)
  /\ exists w',
       poll show_float show_str (1 + 1) " job-1 " "app" "key" 3 300 false
         w_then_done
       = (Return (json_dumps show_float (Some 2%nat) done_body, VInt 2), w')
       /\ steps (1 + 1) 2
            (waits 1 (job_url (strip " job-1 ")) (credentials "app" "key") 3
             ++ [check (job_url (strip " job-1 ")) (credentials "app" "key")])
            w_then_done w'.
Proof.
  assert (H1 : blank " job-1 " = false) by reflexivity.
  assert (H2 : blank "app" = false) by reflexivity.
  assert (H3 : blank "key" = false) by reflexivity.
  assert (H4 : (0 < 1)%nat -> 0 <= 3) by (intros _; lia).
  assert (H5 : still_running w_then_done 300 1).
  { intros [| i] Hi; [|lia]. split; [|reflexivity].
    exists running_body. split; [answered | status]. }
  assert (H6 : answers w_then_done (n_net w_then_done + 1) done_body) by answered.
  assert (H7 : has_status done_body 2) by status.
  assert (H8 : 2 <> 1) by lia.
  split; [conjs|].
  exact (poll_returns_the_job_once_it_stops_running show_float show_str 0 " job-1 "
           "app" "key" 3 300 w_then_done 1 done_body 2 H1 H2 H3 H4 H5 H6 H7 H8).
Defined.

(** X3, at a concrete input: the first response has a comment and no status. *)
Lemma poll_reads_a_missing_status_as_zero_witness :
  (blank "job-1" = false /\ blank "app" = false /\ blank "key" = false
   /\ ((0 < 0)%nat -> 0 <= 3)
   /\ still_running w_unlabelled 300 0
   /\ answers w_unlabelled (n_net w_unlabelled + 0)
        (VDict [("comment", VStr "no status here")])
   /\ dict_get [("comment", VStr "no status here")] "status" = None)
  /\ exists w',
       poll show_float show_str (0 + 1) "job-1" "app" "key" 3 300 false
         w_unlabelled
       = (Return (json_dumps show_float (Some 2%nat) unlabelled_body, VInt 0), w')
       /\ n_net w' = (n_net w_unlabelled + 0 + 1)%nat.
Proof.
  assert (H1 : blank "job-1" = false) by reflexivity.
  assert (H2 : blank "app" = false) by reflexivity.
  assert (H3 : blank "key" = false) by reflexivity.
  assert (H4 : (0 < 0)%nat -> 0 <= 3) by (intros _; lia).
  assert (H5 : still_running w_unlabelled 300 0) by (intros i Hi; lia).
  assert (H6 : answers w_unlabelled (n_net w_unlabelled + 0)
                 (VDict [("comment", VStr "no status here")])) by answered.
  assert (H7 : dict_get [("comment", VStr "no status here")] "status" = None)
    by reflexivity.
  split; [conjs|].
  exact (poll_reads_a_missing_status_as_zero show_float show_str 0 "job-1" "app"
           "key" 3 300 w_unlabelled 0 [("comment", VStr "no status here")]
           H1 H2 H3 H4 H5 H6 H7).
Defined.

(** X4, at a concrete input: the job runs for ever and the clock, at 200 then
    400 seconds, stays within a deadline of 1000. *)
Lemma poll_keeps_polling_while_the_job_runs_witness :
  (blank "job-1" = false /\ blank "app" = false /\ blank "key" = false
   /\ ((0 < 2)%nat -> 0 <= 3)
   /\ still_running w_running 1000 2)
  /\ exists w',
       poll show_float show_str 2 "job-1" "app" "key" 3 1000 false w_running
       = (OutOfFuel, w')
       /\ steps 2 3 (waits 2 (job_url (strip "job-1")) (credentials "app" "key") 3)
            w_running w'.
Proof.
  assert (H1 : blank "job-1" = false) by reflexivity.
  assert (H2 : blank "app" = false) by reflexivity.
  assert (H3 : blank "key" = false) by reflexivity.
  assert (H4 : (0 < 2)%nat -> 0 <= 3) by (intros _; lia).
  assert (H5 : still_running w_running 1000 2).
  { intros [| [| i]] Hi; [| |lia]; (split; [|reflexivity]);
      exists running_body; (split; [answered | status]). }
  split; [conjs|].
  exact (poll_keeps_polling_while_the_job_runs show_float show_str "job-1" "app"
           "key" 3 1000 w_running 2 H1 H2 H3 H4 H5).
Defined.

(** X7, at a concrete input: the submission is accepted with the id "job-1". *)
Lemma submit_returns_the_id_and_the_body_witness :
  (blank "a cat" = false /\ blank "app" = false /\ blank "key" = false
   /\ answers w_accepted (n_net w_accepted)
        (VDict [("id", VStr "job-1"); ("status", VInt 1)]))
  /\ exists w',
       submit show_float show_str "a cat" "app" "key" endpoint0 w_accepted
       = (Return (id_of [("id", VStr "job-1"); ("status", VInt 1)],
                  json_dumps show_float (Some 2%nat) accepted_body), w')
       /\ steps 1 0 [submission endpoint0 "a cat" "app" "key"] w_accepted w'.
Proof.
  assert (H1 : blank "a cat" = false) by reflexivity.
  assert (H2 : blank "app" = false) by reflexivity.
  assert (H3 : blank "key" = false) by reflexivity.
  assert (H4 : answers w_accepted (n_net w_accepted)
                 (VDict [("id", VStr "job-1"); ("status", VInt 1)])) by answered.
  split; [conjs|].
  exact (submit_returns_the_id_and_the_body show_float show_str "a cat" "app" "key"
           endpoint0 w_accepted [("id", VStr "job-1"); ("status", VInt 1)]
           H1 H2 H3 H4).
Defined.

(** X8, at a concrete input: the submission is accepted and [auto_poll] is
    off. *)
Lemma run_returns_the_submission_when_it_does_not_poll_witness :
  (blank "a cat" = false /\ blank "app" = false /\ blank "key" = false
   /\ answers w_accepted (n_net w_accepted)
        (VDict [("id", VStr "job-1"); ("status", VInt 1)])
   /\ (false = false
       \/ truthy (id_of [("id", VStr "job-1"); ("status", VInt 1)]) = false
       \/ py_eq_int (status_of [("id", VStr "job-1"); ("status", VInt 1)]) 1
          = false))
  /\ exists w',
       run show_float show_str 0 "a cat" "app" "key" endpoint0 3 300 false
         w_accepted
       = (Return (json_dumps show_float (Some 2%nat) accepted_body), w')
       /\ steps 1 0 [submission endpoint0 "a cat" "app" "key"] w_accepted w'.
Proof.
  assert (H1 : blank "a cat" = false) by reflexivity.
  assert (H2 : blank "app" = false) by reflexivity.
  assert (H3 : blank "key" = false) by reflexivity.
  assert (H4 : answers w_accepted (n_net w_accepted)
                 (VDict [("id", VStr "job-1"); ("status", VInt 1)])) by answered.
  assert (H5 : false = false
               \/ truthy (id_of [("id", VStr "job-1"); ("status", VInt 1)]) = false
               \/ py_eq_int (status_of [("id", VStr "job-1"); ("status", VInt 1)]) 1
                  = false) by (left; reflexivity).
  split; [conjs|].
  exact (run_returns_the_submission_when_it_does_not_poll show_float show_str 0
           "a cat" "app" "key" endpoint0 3 300 false w_accepted
           [("id", VStr "job-1"); ("status", VInt 1)] H1 H2 H3 H4 H5).
Defined.

(** X9, at a concrete input: every response decodes to an empty list. *)
Lemma a_body_that_is_not_an_object_is_an_error_witness :
  (blank "a cat" = false /\ blank "job-1" = false
   /\ blank "app" = false /\ blank "key" = false
   /\ answers w_list (n_net w_list) (VList [])
   /\ is_object (VList []) = false)
  /\ (exists w',
        run show_float show_str 5 "a cat" "app" "key" endpoint0 3 300 true w_list
        = (Return (json_dumps show_float None
                     (error_object ("未知错误: " ++ no_get_msg (VList [])))), w')
        /\ n_net w' = S (n_net w_list))
  /\ (exists w',
        submit show_float show_str "a cat" "app" "key" endpoint0 w_list
        = (Return (VStr "",
                   json_dumps show_float None
                     (error_object ("未知错误: " ++ no_get_msg (VList [])))), w')
        /\ n_net w' = S (n_net w_list))
  /\ (exists w',
        poll show_float show_str 6 "job-1" "app" "key" 3 300 false w_list
        = (Return (json_dumps show_float None
                     (job_error_object ("轮询过程出错: " ++ no_get_msg (VList []))
                        (VStr "job-1")), VInt 0), w')
        /\ n_net w' = S (n_net w_list)).
Proof.
  assert (H1 : blank "a cat" = false) by reflexivity.
  assert (H2 : blank "job-1" = false) by reflexivity.
  assert (H3 : blank "app" = false) by reflexivity.
  assert (H4 : blank "key" = false) by reflexivity.
  assert (H5 : answers w_list (n_net w_list) (VList [])) by answered.
  assert (H6 : is_object (VList []) = false) by reflexivity.
  split; [conjs|].
  exact (a_body_that_is_not_an_object_is_an_error show_float show_str 5 "a cat"
           "job-1" "app" "key" endpoint0 3 300 true false w_list (VList [])
           H1 H2 H3 H4 H5 H6).
Defined.

(** X10, at a concrete input: the submission is accepted, the job runs at the
    first check and is done at the second. *)
Lemma run_returns_the_job_once_it_stops_running_witness :
  (blank "a cat" = false /\ blank "app" = false /\ blank "key" = false
   /\ answers w_job (n_net w_job) accepted_body
   /\ has_status accepted_body 1
   /\ has_id accepted_body (VStr "job-1")
   /\ truthy (VStr "job-1") = true
   /\ ((0 < 1)%nat -> 0 <= 3)
   /\ job_still_running w_job 300 1
   /\ exceeds w_job (clock w_job (n_clock w_job)) (n_clock w_job + 1 + 1) 300 = false
   /\ answers w_job (n_net w_job + 1 + 1) done_body
   /\ has_status done_body 2
   /\ 2 <> 1)
  /\ exists w',
       run show_float show_str (1 + 1) "a cat" "app" "key" endpoint0 3 300 true w_job
       = (Return (json_dumps show_float (Some 2%nat) done_body), w')
       /\ steps (1 + 2) (1 + 2)
            (submission endpoint0 "a cat" "app" "key"
             :: waits 1 (job_url (py_str show_float show_str (VStr "job-1")))
                  (credentials "app" "key") 3
             ++ [check (job_url (py_str show_float show_str (VStr "job-1")))
                   (credentials "app" "key")])
            w_job w'.
Proof.
  assert (H1 : blank "a cat" = false) by reflexivity.
  assert (H2 : blank "app" = false) by reflexivity.
  assert (H3 : blank "key" = false) by reflexivity.
  assert (H4 : answers w_job (n_net w_job) accepted_body) by answered.
  assert (H5 : has_status accepted_body 1) by status.
  assert (H6 : has_id accepted_body (VStr "job-1")) by status.
  assert (H7 : truthy (VStr "job-1") = true) by reflexivity.
  assert (H8 : (0 < 1)%nat -> 0 <= 3) by (intros _; lia).
  assert (H9 : job_still_running w_job 300 1).
  { intros [| i] Hi; [|lia]. split; [|reflexivity].
    exists running_body. split; [answered | status]. }
  assert (H10 : exceeds w_job (clock w_job (n_clock w_job)) (n_clock w_job + 1 + 1)
                  300 = false) by reflexivity.
  assert (H11 : answers w_job (n_net w_job + 1 + 1) done_body) by answered.
  assert (H12 : has_status done_body 2) by status.
  assert (H13 : 2 <> 1) by lia.
  split; [conjs|].
  exact (run_returns_the_job_once_it_stops_running show_float show_str 0 "a cat"
           "app" "key" endpoint0 3 300 w_job accepted_body (VStr "job-1") 1
           done_body 2 H1 H2 H3 H4 H5 H6 H7 H8 H9 H10 H11 H12 H13).
Defined.

(** X11, at a concrete input: the second turn starts 400 seconds after the
    first reading, past a deadline of 300, while the job is done by then. *)
Lemma run_gives_up_at_the_deadline_without_a_last_check_witness :
  (blank "a cat" = false /\ blank "app" = false /\ blank "key" = false
   /\ answers w_job_slow (n_net w_job_slow) accepted_body
   /\ has_status accepted_body 1
   /\ has_id accepted_body (VStr "job-1")
   /\ truthy (VStr "job-1") = true
   /\ ((0 < 1)%nat -> 0 <= 3)
   /\ job_still_running w_job_slow 300 1
   /\ exceeds w_job_slow (clock w_job_slow (n_clock w_job_slow))
        (n_clock w_job_slow + 1 + 1) 300 = true)
  /\ exists w',
       run show_float show_str (1 + 1) "a cat" "app" "key" endpoint0 3 300 true
         w_job_slow
       = (Return (json_dumps show_float (Some 2%nat)
                    (job_error_object (timeout_msg 300) (VStr "job-1"))), w')
       /\ steps (1 + 1) (1 + 2)
            (submission endpoint0 "a cat" "app" "key"
             :: waits 1 (job_url (py_str show_float show_str (VStr "job-1")))
                  (credentials "app" "key") 3)
            w_job_slow w'.
Proof.
  assert (H1 : blank "a cat" = false) by reflexivity.
  assert (H2 : blank "app" = false) by reflexivity.
  assert (H3 : blank "key" = false) by reflexivity.
  assert (H4 : answers w_job_slow (n_net w_job_slow) accepted_body) by answered.
  assert (H5 : has_status accepted_body 1) by status.
  assert (H6 : has_id accepted_body (VStr "job-1")) by status.
  assert (H7 : truthy (VStr "job-1") = true) by reflexivity.
  assert (H8 : (0 < 1)%nat -> 0 <= 3) by (intros _; lia).
  assert (H9 : job_still_running w_job_slow 300 1).
  { intros [| i] Hi; [|lia]. split; [|reflexivity].
    exists running_body. split; [answered | status]. }
  assert (H10 : exceeds w_job_slow (clock w_job_slow (n_clock w_job_slow))
                  (n_clock w_job_slow + 1 + 1) 300 = true) by reflexivity.
  split; [conjs|].
  exact (run_gives_up_at_the_deadline_without_a_last_check show_float show_str 0
           "a cat" "app" "key" endpoint0 3 300 w_job_slow accepted_body
           (VStr "job-1") 1 H1 H2 H3 H4 H5 H6 H7 H8 H9 H10).
Defined.

(** X12, at a concrete input: the submission is accepted and the first status
    check is refused by the transport. *)
Lemma run_reports_a_failed_status_check_witness :
  (blank "a cat" = false /\ blank "app" = false /\ blank "key" = false
   /\ answers w_job_refused (n_net w_job_refused) accepted_body
   /\ has_status accepted_body 1
   /\ has_id accepted_body (VStr "job-1")
   /\ truthy (VStr "job-1") = true
   /\ ((0 < 0)%nat -> 0 <= 3)
   /\ job_still_running w_job_refused 300 0
   /\ exceeds w_job_refused (clock w_job_refused (n_clock w_job_refused))
        (n_clock w_job_refused + 1 + 0) 300 = false
   /\ fails_with w_job_refused (n_net w_job_refused + 1 + 0)
        (mkExn RequestException "connection refused"))
  /\ exists msg w',
       run show_float show_str (0 + 1) "a cat" "app" "key" endpoint0 3 300 true
         w_job_refused
       = (Return (json_dumps show_float (Some 2%nat)
                    (job_error_object msg (VStr "job-1"))), w')
       /\ n_net w' = (n_net w_job_refused + 0 + 2)%nat.
Proof.
  assert (H1 : blank "a cat" = false) by reflexivity.
  assert (H2 : blank "app" = false) by reflexivity.
  assert (H3 : blank "key" = false) by reflexivity.
  assert (H4 : answers w_job_refused (n_net w_job_refused) accepted_body)
    by answered.
  assert (H5 : has_status accepted_body 1) by status.
  assert (H6 : has_id accepted_body (VStr "job-1")) by status.
  assert (H7 : truthy (VStr "job-1") = true) by reflexivity.
  assert (H8 : (0 < 0)%nat -> 0 <= 3) by (intros _; lia).
  assert (H9 : job_still_running w_job_refused 300 0) by (intros i Hi; lia).
  assert (H10 : exceeds w_job_refused (clock w_job_refused (n_clock w_job_refused))
                  (n_clock w_job_refused + 1 + 0) 300 = false) by reflexivity.
  assert (H11 : fails_with w_job_refused (n_net w_job_refused + 1 + 0)
                  (mkExn RequestException "connection refused"))
    by (left; reflexivity).
  split; [conjs|].
  exact (run_reports_a_failed_status_check show_float show_str 0 "a cat" "app"
           "key" endpoint0 3 300 w_job_refused accepted_body (VStr "job-1") 0
           (mkExn RequestException "connection refused")
           H1 H2 H3 H4 H5 H6 H7 H8 H9 H10 H11).
Defined.

(** X14, at a concrete input: the JSON text of an object with null under
    [seed], with [return_as_string] on. *)
Lemma extract_spells_null_and_booleans_as_python_does_witness :
  (decoded read_float default_max_str_digits sample_spare (VStr ("{" ++ quoted "seed" ++ ":null}"))
   = Some (VDict [("seed", VNone)])
   /\ traverse show_str default_max_str_digits (split_dot (strip "seed")) (VDict [("seed", VNone)]) = inr VNone)
  /\ (VNone = VNone ->
      exists w',
        extract show_float read_float show_str default_max_str_digits sample_spare
          (VStr ("{" ++ quoted "seed" ++ ":null}")) "seed" (VStr "") true w_running
        = (Return (UIResult [VStr "None"] ["None"] (VStr "None")), w')).
Proof.
  assert (H1 : decoded read_float default_max_str_digits sample_spare (VStr ("{" ++ quoted "seed" ++ ":null}"))
               = Some (VDict [("seed", VNone)])) by (vm_compute; reflexivity).
  assert (H2 : traverse show_str default_max_str_digits (split_dot (strip "seed")) (VDict [("seed", VNone)])
               = inr VNone) by reflexivity.
  split; [conjs|].
  exact (proj1 (extract_spells_null_and_booleans_as_python_does show_float
                  read_float show_str default_max_str_digits sample_spare (VStr ("{" ++ quoted "seed" ++ ":null}"))
                  "seed" (VStr "") true w_running (VDict [("seed", VNone)]) VNone H1 H2)).
Defined.


(** X17, at a concrete input: the first address of a finished job. *)
Lemma extract_returns_a_url_unchanged_witness :
  (decoded read_float default_max_str_digits sample_spare done_body = Some done_body
   /\ traverse show_str default_max_str_digits (split_dot (strip "urls.0")) done_body
      = inr (VStr ("http" ++ "s://img/1.png")))
  /\ exists w',
       extract show_float read_float show_str default_max_str_digits sample_spare done_body "urls.0" (VStr "") true w_running
       = (Return (UIResult [VStr ("http" ++ "s://img/1.png")]
                    ["http" ++ "s://img/1.png"]
                    (VStr ("http" ++ "s://img/1.png"))), w').
Proof.
  assert (H1 : decoded read_float default_max_str_digits sample_spare done_body = Some done_body) by reflexivity.
  assert (H2 : traverse show_str default_max_str_digits (split_dot (strip "urls.0")) done_body
               = inr (VStr ("http" ++ "s://img/1.png"))) by reflexivity.
  split; [conjs|].
  exact (extract_returns_a_url_unchanged show_float read_float show_str default_max_str_digits sample_spare done_body
           "urls.0" (VStr "") true w_running done_body "s://img/1.png" H1 H2).
Defined.

